(** * claude-monitor: the hook pipeline and the session store

    A shallow embedding of [claude_monitor/hook.py] and
    [claude_monitor/state.py], and the properties of the status projection
    they maintain; and of [install] and [uninstall] of
    [claude_monitor/main.py], which edit the settings document that makes
    the hook run.

    Modelling choices, fixed once for the whole development:

    - A parsed JSON document is a [value].  Numbers are integers, the only
      numbers [write_session] writes; a float on disk is outside the model.
      A dict is an association list read by first match, the way a dict
      obtained from [json.loads] answers [get].
    - The sessions directory is a finite map from the file stem (the session
      identifier, assumed free of path separators) to the state of that file:
      either a text that
      [json.loads(path.read_text())] rejects with [JSONDecodeError] or
      [OSError] ([Unreadable]), or the document it parses to ([Json]).
      [json.dump] followed by [json.loads] is the identity on [value], and the
      temp-file-and-rename of [write_session] is one map update; [unlink]
      and the rename succeed.
    - The notification handed to [handle_hook] is a JSON object whose members
      are strings (the inbound schema); a key that is absent is absent from
      the map.
    - Python exceptions that no handler of the two modules catches
      ([TypeError], [AttributeError], and the [UnicodeDecodeError] of a
      transcript that does not decode) are results: [Raised].  They leave
      [handle_hook] and are swallowed only by [main].
    - What the two modules ask of their surroundings is a [Variable] of the
      section: the wall clock is an argument ([now]), the rest of the file
      system ([.git] markers, transcripts), [datetime.fromisoformat], the
      float [timestamp()] returns, the word characters of the Unicode
      database beyond ASCII, the text Python formats a non-string as, and
      the order in which [glob] lists the directory.
    - A string is the string of the bytes of its UTF-8 encoding (a text with
      a lone surrogate has none and is outside the model), compared byte by
      byte: the order of UTF-8 is the order of code points.  The white space
      of [str.strip()] is the full list of [str.isspace], matched on the
      encodings; [\w] is decided here on ASCII and by the environment
      beyond.
    - A float is counted in units of 2^-1074, of which every finite float
      is a whole number.  Only the sort key of [get_sessions] is kept as a
      float; the two age tests compare microsecond counts, which is what
      the float tests come to at the thresholds they are used with. *)

From Stdlib Require Import ZArith String Ascii List Bool Lia Permutation Sorted.
From stdpp Require Import base option list gmap strings fin_maps.

Local Open Scope string_scope.
Local Open Scope Z_scope.
Local Open Scope list_scope.

(** ** JSON documents and the Python operations applied to them *)

#[warnings="-register-all"]
Inductive value : Type :=
  | VNull
  | VBool (b : bool)
  | VInt (n : Z)
  | VStr (s : string)
  | VList (l : list value)
  | VDict (d : list (string * value)).

Abbreviation dict := (list (string * value)).

Inductive exn : Type := TypeError | AttributeError | UnicodeDecodeError.

Inductive outcome (A : Type) : Type :=
  | Done (a : A)
  | Raised (e : exn).
Arguments Done {A} a.
Arguments Raised {A} e.

#[global] Instance outcome_ret : MRet outcome := fun A a => Done a.
#[global] Instance outcome_bind : MBind outcome := fun A B f m =>
  match m with Done a => f a | Raised e => Raised e end.

(** [d.get(k)] on a dict: [None] when the key is missing. *)
Fixpoint dict_get (d : dict) (k : string) : option value :=
  match d with
  | [] => None
  | (k', v) :: d' => if String.eqb k' k then Some v else dict_get d' k
  end.

(** [d.get(k, dflt)] on a dict. *)
Definition get_or (d : dict) (k : string) (dflt : value) : value :=
  default dflt (dict_get d k).

(** [x.get(k, dflt)] on an arbitrary document: only a dict has [get]. *)
Definition py_get (x : value) (k : string) (dflt : value) : outcome value :=
  match x with
  | VDict d => Done (get_or d k dflt)
  | _ => Raised AttributeError
  end.

(** [isinstance(x, dict)] *)
Definition is_dict (x : value) : bool :=
  match x with VDict _ => true | _ => false end.

(** Truth value of a document, as [if x:] / [not x] / [x or y] test it. *)
Definition truthy (x : value) : bool :=
  match x with
  | VNull => false
  | VBool b => b
  | VInt n => negb (n =? 0)
  | VStr s => negb (String.eqb s "")
  | VList l => match l with [] => false | _ => true end
  | VDict d => match d with [] => false | _ => true end
  end.

(** [x == "lit"] for a string literal or a string variable. *)
Definition eq_str (x : value) (s : string) : bool :=
  match x with VStr s' => String.eqb s' s | _ => false end.

(** [x in ("a", "b", ...)] *)
Definition in_strs (x : value) (ss : list string) : bool :=
  existsb (eq_str x) ss.

(** A bool counts as the integer 0 or 1 in arithmetic and comparisons. *)
Definition as_num (x : value) : option Z :=
  match x with
  | VBool b => Some (Z.b2z b)
  | VInt n => Some n
  | _ => None
  end.

(** [x == y] between documents. *)
Fixpoint py_eq (x y : value) {struct x} : bool :=
  match x, y with
  | VNull, VNull => true
  | VStr s, VStr t => String.eqb s t
  | VList l, VList m =>
      (fix all2 (l m : list value) {struct l} : bool :=
         match l, m with
         | [], [] => true
         | a :: l', b :: m' => py_eq a b && all2 l' m'
         | _, _ => false
         end) l m
  | VDict d, VDict e =>
      Nat.eqb (length d) (length e) &&
      (fix each (d : dict) {struct d} : bool :=
         match d with
         | [] => true
         | (k, v) :: d' =>
             match dict_get e k with
             | Some w => py_eq v w && each d'
             | None => false
             end
         end) d
  | _, _ =>
      match as_num x, as_num y with
      | Some a, Some b => a =? b
      | _, _ => false
      end
  end.

(** [x > y] between documents: defined on two numbers, two strings (code
    point order) and two lists (first differing element, then length). *)
Fixpoint py_gt (x y : value) {struct x} : outcome bool :=
  match x, y with
  | VStr s, VStr t => Done (String.ltb t s)
  | VList l, VList m =>
      (fix lex (l m : list value) {struct l} : outcome bool :=
         match l, m with
         | [], _ => Done false
         | _ :: _, [] => Done true
         | a :: l', b :: m' => if py_eq a b then lex l' m' else py_gt a b
         end) l m
  | _, _ =>
      match as_num x, as_num y with
      | Some a, Some b => Done (b <? a)
      | _, _ => Raised TypeError
      end
  end.

(** [for e in x]: a list yields its elements, a string its characters, a dict
    its keys; anything else is not iterable. *)
Definition py_iter (x : value) : outcome (list value) :=
  match x with
  | VList l => Done l
  | VStr s => Done (map (fun c => VStr (String c "")) (list_ascii_of_string s))
  | VDict d => Done (map (fun kv => VStr (fst kv)) d)
  | _ => Raised TypeError
  end.

(** [x += 1] *)
Definition py_incr (x : value) : outcome value :=
  match as_num x with
  | Some n => Done (VInt (n + 1))
  | None => Raised TypeError
  end.

(** ** The sessions directory *)

Inductive file : Type :=
  | Unreadable
  | Json (v : value).

Abbreviation disk := (gmap string file).

(** ** Transcripts *)

(** How the iteration over the lines of a transcript stops: at the end of
    the file, on an [OSError], or on bytes that do not decode
    ([UnicodeDecodeError], a [ValueError]). *)
Inductive ending : Type :=
  | EndOfFile
  | ReadError
  | DecodeError.

(** ** [_clean_prompt]: the two markup patterns and [strip]

    A text is the string of the bytes of its UTF-8 encoding.  The patterns
    are ASCII apart from [\w], and no byte of an ASCII character occurs
    inside the encoding of another character, so matching on bytes is
    matching on characters; [\w] and the white space of [strip] are read
    off whole characters. *)

(** [\w] on an ASCII character. *)
Definition is_word (c : ascii) : bool :=
  let n := N_of_ascii c in
  ((48 <=? n) && (n <=? 57) || (65 <=? n) && (n <=? 90) ||
   (97 <=? n) && (n <=? 122) || (n =? 95))%N.

(** White space as [str.strip()] removes it ([str.isspace]): the ASCII
    characters U+0009 to U+000D and U+001C to U+0020, ... *)
Definition is_space (c : ascii) : bool :=
  let n := N_of_ascii c in
  ((9 <=? n) && (n <=? 13) || (28 <=? n) && (n <=? 32))%N.

(** ... U+0085 and U+00A0, encoded on two bytes, ... *)
Definition is_space2 (c1 c2 : ascii) : bool :=
  let n1 := N_of_ascii c1 in
  let n2 := N_of_ascii c2 in
  ((n1 =? 194) && ((n2 =? 133) || (n2 =? 160)))%N.

(** ... and U+1680, U+2000 to U+200A, U+2028, U+2029, U+202F, U+205F and
    U+3000, encoded on three. *)
Definition is_space3 (c1 c2 c3 : ascii) : bool :=
  let n1 := N_of_ascii c1 in
  let n2 := N_of_ascii c2 in
  let n3 := N_of_ascii c3 in
  ((n1 =? 225) && (n2 =? 154) && (n3 =? 128) ||
   (n1 =? 226) && (n2 =? 128) &&
     ((128 <=? n3) && (n3 <=? 138) || (n3 =? 168) || (n3 =? 169) || (n3 =? 175)) ||
   (n1 =? 226) && (n2 =? 129) && (n3 =? 159) ||
   (n1 =? 227) && (n2 =? 128) && (n3 =? 128))%N.


(** The rest of [s] after the literal [p], when [s] starts with it. *)
Fixpoint after_literal (p s : string) : option string :=
  match p, s with
  | EmptyString, _ => Some s
  | String a p', String b s' =>
      if Ascii.eqb a b then after_literal p' s' else None
  | String _ _, EmptyString => None
  end.

(** [<system-reminder>] and [</system-reminder>] at the start of [s]. *)
Definition system_open : string -> option string :=
  after_literal "<system-reminder>".
Definition system_close : string -> option string :=
  after_literal "</system-reminder>".

(** The lazy [.*?] (with DOTALL) followed by the closing pattern: the rest of
    [s] after the first place at which [close] matches. *)
Fixpoint after_first (close : string -> option string) (s : string)
  : option string :=
  match close s with
  | Some r => Some r
  | None =>
      match s with
      | String _ s' => after_first close s'
      | EmptyString => None
      end
  end.

(** The number of bytes of the match of [open .*? close] that starts at
    the head of [s], if there is one. *)
Definition span_length (open close : string -> option string) (s : string)
  : option nat :=
  r ← open s; r' ← after_first close r;
  Some (String.length s - String.length r')%nat.

(** [re.sub(open .*? close, "", s)]: scanning from the left, every match is
    dropped and the scan resumes behind it.  [skip] counts the bytes of
    the current match still to drop. *)
Fixpoint sub_spans (open close : string -> option string) (skip : nat)
  (s : string) : string :=
  match s with
  | EmptyString => EmptyString
  | String c s' =>
      match skip with
      | S k => sub_spans open close k s'
      | O =>
          match span_length open close s with
          | Some n => sub_spans open close (Nat.pred n) s'
          | None => String c (sub_spans open close O s')
          end
      end
  end.

(** [lstrip]: the white space characters at the head are dropped, one after
    the other ([space_at], written out for the recursion). *)
Fixpoint lstrip (s : string) : string :=
  match s with
  | String c1 r1 =>
      if is_space c1 then lstrip r1
      else match r1 with
           | String c2 r2 =>
               if is_space2 c1 c2 then lstrip r2
               else match r2 with
                    | String c3 r3 =>
                        if is_space3 c1 c2 c3 then lstrip r3 else s
                    | EmptyString => s
                    end
           | EmptyString => s
           end
  | EmptyString => s
  end.

(** [rstrip]: the text up to the first place from which on there is only
    white space. *)
Fixpoint rstrip (s : string) : string :=
  match s with
  | String c s' =>
      if String.eqb (lstrip (String c s')) "" then EmptyString
      else String c (rstrip s')
  | EmptyString => s
  end.

Definition strip (s : string) : string := rstrip (lstrip s).

(** ** [pathlib]: as much of [Path] as [_project_name] uses *)

Record Path : Type := mkPath { root : string; parts : list string }.

Fixpoint split_on (sep : ascii) (s : string) : list string :=
  match s with
  | EmptyString => [EmptyString]
  | String c s' =>
      let r := split_on sep s' in
      if Ascii.eqb c sep then EmptyString :: r
      else match r with
           | h :: r' => String c h :: r'
           | [] => [String c EmptyString]
           end
  end.

Fixpoint leading (sep : ascii) (s : string) : nat :=
  match s with
  | String c s' => if Ascii.eqb c sep then S (leading sep s') else O
  | EmptyString => O
  end.

(** [Path(s)]: one leading slash, or three and more, make the root ["/"];
    exactly two make ["//"]; empty and ["."] components are dropped. *)
Definition parse_path (s : string) : Path :=
  {| root := match leading "/" s with
             | O => ""
             | 2%nat => "//"
             | _ => "/"
             end;
     parts := filter (fun x => negb (String.eqb x "") && negb (String.eqb x "."))
                     (split_on "/" s) |}.

(** [d.name] *)
Definition name (d : Path) : string := List.last (parts d) "".

(** [d / x] for a single component [x] *)
Definition joinpath (d : Path) (x : string) : Path :=
  {| root := root d; parts := parts d ++ [x] |}.

(** [d == d.parent]: only the root and ["."] are their own parent. *)
Definition is_own_parent (d : Path) : bool :=
  match parts d with [] => true | _ => false end.

(** The prefixes of a list, shortest first. *)
Fixpoint inits {A} (l : list A) : list (list A) :=
  [] :: match l with
        | [] => []
        | x :: l' => map (cons x) (inits l')
        end.

(** [[p, *p.parents]]: [p] and its ancestors, nearest first. *)
Definition lineage (p : Path) : list Path :=
  map (mkPath (root p)) (rev (inits (parts p))).

(** ** [state.py]: the records *)

(** The dataclasses do not enforce their annotations: a field holds whatever
    document it was given. *)
Module SubagentState.
Record t : Type := make {
  agent_id : value;
  agent_type : value;
  status : value;
  last_updated : value
}.
End SubagentState.

Module SessionState.
Record t : Type := make {
  session_id : value;
  cwd : value;
  project : value;
  status : value;
  tool_name : value;
  permission_mode : value;
  model : value;
  topic : value;
  last_prompt : value;
  tool_count : value;
  started_at : value;
  last_updated : value;
  subagents : list SubagentState.t
}.

(** [is_active]: [self.status not in ("ENDED",)] *)
Definition is_active (s : t) : bool := negb (in_strs (status s) ["ENDED"]).
End SessionState.

Definition ZOMBIE_THRESHOLD_HOURS : Z := 24.

(** A [datetime], counted in microseconds from [datetime.min] (year 1): aware
    of its offset (then the count is of the UTC instant) or naive. *)
Inductive datetime : Type :=
  | Aware (us : Z)
  | Naive (us : Z).

(** [datetime.min.replace(tzinfo=timezone.utc)] *)
Definition datetime_min_utc : datetime := Aware 0.

(** The object [write_session] serialises for one subagent. *)
Definition subagent_json (sa : SubagentState.t) : value :=
  VDict [("agent_id", SubagentState.agent_id sa);
         ("agent_type", SubagentState.agent_type sa);
         ("status", SubagentState.status sa);
         ("last_updated", SubagentState.last_updated sa)].

(** The object [write_session] serialises: [data = {...}]. *)
Definition session_json (state : SessionState.t) : value :=
  VDict [("session_id", SessionState.session_id state);
         ("cwd", SessionState.cwd state);
         ("project", SessionState.project state);
         ("status", SessionState.status state);
         ("tool_name", SessionState.tool_name state);
         ("permission_mode", SessionState.permission_mode state);
         ("model", SessionState.model state);
         ("topic", SessionState.topic state);
         ("last_prompt", SessionState.last_prompt state);
         ("tool_count", SessionState.tool_count state);
         ("started_at", SessionState.started_at state);
         ("last_updated", SessionState.last_updated state);
         ("subagents", VList (map subagent_json (SessionState.subagents state)))].

(** [SubagentState(agent_id=sa.get("agent_id", ""), ...)] for a dict [sa]. *)
Definition subagent_of_dict (sa : dict) : SubagentState.t :=
  {| SubagentState.agent_id := get_or sa "agent_id" (VStr "");
     SubagentState.agent_type := get_or sa "agent_type" (VStr "");
     SubagentState.status := get_or sa "status" (VStr "running");
     SubagentState.last_updated := get_or sa "last_updated" (VStr "") |}.

(** The same on an arbitrary element: [sa.get] needs a dict. *)
Definition subagent_of_value (sa : value) : outcome SubagentState.t :=
  match sa with
  | VDict d => Done (subagent_of_dict d)
  | _ => Raised AttributeError
  end.

(** [[SubagentState(...) for sa in l if isinstance(sa, dict)]] *)
Fixpoint subagents_of_dicts (l : list value) : list SubagentState.t :=
  match l with
  | [] => []
  | VDict d :: l' => subagent_of_dict d :: subagents_of_dicts l'
  | _ :: l' => subagents_of_dicts l'
  end.

(** [[SubagentState(...) for sa in l]]: the first element that is not a dict
    raises. *)
Fixpoint subagents_of_values (l : list value) : outcome (list SubagentState.t) :=
  match l with
  | [] => Done []
  | sa :: l' =>
      s ← subagent_of_value sa;
      r ← subagents_of_values l';
      Done (s :: r)
  end.

(** ** [hook.py]: the constants *)

Definition _USER_INPUT_TOOLS : list string := ["ExitPlanMode"; "AskUserQuestion"].

(** [EVENT_STATE_MAP.get(event)]: [None] both for ["Notification"], which the
    table maps to [None], and for an event the table does not have. *)
Definition EVENT_STATE_MAP (event : string) : option string :=
  if String.eqb event "SessionStart" then Some "STARTING"
  else if String.eqb event "UserPromptSubmit" then Some "THINKING"
  else if String.eqb event "PreToolUse" then Some "EXECUTING"
  else if String.eqb event "PermissionRequest" then Some "PERMISSION"
  else if String.eqb event "PostToolUse" then Some "THINKING"
  else if String.eqb event "Stop" then Some "WAITING"
  else if String.eqb event "Notification" then None
  else if String.eqb event "SessionEnd" then Some "ENDED"
  else None.

(** A member of the notification as [data.get(k)] returns it. *)
Definition opt_value (o : option string) : value :=
  match o with Some s => VStr s | None => VNull end.

(** ** [main.py]: installing and removing the hooks *)

Definition HOOK_EVENTS : list string :=
  [ "SessionStart"; "UserPromptSubmit"; "PreToolUse"; "PermissionRequest";
    "PostToolUse"; "Stop"; "SessionEnd"; "Notification"; "SubagentStart";
    "SubagentStop" ].

Definition USAGE_HOOK_EVENTS : list string := [ "Stop"; "UserPromptSubmit" ].

Definition HOOK_MARKER : string := "claude-monitor".

(** [m in s] between two strings: [m] occurs in [s]. *)
Fixpoint contains (m s : string) : bool :=
  String.prefix m s ||
  match s with
  | EmptyString => false
  | String _ s' => contains m s'
  end.

(** [m in x] for a string [m]: a substring of a string, an element of a
    list, a key of a dict; nothing else is a container. *)
Definition py_in (m : string) (x : value) : outcome bool :=
  match x with
  | VStr s => Done (contains m s)
  | VList l => Done (existsb (fun e => eq_str e m) l)
  | VDict d => Done (match dict_get d m with Some _ => true | None => false end)
  | _ => Raised TypeError
  end.

(** [d[k] = v]: a key that is present keeps its place, a new one goes
    last. *)
Fixpoint dict_set (d : dict) (k : string) (v : value) : dict :=
  match d with
  | [] => [(k, v)]
  | (k', v') :: d' =>
      if String.eqb k' k then (k', v) :: d' else (k', v') :: dict_set d' k v
  end.

(** [d.pop(k, None)] *)
Definition dict_pop (d : dict) (k : string) : dict :=
  List.filter (fun kv => negb (String.eqb (fst kv) k)) d.

(** [x[k] = v] and [x.pop(k, None)] on an arbitrary document. *)
Definition py_setitem (x : value) (k : string) (v : value) : outcome value :=
  match x with
  | VDict d => Done (VDict (dict_set d k v))
  | _ => Raised TypeError
  end.

Definition py_pop (x : value) (k : string) : outcome value :=
  match x with
  | VDict d => Done (VDict (dict_pop d k))
  | VList _ => Raised TypeError
  | _ => Raised AttributeError
  end.

(** The loop of [_is_our_hook] over the nested handlers. *)
Fixpoint any_marked (subs : list value) : outcome bool :=
  match subs with
  | [] => Done false
  | sub :: rest =>
      match sub with
      | VDict d =>
          marked ← py_in HOOK_MARKER (get_or d "command" (VStr ""));
          if marked : bool then Done true else any_marked rest
      | _ => any_marked rest
      end
  end.

Definition _is_our_hook (h : value) : outcome bool :=
  match h with
  | VDict d =>
      marked ← py_in HOOK_MARKER (get_or d "command" (VStr ""));
      if marked : bool then Done true
      else
        subs ← py_iter (get_or d "hooks" (VList []));
        any_marked subs
  | _ => Done false
  end.

(** [which] is what [shutil.which("claude-monitor")] returns. *)
Definition _get_hook_command (which : option string) : string :=
  match which with
  | Some cmd => if String.eqb cmd "" then "claude-monitor hook" else cmd ++ " hook"
  | None => "claude-monitor hook"
  end.

Definition _get_usage_hook_command (which : option string) : string :=
  match which with
  | Some cmd =>
      if String.eqb cmd "" then "claude-monitor usage-hook"
      else cmd ++ " usage-hook"
  | None => "claude-monitor usage-hook"
  end.

Definition handler (command : string) : value :=
  VDict [ ("type", VStr "command"); ("command", VStr command);
          ("async", VBool true) ].

(** The dict [_build_hooks_config] returns, from an event to its list of
    entries. *)
Definition _build_hooks_config (which : option string)
  : list (string * list value) :=
  let command := _get_hook_command which in
  let usage_command := _get_usage_hook_command which in
  map (fun event =>
         let hook_handlers :=
           handler command ::
           (if existsb (String.eqb event) USAGE_HOOK_EVENTS
            then [handler usage_command] else []) in
         (event,
          [ VDict [ ("matcher", VStr ".*"); ("hooks", VList hook_handlers) ] ]))
      HOOK_EVENTS.

(** [settings] is the state of [~/.claude/settings.json]: [None] when the
    file does not exist. *)
Definition _load_settings (settings : option file) : value :=
  match settings with
  | Some (Json v) => v
  | Some Unreadable => VDict []
  | None => VDict []
  end.

(** [[h for h in event_hooks if not _is_our_hook(h)]] over the items of
    [event_hooks]. *)
Fixpoint not_ours (items : list value) : outcome (list value) :=
  match items with
  | [] => Done []
  | h :: rest =>
      ours ← _is_our_hook h;
      kept ← not_ours rest;
      Done (if ours : bool then kept else h :: kept)
  end.

(** The loop of [install] over [hooks_config.items()]. *)
Fixpoint install_events (hooks_config : list (string * list value))
  (existing_hooks : value) : outcome value :=
  match hooks_config with
  | [] => Done existing_hooks
  | (event, hook_list) :: rest =>
      event_hooks ← py_get existing_hooks event (VList []);
      items ← py_iter event_hooks;
      event_hooks ← not_ours items;
      existing_hooks ←
        py_setitem existing_hooks event (VList (event_hooks ++ hook_list));
      install_events rest existing_hooks
  end.

(** [install]: the document [_save_settings] writes, or the exception that
    leaves the function before it writes. *)
Definition install (which : option string) (settings : option file)
  : outcome value :=
  let settings := _load_settings settings in
  let hooks_config := _build_hooks_config which in
  existing_hooks ← py_get settings "hooks" (VDict []);
  existing_hooks ← install_events hooks_config existing_hooks;
  py_setitem settings "hooks" existing_hooks.

(** The loop of [uninstall] over [HOOK_EVENTS]. *)
Fixpoint uninstall_events (events : list string) (existing_hooks : value)
  : outcome value :=
  match events with
  | [] => Done existing_hooks
  | event :: rest =>
      event_hooks ← py_get existing_hooks event (VList []);
      items ← py_iter event_hooks;
      event_hooks ← not_ours items;
      existing_hooks ←
        (if truthy (VList event_hooks)
         then py_setitem existing_hooks event (VList event_hooks)
         else py_pop existing_hooks event);
      uninstall_events rest existing_hooks
  end.

Definition uninstall (settings : option file) : outcome value :=
  let settings := _load_settings settings in
  existing_hooks ← py_get settings "hooks" (VDict []);
  existing_hooks ← uninstall_events HOOK_EVENTS existing_hooks;
  if truthy existing_hooks
  then py_setitem settings "hooks" existing_hooks
  else py_pop settings "hooks".

(** What the two loops do when nothing raises, as functions on the dict:
    [was] is the dict the loop started from. *)
Definition foreign (was : dict) (event : string) : list value :=
  match dict_get was event with
  | Some (VList l) => l
  | _ => []
  end.

Definition installed (was : dict) (hooks_config : list (string * list value))
  (d : dict) : dict :=
  fold_left (fun d eh => dict_set d (fst eh) (VList (foreign was (fst eh) ++ snd eh)))
            hooks_config d.

Definition restored (was : dict) (events : list string) (d : dict) : dict :=
  fold_left (fun d event =>
               match dict_get was event with
               | Some v => dict_set d event v
               | None => dict_pop d event
               end)
            events d.

(** A hooks dict that holds no hook of ours and no empty list, at the
    events of [events]. *)
Definition pristine (events : list string) (hooks : dict) : Prop :=
  forall event, event ∈ events ->
    dict_get hooks event = None \/
    exists l, dict_get hooks event = Some (VList l) /\ l <> [] /\
              not_ours l = Done l.

(** The entries of an event in a settings document. *)
Definition hooks_at (settings : value) (event : string) : option value :=
  match settings with
  | VDict d =>
      match dict_get d "hooks" with
      | Some (VDict hooks) => dict_get hooks event
      | _ => None
      end
  | _ => None
  end.

(** Whether [_is_our_hook] answers [True]. *)
Definition is_ours (h : value) : bool :=
  match _is_our_hook h with
  | Done true => true
  | _ => false
  end.

(** ** A concrete environment, for the examples

    One repository with its marker at [/repo/proj/.git], one transcript, a
    parser for the timestamps [_now_iso] writes, and a directory listing. *)

Definition demo_format (v : value) : string :=
  match v with
  | VNull => "None"
  | VBool true => "True"
  | VBool false => "False"
  | _ => "?"
  end.

Definition demo_exists (p : Path) : bool :=
  String.eqb (root p) "/" && bool_decide (parts p = ["repo"; "proj"; ".git"]).

Definition demo_transcript (path : string)
  : option (list (option value) * ending) :=
  if String.eqb path "/t/s1.jsonl" then
    Some ([None;
           Some (VDict [("type", VStr "summary")]);
           Some (VDict [("type", VStr "user");
                        ("message", VDict [("content", VStr " <ide_selection>x</ide_selection>")])]);
           Some (VDict [("type", VStr "user");
                        ("message", VDict [("content", VStr "refactor the parser ")])])],
          EndOfFile)
  else None.

(** The same, with a transcript on which the iteration yields one line and
    then meets bytes that do not decode. *)
Definition torn_transcript (path : string)
  : option (list (option value) * ending) :=
  if String.eqb path "/t/torn.jsonl" then
    Some ([Some (VDict [("type", VStr "summary")])], DecodeError)
  else demo_transcript path.

(** [\w] beyond ASCII, for the characters below U+0180: the letters, digits
    and numbers of Latin-1 (all of U+00C0 to U+00FF but the two operators,
    and nine signs below) and all of Latin Extended-A.  The examples have no
    character beyond. *)
Definition demo_wide_word (c : string) : bool :=
  match c with
  | String c1 (String c2 EmptyString) =>
      let n1 := N_of_ascii c1 in
      let n2 := N_of_ascii c2 in
      ((n1 =? 194) &&
         ((n2 =? 170) || (n2 =? 178) || (n2 =? 179) || (n2 =? 181) ||
          (n2 =? 185) || (n2 =? 186) || (n2 =? 188) || (n2 =? 189) ||
          (n2 =? 190)) ||
       (n1 =? 195) && (128 <=? n2) && (n2 <=? 191) &&
         negb (n2 =? 151) && negb (n2 =? 183) ||
       ((n1 =? 196) || (n1 =? 197)) && (128 <=? n2) && (n2 <=? 191))%N
  | _ => false
  end.

(** Exactly [n] decimal digits at the head of [s]. *)
Fixpoint read_digits (n : nat) (acc : Z) (s : string) : option (Z * string) :=
  match n with
  | O => Some (acc, s)
  | S n' =>
      match s with
      | String c s' =>
          let k := N_of_ascii c in
          if ((48 <=? k) && (k <=? 57))%N
          then read_digits n' (10 * acc + (Z.of_N k - 48)) s'
          else None
      | EmptyString => None
      end
  end.

Definition is_leap (y : Z) : bool :=
  ((y mod 4 =? 0) && negb (y mod 100 =? 0)) || (y mod 400 =? 0).

Definition days_in_month (y m : Z) : Z :=
  if m =? 2 then (if is_leap y then 29 else 28)
  else if (m =? 4) || (m =? 6) || (m =? 9) || (m =? 11) then 30 else 31.

Fixpoint days_before_month (y : Z) (m : nat) : Z :=
  match m with
  | O => 0
  | S m' => days_before_month y m' + days_in_month y (Z.of_nat m)
  end.

(** Days from 0001-01-01 to the given date of the proleptic Gregorian
    calendar. *)
Definition days_from_min (y m d : Z) : Z :=
  365 * (y - 1) + (y - 1) / 4 - (y - 1) / 100 + (y - 1) / 400
  + days_before_month y (Z.to_nat (m - 1)) + (d - 1).

(** [YYYY-MM-DDTHH:MM:SS], an optional [.ffffff], then [+00:00] (aware) or
    nothing (naive). *)
Definition demo_fromisoformat (s : string) : option datetime :=
  '(y, s) ← read_digits 4 0 s; s ← after_literal "-" s;
  '(m, s) ← read_digits 2 0 s; s ← after_literal "-" s;
  '(d, s) ← read_digits 2 0 s; s ← after_literal "T" s;
  '(hh, s) ← read_digits 2 0 s; s ← after_literal ":" s;
  '(mm, s) ← read_digits 2 0 s; s ← after_literal ":" s;
  '(ss, s) ← read_digits 2 0 s;
  '(f, s) ← match after_literal "." s with
            | Some s' => read_digits 6 0 s'
            | None => Some (0, s)
            end;
  if (1 <=? y) && (1 <=? m) && (m <=? 12) && (1 <=? d) &&
     (d <=? days_in_month y m) && (hh <? 24) && (mm <? 60) && (ss <? 60)
  then
    let us := (((days_from_min y m d * 24 + hh) * 60 + mm) * 60 + ss) * 1000000 + f in
    if String.eqb s "+00:00" then Some (Aware us)
    else if String.eqb s "" then Some (Naive us)
    else None
  else None.

Definition demo_glob (fs : disk) : list string := map fst (map_to_list fs).

(** The integer nearest to [n / d], ties to the even one, for [0 < d]. *)
Definition round_half_even (n d : Z) : Z :=
  let q := n / d in
  let r := n mod d in
  if 2 * r <? d then q
  else if d <? 2 * r then q + 1
  else if Z.even q then q else q + 1.

(** The float nearest to [n / d], ties to even, for [0 < d], as its count
    of units of 2^-1074: a significand of 53 bits at the exponent of
    [n / d] (overflow is not modelled). *)
Definition nearest_float (n d : Z) : Z :=
  if n =? 0 then 0
  else
    let a := Z.abs n in
    let e := Z.max (-1074) (Z.log2 (a * 2 ^ 1074 / d) - 1074 - 52) in
    let m := if 0 <=? e then round_half_even a (d * 2 ^ e)
             else round_half_even (a * 2 ^ (- e)) d in
    Z.sgn n * (m * 2 ^ (e + 1074)).

(** [timestamp()]: the microseconds from 1970, divided by 10**6.  Local
    time is UTC. *)
Definition demo_timestamp (dt : datetime) : Z :=
  match dt with
  | Aware us | Naive us => nearest_float (us - 62135596800000000) 1000000
  end.

(** The clock reading of a timestamp, in microseconds from [datetime.min]. *)
Definition demo_clock (s : string) : Z :=
  match demo_fromisoformat s with
  | Some (Aware us) | Some (Naive us) => us
  | None => 0
  end.

(** U+00A0, the no-break space, and U+00E9, the letter e with an acute
    accent, as they are encoded. *)
Definition nbsp : string :=
  String (ascii_of_N 194) (String (ascii_of_N 160) EmptyString).

Definition e_acute : string :=
  String (ascii_of_N 195) (String (ascii_of_N 169) EmptyString).

(** Notifications of a session ["S1"], and clock readings. *)

Definition notification (members : list (string * string)) : gmap string string :=
  list_to_map members.

Definition n_start : gmap string string :=
  notification [("session_id", "S1"); ("hook_event_name", "SessionStart");
                ("cwd", "/repo/proj/src"); ("model", "opus")].

Definition n_prompt : gmap string string :=
  notification [("session_id", "S1"); ("hook_event_name", "UserPromptSubmit");
                ("cwd", "/repo/proj/src");
                ("prompt", "<system-reminder>x</system-reminder>fix the bug")].


Definition n_permission : gmap string string :=
  notification [("session_id", "S1"); ("hook_event_name", "PermissionRequest");
                ("cwd", "/repo/proj/src"); ("tool_name", "Bash")].

Definition n_stop : gmap string string :=
  notification [("session_id", "S1"); ("hook_event_name", "Stop");
                ("cwd", "/repo/proj/src")].

Definition n_stop_torn : gmap string string :=
  notification [("session_id", "S1"); ("hook_event_name", "Stop");
                ("cwd", "/repo/proj/src");
                ("transcript_path", "/t/torn.jsonl")].

Definition n_post_tool : gmap string string :=
  notification [("session_id", "S1"); ("hook_event_name", "PostToolUse")].

Definition n_generic : gmap string string :=
  notification [("session_id", "S1"); ("hook_event_name", "Notification");
                ("cwd", "/repo/proj/src")].

Definition n_unknown : gmap string string :=
  notification [("session_id", "S1"); ("hook_event_name", "PreCompact");
                ("cwd", "/repo/proj/src")].

Definition n_agent_start : gmap string string :=
  notification [("session_id", "S1"); ("hook_event_name", "SubagentStart");
                ("agent_id", "a1"); ("agent_type", "Explore")].

Definition n_end : gmap string string :=
  notification [("session_id", "S1"); ("hook_event_name", "SessionEnd")].

Definition t_0901 : string := "2024-01-02T09:00:01+00:00".
Definition t_1000 : string := "2024-01-02T10:00:00+00:00".
Definition t_1005 : string := "2024-01-02T10:05:00.250000+00:00".
Definition t_1200 : string := "2024-01-02T12:00:00+00:00".

(** A record as [write_session] lays it out. *)
Definition record (sid status project topic stamp : string) (subagents : list value)
  : dict :=
  [("session_id", VStr sid); ("cwd", VStr "/repo/proj/src");
   ("project", VStr project); ("status", VStr status); ("tool_name", VNull);
   ("permission_mode", VStr ""); ("model", VStr "opus"); ("topic", VStr topic);
   ("last_prompt", VStr ""); ("tool_count", VInt 3); ("started_at", VStr t_0901);
   ("last_updated", VStr stamp); ("subagents", VList subagents)].

(** A directory with a record of ["S1"] stamped 10:00. *)
Definition fs_s1 (status : string) : disk :=
  {[ "S1" := Json (VDict (record "S1" status "proj" "fix the bug" t_1000 [])) ]}.

(** A directory with a fresh record, a record more than a day old, a record
    without [last_updated], and a file that does not parse. *)
Definition fs_mixed : disk :=
  <[ "fresh" := Json (VDict (record "fresh" "THINKING" "proj" "" t_1000 [])) ]>
  (<[ "old" := Json (VDict (record "old" "WAITING" "proj" ""
                                   "2023-12-31T23:59:59+00:00" [])) ]>
  (<[ "bare" := Json (VDict [("session_id", VStr "bare"); ("status", VStr "THINKING")]) ]>
  (<[ "torn" := Unreadable ]> ∅))).

(** The record of ["S1"] a run with clock reading [stamp] would save. *)
Definition state_s1 (status stamp : string) : SessionState.t :=
  {| SessionState.session_id := VStr "S1";
     SessionState.cwd := VStr "/repo/proj/src";
     SessionState.project := VStr "proj";
     SessionState.status := VStr status;
     SessionState.tool_name := VNull;
     SessionState.permission_mode := VStr "";
     SessionState.model := VStr "opus";
     SessionState.topic := VStr "fix the bug";
     SessionState.last_prompt := VStr "";
     SessionState.tool_count := VInt 3;
     SessionState.started_at := VStr t_0901;
     SessionState.last_updated := VStr stamp;
     SessionState.subagents := [] |}.

(** A directory with one more file, a JSON document that is not an object;
    and a directory whose record of ["S1"] is not an object. *)
Definition fs_stray : disk := <[ "stray" := Json (VList []) ]> fs_mixed.

Definition fs_bad : disk := {[ "S1" := Json (VList []) ]}.

(** A directory of the year 2300, when the floats of [timestamp()] are
    more than a microsecond apart: two records stamped one microsecond one
    after the other, and one stamped a second before them. *)
Definition t_2300 : string := "2300-01-01T00:00:05+00:00".

Definition fs_far : disk :=
  <[ "a" := Json (VDict (record "a" "THINKING" "proj" ""
                                 "2300-01-01T00:00:00.000001+00:00" [])) ]>
  (<[ "b" := Json (VDict (record "b" "THINKING" "proj" ""
                                  "2300-01-01T00:00:00.000002+00:00" [])) ]>
  (<[ "c" := Json (VDict (record "c" "THINKING" "proj" ""
                                  "2299-12-31T23:59:59+00:00" [])) ]> ∅)).

(** The mixed directory with the record of ["S1"] beside the others. *)
Definition fs_with_s1 : disk :=
  <[ "S1" := Json (VDict (record "S1" "WAITING" "proj" "fix the bug" t_1000 [])) ]>
  fs_mixed.

(** Settings with the hook of another tool, and the same with a hook of
    ours in the flat format before it. *)
Definition demo_which : option string := Some "/usr/local/bin/claude-monitor".

Definition other_hook : value :=
  VDict [("type", VStr "command"); ("command", VStr "notify-send done")].

Definition flat_hook : value :=
  VDict [("type", VStr "command"); ("command", VStr "claude-monitor hook")].

Definition demo_settings : dict :=
  [("model", VStr "opus"); ("hooks", VDict [("Stop", VList [other_hook])])].

Definition demo_settings_flat : dict :=
  [("model", VStr "opus");
   ("hooks", VDict [("Stop", VList [flat_hook; other_hook])])].

(** What [main] of [hook.py] finds on standard input: nothing but white
    space, a text [json.loads] rejects, or an object. *)
Inductive stdin : Type :=
  | Blank
  | NotJson
  | Payload (data : gmap string string).

(** ** What the two modules ask of their surroundings *)

Section Monitor.

Set Default Proof Using "Type".

(** [\w] beyond ASCII: whether the character with this UTF-8 encoding, of
    two to four bytes, is a word character for [re] (a letter, a digit or a
    number of the Unicode database). *)
Variable wide_word : string -> bool.
(** The text an f-string formats a document as, used for one that is not a
    string (a string is formatted as itself). *)
Variable format_value : value -> string.
(** [path.exists()] in the part of the file system outside the sessions
    directory. *)
Variable path_exists : Path -> bool.
(** The transcript at a path: [None] when it does not exist or opening it
    raises [OSError]; otherwise the lines the iteration yields, each one
    the document [json.loads] parses it to, or [None] where it raises
    [JSONDecodeError], and how the iteration stops behind them. *)
Variable read_transcript : string -> option (list (option value) * ending).
(** [datetime.fromisoformat]: [None] where it raises [ValueError]. *)
Variable fromisoformat : string -> option datetime.
(** [dt.timestamp()]: the float it returns, counted in units of 2^-1074,
    of which every finite float is a whole number, so that negating and
    comparing floats is negating and comparing the counts. *)
Variable timestamp : datetime -> Z.
(** The stems of the files [MONITOR_DIR.glob("*.json")] yields, in the
    order in which it yields them. *)
Variable glob : disk -> list string.

(** Section variables are arrows, and [tauto], [intuition] and [auto] pick
    arrows up as hypotheses: proofs that call them drop the variables the
    goal does not mention first. *)
Ltac tidy :=
  try clear glob; try clear timestamp; try clear fromisoformat;
  try clear read_transcript;
  try clear path_exists; try clear format_value; try clear wide_word.

(** *** [state.py] *)

(** [_session_path]: the stem of [MONITOR_DIR / f"{session_id}.json"]. *)
Definition _session_path (session_id : value) : string :=
  match session_id with
  | VStr s => s
  | other => format_value other
  end.

Definition write_session (state : SessionState.t) (fs : disk)
  : outcome unit * disk :=
  let path := _session_path (SessionState.session_id state) in
  let written := <[path := Json (session_json state)]> fs in
  match fs !! path with
  | Some (Json existing) =>
      (* Anti-regression: don't overwrite with a stale event *)
      match existing_ts ← py_get existing "last_updated" (VStr "");
            py_gt existing_ts (SessionState.last_updated state) with
      | Done true => (Done (), fs)
      | Done false => (Done (), written)
      | Raised e => (Raised e, fs)
      end
  | Some Unreadable => (Done (), written)
  | None => (Done (), written)
  end.

Definition remove_session (session_id : string) (fs : disk) : disk :=
  delete (_session_path (VStr session_id)) fs.

(** [last_updated_dt]: a value that is not a string raises [TypeError], a
    string that does not parse [ValueError]; both give the minimum. *)
Definition last_updated_dt (state : SessionState.t) : datetime :=
  match SessionState.last_updated state with
  | VStr s => default datetime_min_utc (fromisoformat s)
  | _ => datetime_min_utc
  end.

(** [(now - state.last_updated_dt).total_seconds() / 3600 >
    ZOMBIE_THRESHOLD_HOURS], with [now] aware: subtracting a naive datetime
    raises.  The quotient is a float; rounding is monotone and exact at 24
    hours, so the test is the comparison of the microsecond counts. *)
Definition is_zombie (now : Z) (state : SessionState.t) : outcome bool :=
  match last_updated_dt state with
  | Aware us => Done (ZOMBIE_THRESHOLD_HOURS * 3600 * 1000000 <? now - us)
  | Naive _ => Raised TypeError
  end.

(** The body of the loop of [get_sessions] up to the zombie test: the
    record read from the document of the file with stem [stem]. *)
Definition load_session (stem : string) (data : value)
  : outcome SessionState.t :=
  match data with
  | VDict d =>
      items ← py_iter (get_or d "subagents" (VList []));
      Done {| SessionState.session_id := get_or d "session_id" (VStr stem);
              SessionState.cwd := get_or d "cwd" (VStr "");
              SessionState.project := get_or d "project" (VStr "");
              SessionState.status := get_or d "status" (VStr "STARTING");
              SessionState.tool_name := get_or d "tool_name" VNull;
              SessionState.permission_mode := get_or d "permission_mode" (VStr "");
              SessionState.model := get_or d "model" (VStr "");
              SessionState.topic := get_or d "topic" (VStr "");
              SessionState.last_prompt := get_or d "last_prompt" (VStr "");
              SessionState.tool_count := get_or d "tool_count" (VInt 0);
              SessionState.started_at := get_or d "started_at" (VStr "");
              SessionState.last_updated := get_or d "last_updated" (VStr "");
              SessionState.subagents := subagents_of_dicts items |}
  | _ => Raised AttributeError
  end.

(** The loop of [get_sessions] over the listed stems. *)
Fixpoint scan (now : Z) (paths : list string) (fs : disk)
  (sessions : list SessionState.t) : outcome (list SessionState.t) * disk :=
  match paths with
  | [] => (Done sessions, fs)
  | stem :: rest =>
      match fs !! stem with
      | Some (Json data) =>
          match state ← load_session stem data;
                old ← is_zombie now state;
                Done (state, old) with
          | Done (state, true) => scan now rest (delete stem fs) sessions
          | Done (state, false) => scan now rest fs (sessions ++ [state])
          | Raised e => (Raised e, fs)
          end
      | _ => scan now rest fs sessions
      end
  end.

(** [list.sort(key=...)]: a stable sort that compares keys with [<].  On
    keys that are comparable with one another every stable sort returns the
    list this insertion sort returns. *)
Fixpoint insert_by {A} (lt : A -> A -> outcome bool) (x : A) (l : list A)
  : outcome (list A) :=
  match l with
  | [] => Done [x]
  | y :: l' =>
      b ← lt y x;
      if b : bool then r ← insert_by lt x l'; Done (y :: r)
      else Done (x :: l)
  end.

Fixpoint sort_by {A} (lt : A -> A -> outcome bool) (l : list A)
  : outcome (list A) :=
  match l with
  | [] => Done []
  | x :: l' => r ← sort_by lt l'; insert_by lt x r
  end.

(** [(not a.is_active, a.last_updated) < (not b.is_active, b.last_updated)] *)
Definition first_key_lt (a b : SessionState.t) : outcome bool :=
  let ia := negb (SessionState.is_active a) in
  let ib := negb (SessionState.is_active b) in
  if Bool.eqb ia ib
  then py_gt (SessionState.last_updated b) (SessionState.last_updated a)
  else Done (negb ia && ib).

(** [-s.last_updated_dt.timestamp()] *)
Definition neg_timestamp (s : SessionState.t) : Z :=
  - timestamp (last_updated_dt s).

(** The same for the key [(not s.is_active, -s.last_updated_dt.timestamp())]. *)
Definition second_key_lt (a b : SessionState.t) : outcome bool :=
  let ia := negb (SessionState.is_active a) in
  let ib := negb (SessionState.is_active b) in
  if Bool.eqb ia ib
  then Done (neg_timestamp a <? neg_timestamp b)
  else Done (negb ia && ib).

Definition get_sessions (now : Z) (fs : disk)
  : outcome (list SessionState.t) * disk :=
  match scan now (glob fs) fs [] with
  | (Done sessions, fs') =>
      (sessions ← sort_by first_key_lt sessions;
       sort_by second_key_lt sessions, fs')
  | (Raised e, fs') => (Raised e, fs')
  end.

(** *** [hook.py]: the patterns of [_clean_prompt] *)

(** The rest of [s] after its longest run of word characters.  The first
    byte of a character tells how many bytes it has. *)
Fixpoint drop_word (s : string) : string :=
  match s with
  | String c1 r1 =>
      let n := N_of_ascii c1 in
      if (n <? 128)%N then
        if is_word c1 then drop_word r1 else s
      else if (n <? 192)%N then s
      else if (n <? 224)%N then
        match r1 with
        | String c2 r2 =>
            if wide_word (String c1 (String c2 "")) then drop_word r2 else s
        | _ => s
        end
      else if (n <? 240)%N then
        match r1 with
        | String c2 (String c3 r3) =>
            if wide_word (String c1 (String c2 (String c3 "")))
            then drop_word r3 else s
        | _ => s
        end
      else
        match r1 with
        | String c2 (String c3 (String c4 r4)) =>
            if wide_word (String c1 (String c2 (String c3 (String c4 ""))))
            then drop_word r4 else s
        | _ => s
        end
  | EmptyString => s
  end.

(** The rest of [s] after a match of [\w+>] at its start. *)
Definition after_name (s : string) : option string :=
  let r := drop_word s in
  if (String.length r <? String.length s)%nat then after_literal ">" r
  else None.

(** [<ide_\w+>] and [</ide_\w+>] at the start of [s]. *)
Definition ide_open (s : string) : option string :=
  r ← after_literal "<ide_" s; after_name r.
Definition ide_close (s : string) : option string :=
  r ← after_literal "</ide_" s; after_name r.

Definition _clean_prompt (text : string) : string :=
  let text := sub_spans ide_open ide_close O text in
  let text := sub_spans system_open system_close O text in
  strip text.

(** *** [hook.py] *)

(** The loop of [_project_name] over [[p, *p.parents]]. *)
Fixpoint walk_up (ds : list Path) (fallback : string) : string :=
  match ds with
  | [] => fallback
  | d :: ds' =>
      if path_exists (joinpath d ".git") then name d
      else if is_own_parent d then fallback
      else walk_up ds' fallback
  end.

Definition _project_name (cwd : string) : string :=
  if String.eqb cwd "" then ""
  else let p := parse_path cwd in walk_up (lineage p) (name p).

(** The loop of [_read_topic_from_transcript] over the lines.  Behind the
    last line the function returns the empty string at the end of the file
    and on an [OSError], which it catches; a [UnicodeDecodeError] leaves
    it. *)
Fixpoint first_user_message (lines : list (option value)) (stop : ending)
  : outcome string :=
  match lines with
  | [] =>
      match stop with
      | DecodeError => Raised UnicodeDecodeError
      | EndOfFile | ReadError => Done ""
      end
  | None :: rest => first_user_message rest stop
  | Some obj :: rest =>
      ty ← py_get obj "type" VNull;
      if eq_str ty "user" then
        message ← py_get obj "message" (VDict []);
        content ← py_get message "content" (VStr "");
        match content with
        | VStr text =>
            let cleaned := _clean_prompt text in
            if String.eqb cleaned "" then first_user_message rest stop
            else Done cleaned
        | _ => first_user_message rest stop
        end
      else first_user_message rest stop
  end.

Definition _read_topic_from_transcript (transcript_path : string)
  : outcome string :=
  if String.eqb transcript_path "" then Done ""
  else match read_transcript transcript_path with
       | None => Done ""
       | Some (lines, stop) => first_user_message lines stop
       end.

(** [any(sa.get("agent_id") == agent_id for sa in subagents)], which stops
    at the first match. *)
Fixpoint has_agent (agent_id : string) (subagents : list value) : outcome bool :=
  match subagents with
  | [] => Done false
  | sa :: rest =>
      a ← py_get sa "agent_id" VNull;
      if eq_str a agent_id then Done true else has_agent agent_id rest
  end.

(** [[sa for sa in subagents if sa.get("agent_id") != agent_id]] *)
Fixpoint without_agent (agent_id : string) (subagents : list value)
  : outcome (list value) :=
  match subagents with
  | [] => Done []
  | sa :: rest =>
      a ← py_get sa "agent_id" VNull;
      r ← without_agent agent_id rest;
      Done (if eq_str a agent_id then r else sa :: r)
  end.

(** The entry [SubagentStart] appends. *)
Definition new_subagent (agent_id agent_type now : string) : value :=
  VDict [("agent_id", VStr agent_id); ("agent_type", VStr agent_type);
         ("status", VStr "running"); ("last_updated", VStr now)].

(** Lines 103-116 of [_handle_subagent]: the subagent list after the event.
    Only a list has [append]; on a string or a dict the search has either
    raised on the first element or found nothing, and [append] raises. *)
Definition merge_subagent (event : string) (subagents : value)
  (agent_id agent_type now : string) : outcome (list value) :=
  if String.eqb event "SubagentStart" then
    match subagents with
    | VList l =>
        found ← has_agent agent_id l;
        Done (if found : bool then l
              else l ++ [new_subagent agent_id agent_type now])
    | _ =>
        items ← py_iter subagents;
        _ ← has_agent agent_id items;
        Raised AttributeError
    end
  else if String.eqb event "SubagentStop" then
    items ← py_iter subagents; without_agent agent_id items
  else py_iter subagents.

(** The record [_handle_subagent] builds from the document [existing]. *)
Definition subagent_state (session_id event : string)
  (data : gmap string string) (now : string) (existing : value)
  : outcome SessionState.t :=
  let agent_id := default "" (data !! "agent_id") in
  let agent_type := default "" (data !! "agent_type") in
  match existing with
  | VDict e =>
      subagents ← merge_subagent event (get_or e "subagents" (VList []))
                                 agent_id agent_type now;
      let status := get_or e "status" (VStr "STARTING") in
      let status :=
        if String.eqb event "SubagentStart" && eq_str status "PERMISSION"
        then VStr "THINKING" else status in
      subagents ← subagents_of_values subagents;
      Done {| SessionState.session_id := get_or e "session_id" (VStr session_id);
              SessionState.cwd := get_or e "cwd" (VStr "");
              SessionState.project := get_or e "project" (VStr "");
              SessionState.status := status;
              SessionState.tool_name := get_or e "tool_name" VNull;
              SessionState.permission_mode := get_or e "permission_mode" (VStr "");
              SessionState.model := get_or e "model" (VStr "");
              SessionState.topic := get_or e "topic" (VStr "");
              SessionState.last_prompt := get_or e "last_prompt" (VStr "");
              SessionState.tool_count := get_or e "tool_count" (VInt 0);
              SessionState.started_at := get_or e "started_at" (VStr now);
              SessionState.last_updated := VStr now;
              SessionState.subagents := subagents |}
  | _ => Raised AttributeError
  end.

Definition _handle_subagent (session_id event : string)
  (data : gmap string string) (now : string) (fs : disk)
  : outcome unit * disk :=
  match fs !! _session_path (VStr session_id) with
  | None => (Done (), fs)
  | Some Unreadable => (Done (), fs)
  | Some (Json existing) =>
      match subagent_state session_id event data now existing with
      | Done state => write_session state fs
      | Raised e => (Raised e, fs)
      end
  end.

(** The locals [existing_*] of [handle_hook]. *)
Record prior : Type := {
  existing_status : value;
  existing_started : value;
  existing_tool : value;
  existing_model : value;
  existing_topic : value;
  existing_prompt : value;
  existing_tool_count : value;
  existing_subagents : list SubagentState.t
}.

(** Lines 193-223: the defaults, overwritten from the file when it exists
    and parses.  A document that is not a dict has no [get]. *)
Definition read_existing (session_id now : string) (fs : disk) : outcome prior :=
  let defaults :=
    {| existing_status := VStr "STARTING";
       existing_started := VStr now;
       existing_tool := VNull;
       existing_model := VStr "";
       existing_topic := VStr "";
       existing_prompt := VStr "";
       existing_tool_count := VInt 0;
       existing_subagents := [] |} in
  match fs !! _session_path (VStr session_id) with
  | None => Done defaults
  | Some Unreadable => Done defaults
  | Some (Json (VDict e)) =>
      items ← py_iter (get_or e "subagents" (VList []));
      Done {| existing_status := get_or e "status" (VStr "STARTING");
              existing_started := get_or e "started_at" (VStr now);
              existing_tool := get_or e "tool_name" VNull;
              existing_model := get_or e "model" (VStr "");
              existing_topic := get_or e "topic" (VStr "");
              existing_prompt := get_or e "last_prompt" (VStr "");
              existing_tool_count := get_or e "tool_count" (VInt 0);
              existing_subagents := subagents_of_dicts items |}
  | Some (Json _) => Raised AttributeError
  end.

(** [new_status == s] for the optional status *)
Definition status_is (new_status : option string) (s : string) : bool :=
  match new_status with Some t => String.eqb t s | None => false end.

(** Lines 232-237: [true] when the event is dropped. *)
Definition regression_guard (new_status : option string) (event : string)
  (existing_status : value) : bool :=
  if status_is new_status "PERMISSION" then
    eq_str existing_status "WAITING" ||
    (String.eqb event "Notification" &&
     in_strs existing_status ["THINKING"; "EXECUTING"; "WAITING"])
  else false.

(** Lines 160-164 and 175-180: the status the event proposes. *)
Definition proposed_status (event : string) (data : gmap string string)
  : option string :=
  let new_status := EVENT_STATE_MAP event in
  let new_status :=
    if String.eqb event "PreToolUse" &&
       match data !! "tool_name" with
       | Some t => existsb (String.eqb t) _USER_INPUT_TOOLS
       | None => false
       end
    then Some "PERMISSION" else new_status in
  if String.eqb event "Notification" then
    if bool_decide (data !! "notification_type" = Some "permission_prompt")
    then Some "PERMISSION" else None
  else new_status.

(** Lines 249-256 *)
Definition next_topic (event : string) (data : gmap string string)
  (existing_topic : value) : outcome value :=
  if String.eqb event "UserPromptSubmit" && truthy (opt_value (data !! "prompt"))
  then
    let cleaned := _clean_prompt (default "" (data !! "prompt")) in
    Done (if String.eqb cleaned "" then existing_topic else VStr cleaned)
  else if negb (truthy existing_topic) then
    t ← _read_topic_from_transcript (default "" (data !! "transcript_path"));
    Done (VStr t)
  else Done existing_topic.

(** Lines 232-280: the record built from the event and the locals, or
    [None] where the guard returns. *)
Definition hook_state (session_id event : string) (data : gmap string string)
  (now : string) (new_status : option string) (p : prior)
  : outcome (option SessionState.t) :=
  let cwd := default "" (data !! "cwd") in
  let tool_name :=
    if String.eqb event "PreToolUse" || String.eqb event "PermissionRequest"
    then opt_value (data !! "tool_name") else VNull in
  let permission_mode := default "" (data !! "permission_mode") in
  if regression_guard new_status event (existing_status p) then Done None
  else
    let status :=
      match new_status with
      | Some s => if String.eqb s "" then existing_status p else VStr s
      | None => existing_status p
      end in
    let model :=
      if String.eqb event "SessionStart"
      then VStr (default "" (data !! "model")) else existing_model p in
    let last_prompt :=
      if String.eqb event "UserPromptSubmit"
      then VStr (default "" (data !! "prompt")) else existing_prompt p in
    topic ← next_topic event data (existing_topic p);
    tool_count ← (if String.eqb event "PostToolUse"
                  then py_incr (existing_tool_count p)
                  else Done (existing_tool_count p));
    let subagents :=
      if String.eqb event "Stop" then [] else existing_subagents p in
    Done (Some {| SessionState.session_id := VStr session_id;
                  SessionState.cwd := VStr cwd;
                  SessionState.project := VStr (_project_name cwd);
                  SessionState.status := status;
                  SessionState.tool_name := tool_name;
                  SessionState.permission_mode := VStr permission_mode;
                  SessionState.model := model;
                  SessionState.topic := topic;
                  SessionState.last_prompt := last_prompt;
                  SessionState.tool_count := tool_count;
                  SessionState.started_at := existing_started p;
                  SessionState.last_updated := VStr now;
                  SessionState.subagents := subagents |}).

(** [handle_hook], with the clock reading [now] that [_now_iso()] returns
    in this run. *)
Definition handle_hook (data : gmap string string) (now : string) (fs : disk)
  : outcome unit * disk :=
  let session_id := default "" (data !! "session_id") in
  if String.eqb session_id "" then (Done (), fs)
  else
    let event := default "" (data !! "hook_event_name") in
    if String.eqb event "SessionEnd" then (Done (), remove_session session_id fs)
    else if String.eqb event "SubagentStart" || String.eqb event "SubagentStop"
    then _handle_subagent session_id event data now fs
    else
      let new_status := proposed_status event data in
      if bool_decide (new_status = None) && negb (String.eqb event "Notification")
      then (Done (), fs)
      else
        match p ← read_existing session_id now fs;
              hook_state session_id event data now new_status p with
        | Done (Some state) => write_session state fs
        | Done None => (Done (), fs)
        | Raised e => (Raised e, fs)
        end.

(** A sequence of save operations. *)
Definition saves (states : list SessionState.t) (fs : disk) : disk :=
  fold_left (fun fs state => snd (write_session state fs)) states fs.

(** The directory after a sequence of notifications, each with the clock
    reading of its run. *)
Definition run_hooks (events : list (gmap string string * string)) (fs : disk)
  : disk :=
  fold_left (fun fs ev => snd (handle_hook ev.1 ev.2 fs)) events fs.

(** *** Predicates the properties are stated with *)

(** The [agent_id] member of an entry of a persisted subagent list. *)
Definition agent_key (sa : value) : option value :=
  match sa with
  | VDict d => dict_get d "agent_id"
  | _ => None
  end.

Definition agent_ids (l : list value) : list value := omap agent_key l.

(** Every entry is an object with an [agent_id], and no two entries have
    the same one. *)
Definition subagents_ok (l : list value) : Prop :=
  Forall (fun sa => is_Some (agent_key sa)) l /\ NoDup (agent_ids l).

(** The same for the [subagents] sequence of a persisted record. *)
Definition file_ok (f : file) : Prop :=
  match f with
  | Json (VDict e) =>
      match get_or e "subagents" (VList []) with
      | VList l => subagents_ok l
      | _ => True
      end
  | _ => True
  end.

Definition disk_ok (fs : disk) : Prop :=
  forall (k : string) (f : file), fs !! k = Some f -> file_ok f.



(** The members of a record that a subagent notification is to leave
    alone. *)
Definition frame_keys : list string :=
  ["session_id"; "cwd"; "project"; "tool_name"; "permission_mode"; "model";
   "topic"; "last_prompt"; "tool_count"; "started_at"].

(** A file the scan of [get_sessions] does not raise on: one that does not
    parse, or a record whose [subagents] can be iterated and whose
    [last_updated], if it parses, carries an offset. *)
Definition listable (stem : string) (f : file) : Prop :=
  match f with
  | Unreadable => True
  | Json data =>
      exists state us,
        load_session stem data = Done state /\
        last_updated_dt state = Aware us
  end.

(** The record the scan keeps for a stem, if it keeps one. *)
Definition kept (now : Z) (fs : disk) (stem : string) : option SessionState.t :=
  match fs !! stem with
  | Some (Json data) =>
      match load_session stem data with
      | Done state =>
          match is_zombie now state with
          | Done false => Some state
          | _ => None
          end
      | Raised _ => None
      end
  | _ => None
  end.

(** Whether the scan unlinks the file of a stem. *)
Definition reaped (now : Z) (fs : disk) (stem : string) : bool :=
  match fs !! stem with
  | Some (Json data) =>
      match load_session stem data with
      | Done state =>
          match is_zombie now state with
          | Done true => true
          | _ => false
          end
      | Raised _ => false
      end
  | _ => false
  end.

(** *** [hook.py]: the entry point *)

(** [main]: whatever [handle_hook] raises is swallowed, as is the
    [JSONDecodeError] of an input that does not parse; blank input returns
    at once.  What is left of a run is the directory. *)
Definition main (raw : stdin) (now : string) (fs : disk) : disk :=
  match raw with
  | Blank => fs
  | NotJson => fs
  | Payload data => snd (handle_hook data now fs)
  end.

(** *** Further predicates *)

(** No persisted record has the status ENDED. *)
Definition no_ended (fs : disk) : Prop :=
  forall (k : string) (e : dict),
    fs !! k = Some (Json (VDict e)) ->
    get_or e "status" (VStr "STARTING") <> VStr "ENDED".

(** Clock readings none of which is below the one before, the first not
    below [ts]. *)
Fixpoint nondecreasing (ts : string) (l : list string) : Prop :=
  match l with
  | [] => True
  | t :: l' => String.ltb t ts = false /\ nondecreasing t l'
  end.

(** The number of post-tool notifications in a sequence. *)
Definition post_tools (events : list (gmap string string * string)) : nat :=
  length (List.filter
            (fun ev => bool_decide (ev.1 !! "hook_event_name" = Some "PostToolUse"))
            events).

(** A record of session [sid] with an integer [tool_count] [n], the stamp
    [ts] and a list of objects for [subagents]. *)
Definition counting_record (sid : string) (n : Z) (ts : string) (f : file) : Prop :=
  exists (e : dict) (l : list value),
    f = Json (VDict e) /\
    get_or e "session_id" (VStr sid) = VStr sid /\
    get_or e "tool_count" (VInt 0) = VInt n /\
    get_or e "last_updated" (VStr "") = VStr ts /\
    get_or e "subagents" (VList []) = VList l /\
    Forall (fun sa => is_dict sa = true) l.

(** The order of the listing: an active record is listed before one that is
    not, and of two records of the same kind the one with the greater
    [timestamp()] first (the key of the second sort, a float). *)
Definition listed_before (a b : SessionState.t) : Prop :=
  (SessionState.is_active a = false -> SessionState.is_active b = false) /\
  (SessionState.is_active a = SessionState.is_active b ->
   neg_timestamp a <= neg_timestamp b).

(** *** [state.py]: [cleanup_old_sessions] *)

(** The body of the loop for the file of one stem: [true] when the file is
    unlinked.  A text that does not parse ([JSONDecodeError], [OSError]) and
    a [last_updated] string that [fromisoformat] rejects ([ValueError]) are
    caught, and the file is unlinked.  Not caught: [AttributeError] for a
    document without [get], and [TypeError] for a [last_updated] that is not
    a string or that parses without an offset.  [max_age_hours] is a whole
    number of hours from 0 to 1000000 (the one caller passes 1.0): on these
    the float test [total_seconds() / 3600 > max_age_hours] is the
    comparison of the microsecond counts, rounding being monotone and the
    floats next to [3600 * max_age_hours] less than a microsecond apart;
    beyond some 4.7 million hours it is not. *)
Definition cleanup_file (max_age_hours now : Z) (f : file) : outcome bool :=
  match f with
  | Unreadable => Done true
  | Json data =>
      last_updated ← py_get data "last_updated" (VStr "");
      match last_updated with
      | VStr s =>
          match fromisoformat s with
          | None => Done true
          | Some (Aware us) => Done (max_age_hours * 3600 * 1000000 <? now - us)
          | Some (Naive _) => Raised TypeError
          end
      | _ => Raised TypeError
      end
  end.

(** The loop over the listed stems, with the count [removed]. *)
Fixpoint cleanup_scan (max_age_hours now : Z) (paths : list string) (fs : disk)
  (removed : nat) : outcome nat * disk :=
  match paths with
  | [] => (Done removed, fs)
  | stem :: rest =>
      match fs !! stem with
      | Some f =>
          match cleanup_file max_age_hours now f with
          | Done true =>
              cleanup_scan max_age_hours now rest (delete stem fs) (S removed)
          | Done false => cleanup_scan max_age_hours now rest fs removed
          | Raised e => (Raised e, fs)
          end
      | None => cleanup_scan max_age_hours now rest fs removed
      end
  end.

Definition cleanup_old_sessions (max_age_hours now : Z) (fs : disk)
  : outcome nat * disk :=
  cleanup_scan max_age_hours now (glob fs) fs O.

(** Whether the cleanup unlinks the file of a stem. *)
Definition swept (max_age_hours now : Z) (fs : disk) (stem : string) : bool :=
  match fs !! stem with
  | Some f =>
      match cleanup_file max_age_hours now f with
      | Done true => true
      | _ => false
      end
  | None => false
  end.

(** ** Properties *)

(** *** The order on timestamps *)

Lemma ascii_compare_lt_trans (a b c : ascii) :
  Ascii.compare a b = Lt -> Ascii.compare b c = Lt -> Ascii.compare a c = Lt.
Proof.
  unfold Ascii.compare. rewrite !N.compare_lt_iff. lia.
Qed.

Lemma string_compare_lt_trans (a b c : string) :
  String.compare a b = Lt -> String.compare b c = Lt -> String.compare a c = Lt.
Proof.
  revert b c. induction a as [|x a IH]; intros [|y b] [|z c]; simpl; try congruence.
  destruct (Ascii.compare x y) eqn:Hxy; try discriminate.
  - apply Ascii.compare_eq_iff in Hxy. subst y.
    destruct (Ascii.compare x z); try congruence. eauto.
  - intros _. destruct (Ascii.compare y z) eqn:Hyz; try discriminate.
    + apply Ascii.compare_eq_iff in Hyz. subst z. now rewrite Hxy.
    + intros _. now rewrite (ascii_compare_lt_trans _ _ _ Hxy Hyz).
Qed.

Lemma string_compare_refl (a : string) : String.compare a a = Eq.
Proof.
  induction a as [|x a IH]; simpl; [reflexivity|].
  unfold Ascii.compare. now rewrite N.compare_refl.
Qed.

Lemma ltb_irrefl (a : string) : String.ltb a a = false.
Proof. unfold String.ltb. now rewrite string_compare_refl. Qed.

Lemma ltb_asym (a b : string) : String.ltb a b = true -> String.ltb b a = false.
Proof.
  unfold String.ltb. rewrite (String.compare_antisym a b).
  destruct (String.compare b a); simpl; congruence.
Qed.

(** [a <= b <= c] gives [a <= c], with [a <= b] written [b < a = false]. *)
Lemma not_ltb_trans (a b c : string) :
  String.ltb b a = false -> String.ltb c b = false -> String.ltb c a = false.
Proof.
  unfold String.ltb. intros Hba Hcb.
  destruct (String.compare c a) eqn:Hca; try reflexivity. exfalso.
  destruct (String.compare b a) eqn:E; try discriminate.
  - apply String.compare_eq_iff in E. subst b. now rewrite Hca in Hcb.
  - assert (Hab : String.compare a b = Lt).
    { rewrite String.compare_antisym, E. reflexivity. }
    now rewrite (string_compare_lt_trans _ _ _ Hca Hab) in Hcb.
Qed.

(** *** [write_session] *)

Lemma write_session_stale (state : SessionState.t) (fs : disk) (e : dict)
  (ts t : string) :
  fs !! _session_path (SessionState.session_id state) = Some (Json (VDict e)) ->
  get_or e "last_updated" (VStr "") = VStr ts ->
  SessionState.last_updated state = VStr t ->
  String.ltb t ts = true ->
  write_session state fs = (Done (), fs).
Proof.
  intros Hf He Ht Hlt. unfold write_session. rewrite Hf. simpl.
  rewrite He, Ht. simpl. now rewrite Hlt.
Qed.

Lemma write_session_other (state : SessionState.t) (fs : disk) (k : string) :
  k <> _session_path (SessionState.session_id state) ->
  snd (write_session state fs) !! k = fs !! k.
Proof.
  intros Hk. unfold write_session.
  destruct (fs !! _session_path (SessionState.session_id state)) as [[|ex]|];
    simpl; try (now rewrite lookup_insert_ne).
  destruct (_ ← py_get ex "last_updated" (VStr ""); _) as [[|]|]; simpl;
    try reflexivity.
  now rewrite lookup_insert_ne.
Qed.

(** One save keeps a string stamp a string and does not lower it. *)
Lemma write_session_step (state : SessionState.t) (fs : disk) (k : string)
  (e : dict) (t : string) :
  fs !! k = Some (Json (VDict e)) ->
  get_or e "last_updated" (VStr "") = VStr t ->
  exists e' t',
    snd (write_session state fs) !! k = Some (Json (VDict e')) /\
    get_or e' "last_updated" (VStr "") = VStr t' /\
    String.ltb t' t = false.
Proof.
  intros Hf He.
  destruct (decide (k = _session_path (SessionState.session_id state))) as [->|Hne].
  - unfold write_session. rewrite Hf. simpl. rewrite He.
    destruct (SessionState.last_updated state) as [| | |t'| |] eqn:Hl; simpl;
      try (exists e, t; rewrite Hf, He, ltb_irrefl; now auto).
    destruct (String.ltb t' t) eqn:Hlt; simpl.
    + exists e, t. now rewrite Hf, He, ltb_irrefl.
    + eexists _, t'. rewrite lookup_insert_eq. split; [reflexivity|].
      split; [|assumption]. unfold get_or. simpl. now rewrite Hl.
  - exists e, t. rewrite write_session_other by assumption.
    now rewrite Hf, He, ltb_irrefl.
Qed.

(** *** Stale notifications *)

Lemma subagent_state_fields (session_id event : string)
  (data : gmap string string) (now : string) (e : dict) (state : SessionState.t) :
  subagent_state session_id event data now (VDict e) = Done state ->
  SessionState.session_id state = get_or e "session_id" (VStr session_id) /\
  SessionState.last_updated state = VStr now.
Proof.
  unfold subagent_state.
  destruct (merge_subagent _ _ _ _ _) as [l|]; simpl; [|discriminate].
  destruct (subagents_of_values l); simpl; [|discriminate].
  intros [= <-]. now split.
Qed.

Lemma hook_state_fields (session_id event : string) (data : gmap string string)
  (now : string) (new_status : option string) (p : prior) (state : SessionState.t) :
  hook_state session_id event data now new_status p = Done (Some state) ->
  SessionState.session_id state = VStr session_id /\
  SessionState.last_updated state = VStr now.
Proof.
  unfold hook_state.
  destruct (regression_guard _ _ _); [discriminate|].
  destruct (next_topic _ _ _); simpl; [|discriminate].
  destruct (if String.eqb event "PostToolUse" then _ else _); simpl; [|discriminate].
  intros [= <-]. now split.
Qed.

(** A notification other than the end of the session, processed with a
    clock reading below the stamp of the session's record, changes
    nothing. *)
Lemma handle_hook_stale (data : gmap string string) (now : string) (fs : disk)
  (sid : string) (e : dict) (ts : string) :
  data !! "session_id" = Some sid ->
  default "" (data !! "hook_event_name") <> "SessionEnd" ->
  fs !! sid = Some (Json (VDict e)) ->
  get_or e "session_id" (VStr sid) = VStr sid ->
  get_or e "last_updated" (VStr "") = VStr ts ->
  String.ltb now ts = true ->
  snd (handle_hook data now fs) = fs.
Proof.
  intros Hsid Hev Hf Hid Hts Hlt. unfold handle_hook. rewrite Hsid. simpl.
  destruct (String.eqb sid ""); [reflexivity|].
  destruct (String.eqb_spec (default "" (data !! "hook_event_name")) "SessionEnd")
    as [|_]; [contradiction|].
  destruct (_ || _).
  - unfold _handle_subagent. simpl. rewrite Hf.
    destruct (subagent_state _ _ _ _ _) as [state|] eqn:Hs; [|reflexivity].
    apply subagent_state_fields in Hs as [Hs1 Hs2]. rewrite Hid in Hs1.
    erewrite write_session_stale; eauto. now rewrite Hs1.
  - destruct (_ && _); [reflexivity|].
    destruct (read_existing _ _ _) as [p|]; simpl; [|reflexivity].
    destruct (hook_state _ _ _ _ _ _) as [[state|]|] eqn:Hs; try reflexivity.
    apply hook_state_fields in Hs as [Hs1 Hs2].
    erewrite write_session_stale; eauto. now rewrite Hs1.
Qed.

(** C1 (amended).  Two notifications N1 (clock reading [t1]) and N2 (clock
    reading [t2 < t1]) for the same session, processed N1 then N2: when N2
    is not the end of the session and N1's record is the persisted one (the
    session's file holds a record of that session stamped [t1]), the
    directory after both is the directory after N1 alone. *)
Theorem anti_regression (data1 data2 : gmap string string) (t1 t2 : string)
  (fs : disk) (sid : string) (e : dict) :
  data1 !! "session_id" = Some sid ->
  data2 !! "session_id" = Some sid ->
  default "" (data2 !! "hook_event_name") <> "SessionEnd" ->
  String.ltb t2 t1 = true ->
  snd (handle_hook data1 t1 fs) !! sid = Some (Json (VDict e)) ->
  get_or e "session_id" (VStr sid) = VStr sid ->
  get_or e "last_updated" (VStr "") = VStr t1 ->
  run_hooks [(data1, t1); (data2, t2)] fs = run_hooks [(data1, t1)] fs.
Proof.
  intros _ H2 Hev Hlt Hf Hid Hts. unfold run_hooks. simpl.
  eapply handle_hook_stale; eauto.
Qed.

(** C2.  [write_session] re-reads the file and skips the write whenever the
    stamp on disk is greater than the incoming one; so across any sequence
    of saves the [last_updated] of a persisted record never decreases. *)
Theorem last_updated_never_decreases (fs : disk) (k : string) (e : dict)
  (t : string) :
  fs !! k = Some (Json (VDict e)) ->
  get_or e "last_updated" (VStr "") = VStr t ->
  (forall (state : SessionState.t) (t_in : string),
      _session_path (SessionState.session_id state) = k ->
      SessionState.last_updated state = VStr t_in ->
      String.ltb t_in t = true ->
      write_session state fs = (Done (), fs)) /\
  (forall states : list SessionState.t,
      exists e' t',
        saves states fs !! k = Some (Json (VDict e')) /\
        get_or e' "last_updated" (VStr "") = VStr t' /\
        String.ltb t' t = false).
Proof.
  intros Hf He. split.
  - intros state t_in <- Hl Hlt. eapply write_session_stale; eauto.
  - intros states. revert fs e t Hf He.
    induction states as [|state states IH]; intros fs e t Hf He.
    + exists e, t. simpl. now rewrite ltb_irrefl.
    + destruct (write_session_step state fs k e t Hf He) as (e1 & t1 & H1 & H2 & H3).
      destruct (IH _ _ _ H1 H2) as (e2 & t2 & H4 & H5 & H6).
      exists e2, t2. simpl. repeat split; try assumption.
      eapply not_ltb_trans; eauto.
Qed.

(** *** The regression guard *)

Lemma eq_str_iff (v : value) (s : string) : eq_str v s = true <-> v = VStr s.
Proof.
  destruct v; simpl; try (split; [discriminate|congruence]).
  rewrite String.eqb_eq. split; congruence.
Qed.

Lemma status_is_iff (ns : option string) (s : string) :
  status_is ns s = true <-> ns = Some s.
Proof.
  destruct ns; simpl; [|split; discriminate].
  rewrite String.eqb_eq. split; congruence.
Qed.

Lemma regression_guard_iff (ns : option string) (ev : string) (st : value) :
  regression_guard ns ev st = true <->
  ns = Some "PERMISSION" /\
  (st = VStr "WAITING" \/
   (ev = "Notification" /\
    (st = VStr "THINKING" \/ st = VStr "EXECUTING" \/ st = VStr "WAITING"))).
Proof.
  unfold regression_guard, in_strs. simpl.
  destruct (status_is ns "PERMISSION") eqn:Hns.
  - apply status_is_iff in Hns.
    rewrite orb_false_r.
    rewrite !orb_true_iff, andb_true_iff, !orb_true_iff, !eq_str_iff, String.eqb_eq.
    tidy. tauto.
  - split; [discriminate|]. intros [Hp _].
    apply status_is_iff in Hp. congruence.
Qed.

Lemma proposed_permission_event (ev : string) (data : gmap string string) :
  proposed_status ev data = Some "PERMISSION" ->
  ev = "PermissionRequest" \/ ev = "PreToolUse" \/ ev = "Notification".
Proof.
  unfold proposed_status, EVENT_STATE_MAP.
  destruct (String.eqb_spec ev "Notification"); [now auto|].
  destruct (String.eqb_spec ev "PreToolUse"); [now auto|].
  destruct (String.eqb_spec ev "PermissionRequest"); [now auto|].
  simpl. repeat (destruct (String.eqb ev _); try discriminate).
Qed.

Lemma guard_drops (data : gmap string string) (now : string) (fs : disk)
  (p : prior) :
  let sid := default "" (data !! "session_id") in
  let ev := default "" (data !! "hook_event_name") in
  read_existing sid now fs = Done p ->
  regression_guard (proposed_status ev data) ev (existing_status p) = true ->
  handle_hook data now fs = (Done (), fs).
Proof. tidy.
  intros sid ev Hp Hg. unfold handle_hook. fold sid. fold ev.
  destruct (String.eqb sid ""); [reflexivity|].
  pose proof Hg as Hg'. apply regression_guard_iff in Hg' as [Hns _].
  pose proof (proposed_permission_event _ _ Hns) as Hev.
  destruct (String.eqb_spec ev "SessionEnd") as [E|_];
    [rewrite E in Hev; intuition discriminate|].
  destruct (String.eqb_spec ev "SubagentStart") as [E|_];
    [rewrite E in Hev; intuition discriminate|].
  destruct (String.eqb_spec ev "SubagentStop") as [E|_];
    [rewrite E in Hev; intuition discriminate|].
  simpl. rewrite Hns. simpl. rewrite Hp. simpl.
  unfold hook_state. rewrite <- Hns, Hg. reflexivity.
Qed.

Lemma guard_admits (sid ev : string) (data : gmap string string) (now : string)
  (ns : option string) (p : prior) :
  regression_guard ns ev (existing_status p) = false ->
  hook_state sid ev data now ns p <> Done None.
Proof.
  intros Hg. unfold hook_state. rewrite Hg.
  destruct (next_topic _ _ _); simpl; [|discriminate].
  destruct (if String.eqb ev "PostToolUse" then _ else _); simpl; discriminate.
Qed.

(** C3.  The guard drops the event exactly when the proposed status is
    PERMISSION and the existing status is WAITING, or the event is a generic
    notification and the existing status is THINKING, EXECUTING or WAITING; a
    dropped event leaves the directory as it was; and no transition to a
    status other than PERMISSION is dropped. *)
Theorem regression_guard_spec :
  (forall (ns : option string) (ev : string) (st : value),
      regression_guard ns ev st = true <->
      ns = Some "PERMISSION" /\
      (st = VStr "WAITING" \/
       (ev = "Notification" /\
        (st = VStr "THINKING" \/ st = VStr "EXECUTING" \/ st = VStr "WAITING")))) /\
  (forall (data : gmap string string) (now : string) (fs : disk) (p : prior),
      let sid := default "" (data !! "session_id") in
      let ev := default "" (data !! "hook_event_name") in
      read_existing sid now fs = Done p ->
      regression_guard (proposed_status ev data) ev (existing_status p) = true ->
      handle_hook data now fs = (Done (), fs)) /\
  (forall (sid ev : string) (data : gmap string string) (now : string)
          (ns : option string) (p : prior),
      ns <> Some "PERMISSION" ->
      regression_guard ns ev (existing_status p) = false /\
      hook_state sid ev data now ns p <> Done None).
Proof.
  split; [exact regression_guard_iff|]. split; [exact guard_drops|].
  intros sid ev data now ns p Hns.
  assert (Hg : regression_guard ns ev (existing_status p) = false).
  { destruct (regression_guard ns ev (existing_status p)) eqn:Hg; [|reflexivity].
    apply regression_guard_iff in Hg as [Hp _]. contradiction. }
  split; [exact Hg|]. now apply guard_admits.
Qed.

(** *** Notifications that map to no status *)

Lemma unmapped_not_proposed (ev : string) (data : gmap string string) :
  EVENT_STATE_MAP ev = None -> ev <> "Notification" ->
  proposed_status ev data = None.
Proof.
  intros Hm Hn. unfold proposed_status.
  destruct (String.eqb_spec ev "Notification"); [contradiction|].
  destruct (String.eqb_spec ev "PreToolUse") as [E|_];
    [rewrite E in Hm; discriminate|]. exact Hm.
Qed.

Lemma generic_notification_state (sid : string) (data : gmap string string)
  (now : string) (p : prior) :
  data !! "notification_type" <> Some "permission_prompt" ->
  (exists x, hook_state sid "Notification" data now
               (proposed_status "Notification" data) p = Raised x) \/
  (exists state,
      hook_state sid "Notification" data now
        (proposed_status "Notification" data) p = Done (Some state) /\
      SessionState.session_id state = VStr sid /\
      SessionState.status state = existing_status p /\
      SessionState.last_updated state = VStr now).
Proof.
  intros Hty. unfold proposed_status. simpl.
  rewrite bool_decide_eq_false_2 by assumption.
  unfold hook_state. simpl.
  destruct (next_topic _ _ _); simpl; [|left; eauto].
  right. eexists. split; [reflexivity|]. simpl. auto.
Qed.

(** C4 (amended).  A notification whose kind maps to no status and is
    neither a generic notification nor a subagent notification performs no
    write: the directory is left as it was.  A generic notification that
    does not signal a permission prompt is not of that sort: unless it
    raises, it hands [write_session] a record that keeps the existing status
    and carries the clock reading of the run as [last_updated]. *)
Theorem unmapped_event_is_noop :
  (forall (data : gmap string string) (now : string) (fs : disk),
      let ev := default "" (data !! "hook_event_name") in
      EVENT_STATE_MAP ev = None ->
      ev <> "Notification" -> ev <> "SubagentStart" -> ev <> "SubagentStop" ->
      handle_hook data now fs = (Done (), fs)) /\
  (forall (data : gmap string string) (now : string) (fs : disk) (p : prior),
      let sid := default "" (data !! "session_id") in
      sid <> "" ->
      data !! "hook_event_name" = Some "Notification" ->
      data !! "notification_type" <> Some "permission_prompt" ->
      read_existing sid now fs = Done p ->
      (exists x, handle_hook data now fs = (Raised x, fs)) \/
      (exists state,
          handle_hook data now fs = write_session state fs /\
          SessionState.session_id state = VStr sid /\
          SessionState.status state = existing_status p /\
          SessionState.last_updated state = VStr now)).
Proof.
  split.
  - intros data now fs ev Hm Hn Hs1 Hs2. unfold handle_hook. fold ev.
    destruct (String.eqb _ ""); [reflexivity|].
    destruct (String.eqb_spec ev "SessionEnd") as [E|_];
      [rewrite E in Hm; discriminate|].
    destruct (String.eqb_spec ev "SubagentStart"); [contradiction|].
    destruct (String.eqb_spec ev "SubagentStop"); [contradiction|].
    simpl. rewrite unmapped_not_proposed by assumption.
    destruct (String.eqb_spec ev "Notification"); [contradiction|]. reflexivity.
  - intros data now fs p sid Hsid Hev Hty Hp. unfold handle_hook. fold sid.
    destruct (String.eqb_spec sid ""); [contradiction|].
    rewrite Hev. simpl. rewrite Hp. simpl.
    rewrite ?andb_false_r.
    destruct (generic_notification_state sid data now p Hty)
      as [[x Hx]|(state & Hs & H1 & H2 & H3)]; rewrite ?Hx, ?Hs; eauto 10.
Qed.

(** *** Subagent lists *)

Lemma has_agent_found_app (a : string) (l l' : list value) :
  has_agent a l = Done true -> has_agent a (l ++ l') = Done true.
Proof.
  induction l as [|sa l IH]; simpl; [discriminate|].
  destruct (py_get sa "agent_id" VNull) as [x|]; simpl; [|discriminate].
  destruct (eq_str x a); auto.
Qed.

Lemma has_agent_new (a ty now : string) (l : list value) :
  has_agent a l = Done false ->
  has_agent a (l ++ [new_subagent a ty now]) = Done true.
Proof.
  induction l as [|sa l IH]; simpl.
  - intros _. unfold get_or. simpl. now rewrite String.eqb_refl.
  - destruct (py_get sa "agent_id" VNull) as [x|]; simpl; [|discriminate].
    destruct (eq_str x a); [discriminate|]. exact IH.
Qed.

(** Applying a subagent start to the list it produced changes nothing,
    whatever the clock reads the second time. *)
Lemma merge_start_idempotent (l l1 : list value) (a ty now ty' now' : string) :
  merge_subagent "SubagentStart" (VList l) a ty now = Done l1 ->
  merge_subagent "SubagentStart" (VList l1) a ty' now' = Done l1.
Proof.
  unfold merge_subagent. simpl.
  destruct (has_agent a l) as [[|]|] eqn:Hf; simpl; intros [= <-].
  - now rewrite Hf.
  - now rewrite (has_agent_new a ty now l Hf).
Qed.

Lemma has_agent_fresh (a : string) (l : list value) :
  has_agent a l = Done false -> VStr a ∉ agent_ids l.
Proof.
  induction l as [|sa l IH]; simpl; [intros _; apply not_elem_of_nil|].
  destruct sa as [| | | | |d]; simpl; try discriminate.
  destruct (eq_str (get_or d "agent_id" VNull) a) eqn:E; [discriminate|].
  intros Hl. unfold agent_ids. simpl. unfold get_or in E.
  destruct (dict_get d "agent_id") as [x|]; simpl; [|now apply IH].
  apply not_elem_of_cons. split; [|now apply IH].
  intros <-. simpl in E. now rewrite String.eqb_refl in E.
Qed.

Lemma agent_ids_app (l l' : list value) :
  agent_ids (l ++ l') = agent_ids l ++ agent_ids l'.
Proof. apply omap_app. Qed.

Lemma merge_start_ok (l l1 : list value) (a ty now : string) :
  subagents_ok l ->
  merge_subagent "SubagentStart" (VList l) a ty now = Done l1 ->
  subagents_ok l1.
Proof.
  intros [Hk Hn]. unfold merge_subagent. simpl.
  destruct (has_agent a l) as [[|]|] eqn:Hf; simpl; intros [= <-].
  - now split.
  - split.
    + apply Forall_app. split; [assumption|].
      constructor; [|constructor]. simpl. eauto.
    + rewrite agent_ids_app. apply NoDup_app. split; [assumption|].
      split; [|apply NoDup_singleton].
      intros x Hx Hx'. apply list_elem_of_singleton in Hx'. subst x.
      now apply (has_agent_fresh a l Hf).
Qed.

Lemma without_agent_sublist (a : string) (l r : list value) :
  without_agent a l = Done r -> sublist r l.
Proof.
  revert r. induction l as [|sa l IH]; simpl; intros r.
  - intros [= <-]. constructor.
  - destruct (py_get sa "agent_id" VNull) as [x|]; simpl; [|discriminate].
    destruct (without_agent a l) as [r'|]; simpl; [|discriminate].
    intros [= <-]. destruct (eq_str x a).
    + apply sublist_cons. now apply IH.
    + apply sublist_skip. now apply IH.
Qed.

Lemma agent_ids_sublist (r l : list value) :
  sublist r l -> sublist (agent_ids r) (agent_ids l).
Proof.
  induction 1 as [|x r l _ IH|x r l _ IH]; unfold agent_ids; simpl.
  - constructor.
  - destruct (agent_key x); [now apply sublist_skip|exact IH].
  - destruct (agent_key x); [now apply sublist_cons|exact IH].
Qed.

Lemma subagents_ok_sublist (r l : list value) :
  sublist r l -> subagents_ok l -> subagents_ok r.
Proof.
  intros Hs [Hk Hn]. split.
  - rewrite Forall_forall in Hk |- *. intros x Hx.
    apply Hk. eapply elem_of_sublist; eauto.
  - eapply sublist_NoDup; [exact Hn|]. now apply agent_ids_sublist.
Qed.

(** What [write_session] serialises for a list of subagents read back from
    well-formed entries has the same agent ids. *)
Lemma subagents_of_values_ids (l : list value) (ss : list SubagentState.t) :
  Forall (fun sa => is_Some (agent_key sa)) l ->
  subagents_of_values l = Done ss ->
  Forall (fun sa => is_Some (agent_key sa)) (map subagent_json ss) /\
  agent_ids (map subagent_json ss) = agent_ids l.
Proof.
  intros Hk. revert ss. induction Hk as [|sa l [x Hx] _ IH]; simpl; intros ss.
  - intros [= <-]. split; [constructor|reflexivity].
  - destruct sa as [| | | | |d]; simpl in *; try discriminate.
    destruct (subagents_of_values l) as [r|]; simpl; [|discriminate].
    intros [= <-]. destruct (IH r eq_refl) as [IH1 IH2]. simpl. split.
    + constructor; [simpl; eauto|assumption].
    + unfold agent_ids in *. simpl. unfold get_or. rewrite Hx. simpl.
      now rewrite IH2.
Qed.

Lemma subagents_of_dicts_values (l : list value) :
  Forall (fun sa => is_Some (agent_key sa)) l ->
  subagents_of_values l = Done (subagents_of_dicts l).
Proof.
  induction 1 as [|sa l [x Hx] _ IH]; simpl; [reflexivity|].
  destruct sa; simpl in *; try discriminate. now rewrite IH.
Qed.

Lemma subagents_ok_normalised (l : list value) (ss : list SubagentState.t) :
  subagents_ok l ->
  subagents_of_values l = Done ss ->
  subagents_ok (map subagent_json ss).
Proof.
  intros [Hk Hn] Hs.
  destruct (subagents_of_values_ids l ss Hk Hs) as [H1 H2].
  split; [assumption|]. now rewrite H2.
Qed.

Lemma subagents_ok_nil : subagents_ok [].
Proof. split; [constructor|apply NoDup_nil_2]. Qed.

(** Iterating a document that is not a list yields strings only. *)
Lemma py_iter_cases (v : value) (items : list value) :
  py_iter v = Done items ->
  v = VList items \/ Forall (fun x => exists s, x = VStr s) items.
Proof.
  destruct v; simpl; try discriminate; intros [= <-]; auto; right;
    apply Forall_forall; intros x Hx; apply list_elem_of_In, in_map_iff in Hx;
    destruct Hx as (y & <- & _); eauto.
Qed.

Lemma subagents_of_dicts_strings (items : list value) :
  Forall (fun x => exists s, x = VStr s) items -> subagents_of_dicts items = [].
Proof. induction 1 as [|x l [s ->] _ IH]; simpl; auto. Qed.

Lemma subagents_of_values_strings (items : list value) (ss : list SubagentState.t) :
  Forall (fun x => exists s, x = VStr s) items ->
  subagents_of_values items = Done ss -> ss = [].
Proof.
  destruct 1 as [|x l [s ->] _]; simpl; [congruence|discriminate].
Qed.

Lemma without_agent_strings (a : string) (items r : list value) :
  Forall (fun x => exists s, x = VStr s) items ->
  without_agent a items = Done r -> r = [].
Proof.
  destruct 1 as [|x l [s ->] _]; simpl; [congruence|discriminate].
Qed.

(** The list read from the [subagents] member of a well-formed record,
    whichever of the three ways the code reads it. *)
Lemma iter_subagents_ok (v : value) (items : list value) :
  match v with VList l => subagents_ok l | _ => True end ->
  py_iter v = Done items ->
  subagents_ok (map subagent_json (subagents_of_dicts items)) /\
  (forall a r ss, without_agent a items = Done r ->
                  subagents_of_values r = Done ss ->
                  subagents_ok (map subagent_json ss)) /\
  (forall ss, subagents_of_values items = Done ss ->
              subagents_ok (map subagent_json ss)).
Proof.
  intros Hv Hi. destruct (py_iter_cases v items Hi) as [->|Hs].
  - split; [|split].
    + eapply subagents_ok_normalised; [exact Hv|].
      apply subagents_of_dicts_values, Hv.
    + intros a r ss Hr. apply subagents_ok_normalised.
      eapply subagents_ok_sublist; [|exact Hv].
      eapply without_agent_sublist; eauto.
    + intros ss. now apply subagents_ok_normalised.
  - split; [|split].
    + rewrite subagents_of_dicts_strings by assumption. apply subagents_ok_nil.
    + intros a r ss Hr. rewrite (without_agent_strings a items r Hs Hr).
      simpl. intros [= <-]. apply subagents_ok_nil.
    + intros ss Hss. rewrite (subagents_of_values_strings items ss Hs Hss).
      apply subagents_ok_nil.
Qed.

Lemma file_ok_session_json (state : SessionState.t) :
  subagents_ok (map subagent_json (SessionState.subagents state)) ->
  file_ok (Json (session_json state)).
Proof. intros H. exact H. Qed.

Lemma write_session_ok (state : SessionState.t) (fs : disk) :
  disk_ok fs ->
  subagents_ok (map subagent_json (SessionState.subagents state)) ->
  disk_ok (snd (write_session state fs)).
Proof.
  intros Hfs Hst k f.
  destruct (decide (k = _session_path (SessionState.session_id state))) as [->|Hne].
  - unfold write_session.
    destruct (fs !! _session_path (SessionState.session_id state))
      as [[|ex]|] eqn:Hf; simpl.
    + rewrite lookup_insert_eq. intros [= <-]. now apply file_ok_session_json.
    + destruct (_ ← py_get ex "last_updated" (VStr ""); _) as [[|]|]; simpl;
        try (rewrite Hf; intros [= <-]; eapply Hfs; eauto).
      rewrite lookup_insert_eq. intros [= <-]. now apply file_ok_session_json.
    + rewrite lookup_insert_eq. intros [= <-]. now apply file_ok_session_json.
  - rewrite write_session_other by assumption. apply Hfs.
Qed.

Lemma read_existing_ok (sid now : string) (fs : disk) (p : prior) :
  disk_ok fs ->
  read_existing sid now fs = Done p ->
  subagents_ok (map subagent_json (existing_subagents p)).
Proof.
  intros Hfs. unfold read_existing. simpl.
  destruct (fs !! sid) as [[|[| | | | |e]]|] eqn:Hf; try discriminate;
    try (intros [= <-]; apply subagents_ok_nil).
  destruct (py_iter (get_or e "subagents" (VList []))) as [items|] eqn:Hi;
    simpl; [|discriminate].
  intros [= <-]. simpl.
  specialize (Hfs _ _ Hf). simpl in Hfs.
  exact (proj1 (iter_subagents_ok _ _ Hfs Hi)).
Qed.

Lemma hook_state_ok (sid ev : string) (data : gmap string string) (now : string)
  (ns : option string) (p : prior) (state : SessionState.t) :
  subagents_ok (map subagent_json (existing_subagents p)) ->
  hook_state sid ev data now ns p = Done (Some state) ->
  subagents_ok (map subagent_json (SessionState.subagents state)).
Proof.
  intros Hp. unfold hook_state.
  destruct (regression_guard _ _ _); [discriminate|].
  destruct (next_topic _ _ _); simpl; [|discriminate].
  destruct (if String.eqb ev "PostToolUse" then _ else _); simpl; [|discriminate].
  intros [= <-]. simpl. destruct (String.eqb ev "Stop"); [apply subagents_ok_nil|].
  exact Hp.
Qed.

Lemma subagent_state_ok (sid ev : string) (data : gmap string string)
  (now : string) (e : dict) (state : SessionState.t) :
  file_ok (Json (VDict e)) ->
  subagent_state sid ev data now (VDict e) = Done state ->
  subagents_ok (map subagent_json (SessionState.subagents state)).
Proof.
  simpl. intros He. unfold subagent_state.
  destruct (merge_subagent _ _ _ _ _) as [merged|] eqn:Hm; simpl; [|discriminate].
  destruct (subagents_of_values merged) as [ss|] eqn:Hss; simpl; [|discriminate].
  intros [= <-]. simpl. revert Hm. unfold merge_subagent.
  destruct (String.eqb ev "SubagentStart") eqn:E1.
  - apply String.eqb_eq in E1. subst ev.
    destruct (get_or e "subagents" (VList [])) as [| | |s|l|d] eqn:Hv; simpl;
      try discriminate.
    + destruct (has_agent _ _); discriminate.
    + intros Hm. eapply subagents_ok_normalised; [|exact Hss].
      eapply merge_start_ok; [exact He|].
      unfold merge_subagent. simpl. exact Hm.
    + destruct (has_agent _ _); discriminate.
  - destruct (String.eqb ev "SubagentStop").
    + destruct (py_iter (get_or e "subagents" (VList []))) as [items|] eqn:Hi;
        simpl; [|discriminate].
      intros Hm. destruct (iter_subagents_ok _ _ He Hi) as (_ & H2 & _).
      eapply H2; eauto.
    + intros Hi. destruct (iter_subagents_ok _ _ He Hi) as (_ & _ & H3).
      now apply H3.
Qed.

(** One notification keeps every persisted subagent list free of
    duplicates. *)
Lemma handle_hook_ok (data : gmap string string) (now : string) (fs : disk) :
  disk_ok fs -> disk_ok (snd (handle_hook data now fs)).
Proof.
  intros Hfs. unfold handle_hook.
  destruct (String.eqb _ ""); [exact Hfs|].
  destruct (String.eqb _ "SessionEnd").
  { simpl. intros k f Hk. unfold remove_session in Hk.
    apply lookup_delete_Some in Hk as [_ Hk]. eapply Hfs; eauto. }
  destruct (_ || _).
  { unfold _handle_subagent. simpl.
    destruct (fs !! default "" (data !! "session_id")) as [[|ex]|] eqn:Hf;
      try exact Hfs.
    destruct (subagent_state _ _ _ _ ex) as [state|] eqn:Hs; [|exact Hfs].
    apply write_session_ok; [exact Hfs|].
    destruct ex; try discriminate.
    eapply subagent_state_ok; [|exact Hs]. eapply Hfs; eauto. }
  destruct (_ && _); [exact Hfs|].
  destruct (read_existing _ _ _) as [p|] eqn:Hp; simpl; [|exact Hfs].
  destruct (hook_state _ _ _ _ _ _) as [[state|]|] eqn:Hs; try exact Hfs.
  apply write_session_ok; [exact Hfs|].
  eapply hook_state_ok; [|exact Hs]. eapply read_existing_ok; eauto.
Qed.

Lemma subagents_roundtrip (ss : list SubagentState.t) :
  subagents_of_values (map subagent_json ss) = Done ss.
Proof.
  induction ss as [|s ss IH]; simpl; [reflexivity|].
  rewrite IH. simpl. now destruct s.
Qed.

Lemma has_agent_normalised (a : string) (m : list value)
  (ss : list SubagentState.t) :
  has_agent a m = Done true ->
  subagents_of_values m = Done ss ->
  has_agent a (map subagent_json ss) = Done true.
Proof.
  revert ss. induction m as [|sa m IH]; simpl; intros ss; [discriminate|].
  destruct sa as [| | | | |d]; simpl; try discriminate.
  destruct (subagents_of_values m) as [r|]; simpl; [|discriminate].
  intros Hf [= <-]. simpl. unfold get_or at 1. simpl.
  unfold get_or in *. destruct (dict_get d "agent_id") as [x|]; simpl in *.
  - destruct (eq_str x a); [reflexivity|]. now apply IH.
  - destruct a; [reflexivity|]. now apply IH.
Qed.

(** Processing a subagent start again, on the record its first processing
    built, builds a record with the same subagent list. *)
Lemma subagent_start_twice (sid : string) (data : gmap string string)
  (t1 t2 : string) (e : dict) (state1 : SessionState.t) :
  subagent_state sid "SubagentStart" data t1 (VDict e) = Done state1 ->
  exists state2,
    subagent_state sid "SubagentStart" data t2 (session_json state1) = Done state2 /\
    SessionState.subagents state2 = SessionState.subagents state1.
Proof.
  unfold subagent_state at 1.
  destruct (merge_subagent _ _ _ _ _) as [merged|] eqn:Hm; simpl; [|discriminate].
  destruct (subagents_of_values merged) as [ss|] eqn:Hss; simpl; [|discriminate].
  intros [= <-]. unfold subagent_state, session_json, get_or. simpl.
  assert (Hfound : has_agent (default "" (data !! "agent_id")) merged = Done true).
  { revert Hm. unfold merge_subagent. simpl.
    destruct (get_or e "subagents" (VList [])) as [| | |s|l|d]; simpl;
      try discriminate; try (destruct (has_agent _ _); discriminate).
    destruct (has_agent _ l) as [[|]|] eqn:Hf; simpl; intros [= <-].
    - exact Hf.
    - now apply has_agent_new. }
  unfold merge_subagent. simpl.
  rewrite (has_agent_normalised _ _ _ Hfound Hss). simpl.
  rewrite subagents_roundtrip. simpl. eexists. split; reflexivity.
Qed.

(** C5.  A subagent start applied to the list it produced yields that list
    again, and processing the notification again on the record it produced
    builds the same subagent list; and across any sequence of notifications,
    starting from a directory (the empty one, say) in which the entries of
    every persisted [subagents] sequence carry an [agent_id] each and no two
    the same, no persisted sequence ever has two entries with the same
    [agent_id]. *)
Theorem subagent_start_idempotent :
  (forall (l l1 : list value) (agent_id agent_type now agent_type' now' : string),
      merge_subagent "SubagentStart" (VList l) agent_id agent_type now = Done l1 ->
      merge_subagent "SubagentStart" (VList l1) agent_id agent_type' now' = Done l1) /\
  (forall (sid : string) (data : gmap string string) (t1 t2 : string) (e : dict)
          (state1 : SessionState.t),
      subagent_state sid "SubagentStart" data t1 (VDict e) = Done state1 ->
      exists state2,
        subagent_state sid "SubagentStart" data t2 (session_json state1)
          = Done state2 /\
        SessionState.subagents state2 = SessionState.subagents state1) /\
  (forall (events : list (gmap string string * string)) (fs : disk),
      disk_ok fs -> disk_ok (run_hooks events fs)) /\
  disk_ok ∅.
Proof.
  split; [exact merge_start_idempotent|].
  split; [exact subagent_start_twice|]. split.
  - intros events. induction events as [|[data now] events IH]; intros fs Hfs.
    + exact Hfs.
    + simpl. apply IH. now apply handle_hook_ok.
  - intros k f Hk. rewrite lookup_empty in Hk. discriminate.
Qed.

(** *** The topic *)







(** *** The project name *)

Lemma in_inits {A} (pr l : list A) : In pr (inits l) <-> pr `prefix_of` l.
Proof.
  revert pr. induction l as [|x l IH]; intros pr; simpl.
  - split.
    + intros [<-|[]]. reflexivity.
    + intros ->%prefix_nil_inv. now left.
  - rewrite in_map_iff. split.
    + intros [<-|(q & <- & Hq)]; [apply prefix_nil|].
      apply prefix_cons, IH, Hq.
    + intros Hp. destruct pr as [|y pr]; [now left|]. right.
      pose proof (prefix_cons_inv_1 _ _ _ _ Hp) as ->.
      apply prefix_cons_inv_2 in Hp. exists pr. split; [reflexivity|].
      now apply IH.
Qed.

Lemma inits_nil_first {A} (l : list (A)) (pre post : list (list A)) :
  inits l = pre ++ [] :: post -> pre = [].
Proof.
  destruct pre as [|a pre]; [reflexivity|]. intros H. exfalso.
  destruct l as [|x l]; simpl in H; injection H as _ H.
  - now destruct pre.
  - assert (Hin : In [] (map (cons x) (inits l))).
    { rewrite H. apply in_or_app. right. now left. }
    apply in_map_iff in Hin as (q & Hq & _). discriminate.
Qed.

(** In the list of prefixes every earlier element is a prefix of every
    later one. *)
Lemma inits_split_prefix {A} (l : list A) (pre : list (list A)) (d : list A)
  (post : list (list A)) :
  inits l = pre ++ d :: post -> forall a, In a pre -> a `prefix_of` d.
Proof.
  revert pre d post. induction l as [|x l IH]; intros pre d post; simpl.
  - destruct pre as [|a0 pre]; [intros _ a []|].
    intros [= _ H]. now destruct pre.
  - destruct pre as [|a0 pre]; [intros _ a []|].
    simpl. intros [= <- H] a [<-|Ha]; [apply prefix_nil|].
    apply map_eq_app in H as (pre0 & rest & Hl & <- & Hrest).
    apply map_eq_cons in Hrest as (d0 & post0 & -> & <- & _).
    apply in_map_iff in Ha as (a0 & <- & Ha0).
    apply prefix_cons. eapply IH; eauto.
Qed.

(** The shape of [[p, *p.parents]]: at every position the path is an
    ancestor of [p] or [p] itself, what follows are its own ancestors, and
    the walk can only stop at the last position. *)
Lemma lineage_split (p d : Path) (pre post : list Path) :
  lineage p = pre ++ d :: post ->
  (forall d', In d' post -> parts d' `prefix_of` parts d) /\
  (is_own_parent d = true -> post = []).
Proof.
  unfold lineage. intros H.
  apply map_eq_app in H as (pre0 & rest & Hl & <- & Hrest).
  apply map_eq_cons in Hrest as (d0 & post0 & -> & <- & <-).
  assert (Hi : inits (parts p) = rev post0 ++ d0 :: rev pre0).
  { rewrite <- (rev_involutive (inits (parts p))), Hl, rev_app_distr. simpl.
    now rewrite <- app_assoc. }
  split.
  - intros d' Hd'. apply in_map_iff in Hd' as (q & <- & Hq). simpl.
    eapply inits_split_prefix; [exact Hi|]. now rewrite <- in_rev.
  - unfold is_own_parent. simpl. destruct d0; [|discriminate]. intros _.
    apply inits_nil_first in Hi. destruct post0 as [|q post0]; [reflexivity|].
    simpl in Hi. now destruct (rev post0).
Qed.

Lemma in_lineage (p d : Path) :
  In d (lineage p) <-> root d = root p /\ parts d `prefix_of` parts p.
Proof.
  unfold lineage. rewrite in_map_iff. split.
  - intros (q & <- & Hq). simpl. split; [reflexivity|].
    rewrite <- in_rev in Hq. now apply in_inits.
  - intros [Hr Hp]. exists (parts d). split.
    + destruct d; simpl in *. now subst.
    + rewrite <- in_rev. now apply in_inits.
Qed.

Lemma walk_up_spec (ds : list Path) (fallback : string) :
  (forall pre d post, ds = pre ++ d :: post ->
                      is_own_parent d = true -> post = []) ->
  (exists pre d post,
      ds = pre ++ d :: post /\
      Forall (fun x => path_exists (joinpath x ".git") = false) pre /\
      path_exists (joinpath d ".git") = true /\
      walk_up ds fallback = name d) \/
  (Forall (fun x => path_exists (joinpath x ".git") = false) ds /\
   walk_up ds fallback = fallback).
Proof.
  induction ds as [|d ds IH]; intros Hlast; simpl.
  - right. split; [constructor|reflexivity].
  - destruct (path_exists (joinpath d ".git")) eqn:Hd.
    + left. exists [], d, ds. repeat split; auto.
    + destruct (is_own_parent d) eqn:Ho.
      * rewrite (Hlast [] d ds eq_refl Ho). right.
        split; [|reflexivity]. now constructor.
      * destruct IH as [(pre & d1 & post & -> & Hpre & Hd1 & Hw)|[Hall Hw]].
        { intros pre d1 post -> Hd1. apply (Hlast (d :: pre) d1 post eq_refl Hd1). }
        { left. exists (d :: pre), d1, post. repeat split; auto. }
        { right. split; [|exact Hw]. now constructor. }
Qed.

Lemma project_name_nearest (cwd : string) :
  cwd <> "" ->
  let p := parse_path cwd in
  (exists d,
      In d (lineage p) /\
      path_exists (joinpath d ".git") = true /\
      _project_name cwd = name d /\
      (forall d', In d' (lineage p) ->
                  path_exists (joinpath d' ".git") = true ->
                  parts d' `prefix_of` parts d)) \/
  ((forall d, In d (lineage p) -> path_exists (joinpath d ".git") = false) /\
   _project_name cwd = name p).
Proof.
  intros Hne p. unfold _project_name. fold p.
  destruct (String.eqb_spec cwd ""); [contradiction|].
  destruct (walk_up_spec (lineage p) (name p))
    as [(pre & d & post & Hl & Hpre & Hd & Hw)|[Hall Hw]].
  - intros pre d post Hl. now apply (lineage_split p d pre post Hl).
  - left. exists d. rewrite Hl at 1. repeat split; auto.
    + apply in_or_app. right. now left.
    + intros d' Hin Hd'. rewrite Hl in Hin.
      apply in_app_or in Hin as [Hin|[<-|Hin]].
      * rewrite Forall_forall in Hpre. apply list_elem_of_In, Hpre in Hin.
        congruence.
      * reflexivity.
      * now apply (lineage_split p d pre post Hl).
  - right. split; [|exact Hw]. intros d Hd.
    rewrite Forall_forall in Hall. now apply Hall, list_elem_of_In.
Qed.

Lemma hook_state_project (sid ev : string) (data : gmap string string)
  (now : string) (ns : option string) (p : prior) (state : SessionState.t) :
  hook_state sid ev data now ns p = Done (Some state) ->
  SessionState.cwd state = VStr (default "" (data !! "cwd")) /\
  SessionState.project state = VStr (_project_name (default "" (data !! "cwd"))).
Proof.
  unfold hook_state.
  destruct (regression_guard _ _ _); [discriminate|].
  destruct (next_topic _ _ _); simpl; [|discriminate].
  destruct (if String.eqb ev "PostToolUse" then _ else _); simpl; [|discriminate].
  intros [= <-]. now split.
Qed.

(** C7 (amended).  The project of a record is derived from the [cwd] of the
    notification that produced the record, by every notification that
    [handle_hook] turns into a record, whatever the record on disk says: it
    is empty for an empty [cwd]; otherwise it is the name of the nearest
    directory, among [cwd] and its ancestors, that holds a [.git], and the
    last component of [cwd] when none does.  Only a subagent notification
    carries the project of the existing record over. *)
Theorem project_rules :
  _project_name "" = "" /\
  (forall cwd : string,
      cwd <> "" ->
      let p := parse_path cwd in
      (exists d,
          In d (lineage p) /\
          path_exists (joinpath d ".git") = true /\
          _project_name cwd = name d /\
          (forall d', In d' (lineage p) ->
                      path_exists (joinpath d' ".git") = true ->
                      parts d' `prefix_of` parts d)) \/
      ((forall d, In d (lineage p) -> path_exists (joinpath d ".git") = false) /\
       _project_name cwd = name p)) /\
  (forall p d : Path,
      In d (lineage p) <-> root d = root p /\ parts d `prefix_of` parts p) /\
  (forall (sid ev : string) (data : gmap string string) (now : string)
          (ns : option string) (p : prior) (state : SessionState.t),
      hook_state sid ev data now ns p = Done (Some state) ->
      SessionState.cwd state = VStr (default "" (data !! "cwd")) /\
      SessionState.project state =
        VStr (_project_name (default "" (data !! "cwd")))) /\
  (forall (sid ev : string) (data : gmap string string) (now : string) (e : dict)
          (state : SessionState.t),
      subagent_state sid ev data now (VDict e) = Done state ->
      SessionState.cwd state = get_or e "cwd" (VStr "") /\
      SessionState.project state = get_or e "project" (VStr "")).
Proof.
  split; [reflexivity|]. split; [exact project_name_nearest|].
  split; [exact in_lineage|]. split; [exact hook_state_project|].
  intros sid ev data now e state. unfold subagent_state.
  destruct (merge_subagent _ _ _ _ _) as [l|]; simpl; [|discriminate].
  destruct (subagents_of_values l); simpl; [|discriminate].
  intros [= <-]. now split.
Qed.

(** *** The frame of a subagent notification *)

Lemma subagent_state_inv (sid ev : string) (data : gmap string string)
  (now : string) (e : dict) (state : SessionState.t) :
  subagent_state sid ev data now (VDict e) = Done state ->
  exists ss,
    state =
    {| SessionState.session_id := get_or e "session_id" (VStr sid);
       SessionState.cwd := get_or e "cwd" (VStr "");
       SessionState.project := get_or e "project" (VStr "");
       SessionState.status :=
         (if String.eqb ev "SubagentStart" &&
             eq_str (get_or e "status" (VStr "STARTING")) "PERMISSION"
          then VStr "THINKING" else get_or e "status" (VStr "STARTING"));
       SessionState.tool_name := get_or e "tool_name" VNull;
       SessionState.permission_mode := get_or e "permission_mode" (VStr "");
       SessionState.model := get_or e "model" (VStr "");
       SessionState.topic := get_or e "topic" (VStr "");
       SessionState.last_prompt := get_or e "last_prompt" (VStr "");
       SessionState.tool_count := get_or e "tool_count" (VInt 0);
       SessionState.started_at := get_or e "started_at" (VStr now);
       SessionState.last_updated := VStr now;
       SessionState.subagents := ss |}.
Proof.
  unfold subagent_state.
  destruct (merge_subagent _ _ _ _ _) as [l|]; simpl; [|discriminate].
  destruct (subagents_of_values l) as [ss|]; simpl; [|discriminate].
  intros [= <-]. now exists ss.
Qed.

(** C9.  For a session whose file holds a record of that session, a
    subagent start or stop either leaves the directory as it was (the
    notification raised or was stale) or replaces that one file by a record
    in which every member among session_id, cwd, project, tool_name,
    permission_mode, model, topic, last_prompt, tool_count and started_at
    has the value it had, [last_updated] is the clock reading of the run,
    and [status] is the one it was, except that a start turns PERMISSION
    into THINKING. *)
Theorem subagent_frame (data : gmap string string) (now : string) (fs : disk)
  (sid ev : string) (e : dict) :
  data !! "session_id" = Some sid ->
  data !! "hook_event_name" = Some ev ->
  ev = "SubagentStart" \/ ev = "SubagentStop" ->
  fs !! sid = Some (Json (VDict e)) ->
  get_or e "session_id" (VStr sid) = VStr sid ->
  snd (handle_hook data now fs) = fs \/
  exists e',
    snd (handle_hook data now fs) = <[sid := Json (VDict e')]> fs /\
    (forall k v, In k frame_keys -> dict_get e k = Some v ->
                 dict_get e' k = Some v) /\
    dict_get e' "last_updated" = Some (VStr now) /\
    dict_get e' "status" =
      Some (if String.eqb ev "SubagentStart" &&
               eq_str (get_or e "status" (VStr "STARTING")) "PERMISSION"
            then VStr "THINKING" else get_or e "status" (VStr "STARTING")) /\
    exists l, dict_get e' "subagents" = Some (VList l).
Proof.
  intros Hsid Hev Hkind Hf Hid. unfold handle_hook. rewrite Hsid, Hev. simpl.
  destruct (String.eqb sid ""); [now left|].
  assert (Hb : String.eqb ev "SessionEnd" = false /\
               String.eqb ev "SubagentStart" || String.eqb ev "SubagentStop" = true)
    by (destruct Hkind as [-> | ->]; split; reflexivity).
  destruct Hb as [-> ->].
  unfold _handle_subagent. simpl. rewrite Hf.
  destruct (subagent_state _ _ _ _ _) as [state|] eqn:Hs; [|now left].
  apply subagent_state_inv in Hs as [ss ->].
  unfold write_session. simpl. rewrite Hid. simpl. rewrite Hf.
  destruct (_ ← py_get (VDict e) "last_updated" (VStr ""); _) as [[|]|];
    simpl; try (now left).
  right. eexists. split; [reflexivity|]. split; [|split; [|split]].
  - intros k v Hk Hv. unfold frame_keys in Hk. simpl in Hk. unfold get_or in *.
    repeat (destruct Hk as [<-|Hk];
            [simpl; rewrite ?Hv in *; simpl in *; congruence|]).
    destruct Hk.
  - reflexivity.
  - reflexivity.
  - eexists. reflexivity.
Qed.

(** *** [get_sessions] *)

Lemma kept_ext (now : Z) (fs fs' : disk) (paths : list string) :
  (forall k, k ∈ paths -> fs' !! k = fs !! k) ->
  omap (kept now fs') paths = omap (kept now fs) paths.
Proof.
  induction paths as [|k paths IH]; intros H; csimpl; [reflexivity|].
  rewrite IH by (intros; apply H; now right).
  unfold kept. rewrite H by now left. reflexivity.
Qed.

Lemma scan_ok (now : Z) (paths : list string) :
  forall (fs : disk) (acc : list SessionState.t),
    NoDup paths ->
    (forall k f, k ∈ paths -> fs !! k = Some f -> listable k f) ->
    exists fs',
      scan now paths fs acc = (Done (acc ++ omap (kept now fs) paths), fs') /\
      forall k, fs' !! k =
                if bool_decide (k ∈ paths) && reaped now fs k then None
                else fs !! k.
Proof. tidy.
  induction paths as [|stem rest IH]; intros fs acc Hnd Hok.
  - exists fs. simpl. rewrite app_nil_r. split; [reflexivity|].
    intros k. reflexivity.
  - apply NoDup_cons in Hnd as [Hstem Hnd].
    assert (Hrest : forall (fs1 : disk), (forall j, j ≠ stem -> fs1 !! j = fs !! j) ->
                      forall k f, k ∈ rest -> fs1 !! k = Some f -> listable k f).
    { intros fs1 H1 k f Hk Hf. apply Hok; [now right|]. rewrite <- H1; [exact Hf|].
      intros ->. contradiction. }
    assert (Hk' : forall k, k ≠ stem ->
               bool_decide (k ∈ stem :: rest) = bool_decide (k ∈ rest)).
    { intros k Hk. apply bool_decide_ext. rewrite elem_of_cons. tauto. }
    csimpl. unfold kept at 1.
    destruct (fs !! stem) as [[|data]|] eqn:Hf.
    + destruct (IH fs acc Hnd (Hrest fs ltac:(auto))) as (fs' & Hs & Hl).
      exists fs'. split; [exact Hs|]. intros k. rewrite Hl.
      destruct (decide (k = stem)) as [->|Hk].
      * unfold reaped. rewrite Hf. now rewrite !andb_false_r.
      * now rewrite (Hk' k Hk).
    + destruct (Hok stem (Json data) ltac:(now left) Hf) as (state & us & Hload & Hdt).
      rewrite Hload. simpl. unfold is_zombie at 1 2. rewrite Hdt. simpl.
      destruct (ZOMBIE_THRESHOLD_HOURS * 3600 * 1000000 <? now - us) eqn:Hz.
      * destruct (IH (delete stem fs) acc Hnd) as (fs' & Hs & Hl).
        { apply Hrest. intros j Hj. now apply lookup_delete_ne. }
        exists fs'. rewrite Hs. split.
        { f_equal. f_equal. f_equal. apply kept_ext. intros k Hk.
          apply lookup_delete_ne. intros <-. contradiction. }
        intros k. rewrite Hl. destruct (decide (k = stem)) as [->|Hk].
        { rewrite bool_decide_eq_false_2 by assumption. simpl.
          rewrite lookup_delete_eq. rewrite bool_decide_eq_true_2 by now left.
          unfold reaped. rewrite Hf, Hload. unfold is_zombie. rewrite Hdt.
          simpl. now rewrite Hz. }
        { rewrite (Hk' k Hk). unfold reaped.
          rewrite !lookup_delete_ne by congruence. reflexivity. }
      * destruct (IH fs (acc ++ [state]) Hnd (Hrest fs ltac:(auto))) as (fs' & Hs & Hl).
        exists fs'. rewrite Hs, <- app_assoc. split; [reflexivity|].
        intros k. rewrite Hl. destruct (decide (k = stem)) as [->|Hk].
        { unfold reaped at 2. rewrite Hf, Hload. unfold is_zombie. rewrite Hdt.
          simpl. rewrite Hz, andb_false_r.
          rewrite bool_decide_eq_false_2 by assumption. reflexivity. }
        { now rewrite (Hk' k Hk). }
    + destruct (IH fs acc Hnd (Hrest fs ltac:(auto))) as (fs' & Hs & Hl).
      exists fs'. split; [exact Hs|]. intros k. rewrite Hl.
      destruct (decide (k = stem)) as [->|Hk].
      * unfold reaped. rewrite Hf. now rewrite !andb_false_r.
      * now rewrite (Hk' k Hk).
Qed.

Lemma insert_by_perm {A} (lt : A -> A -> outcome bool) (x : A) (l : list A) :
  (forall y, y ∈ l -> exists b, lt y x = Done b) ->
  exists r, insert_by lt x l = Done r /\ r ≡ₚ x :: l.
Proof.
  induction l as [|y l IH]; intros H; simpl.
  - now exists [x].
  - destruct (H y ltac:(now left)) as [b ->]. simpl. destruct b.
    + destruct IH as (r & -> & Hr); [intros; apply H; now right|].
      simpl. exists (y :: r). split; [reflexivity|].
      rewrite Hr. apply perm_swap.
    + now exists (x :: y :: l).
Qed.

Lemma sort_by_perm {A} (lt : A -> A -> outcome bool) (l : list A) :
  (forall x y, x ∈ l -> y ∈ l -> exists b, lt x y = Done b) ->
  exists r, sort_by lt l = Done r /\ r ≡ₚ l.
Proof.
  induction l as [|x l IH]; intros H; simpl.
  - now exists [].
  - destruct IH as (r & -> & Hr).
    { intros a b Ha Hb. apply H; now right. }
    simpl. destruct (insert_by_perm lt x r) as (r' & Hi & Hr').
    { intros y Hy. apply H; [right; now rewrite <- Hr|now left]. }
    exists r'. split; [exact Hi|]. now rewrite Hr', Hr.
Qed.

(** Past the first day of year 1, a record that is not a zombie has a
    string for [last_updated]. *)
Lemma fresh_has_string (now : Z) (state : SessionState.t) :
  ZOMBIE_THRESHOLD_HOURS * 3600 * 1000000 < now ->
  is_zombie now state = Done false ->
  exists s, SessionState.last_updated state = VStr s.
Proof.
  intros Hnow. unfold is_zombie, last_updated_dt.
  destruct (SessionState.last_updated state); simpl; eauto;
    intros [= Hz]; apply Z.ltb_ge in Hz; lia.
Qed.

Lemma kept_inv (now : Z) (fs : disk) (k : string) (state : SessionState.t) :
  kept now fs k = Some state ->
  exists data, fs !! k = Some (Json data) /\
               load_session k data = Done state /\
               is_zombie now state = Done false.
Proof.
  unfold kept. destruct (fs !! k) as [[|data]|]; try discriminate.
  destruct (load_session k data) as [st|] eqn:Hl; [|discriminate].
  destruct (is_zombie now st) as [[|]|] eqn:Hz; try discriminate.
  intros [= <-]. eauto.
Qed.

(** On a directory whose files the scan does not raise on, [get_sessions]
    returns: the records it keeps, in some order, and the directory without
    the files it unlinks. *)
Lemma get_sessions_ok (now : Z) (fs : disk) :
  glob fs ≡ₚ (map_to_list fs).*1 ->
  (forall k f, fs !! k = Some f -> listable k f) ->
  ZOMBIE_THRESHOLD_HOURS * 3600 * 1000000 < now ->
  exists sessions fs',
    get_sessions now fs = (Done sessions, fs') /\
    sessions ≡ₚ omap (kept now fs) (glob fs) /\
    forall k, fs' !! k = if reaped now fs k then None else fs !! k.
Proof.
  intros Hglob Hok Hnow.
  assert (Hnd : NoDup (glob fs)).
  { rewrite Hglob. apply NoDup_fst_map_to_list. }
  assert (Hin : forall k, k ∈ glob fs <-> is_Some (fs !! k)).
  { intros k. rewrite Hglob, list_elem_of_fmap. split.
    - intros ([k' f] & -> & Hkf). apply elem_of_map_to_list in Hkf. eauto.
    - intros [f Hf]. exists (k, f). split; [reflexivity|].
      now apply elem_of_map_to_list. }
  destruct (scan_ok now (glob fs) fs [] Hnd) as (fs' & Hs & Hl).
  { intros k f _. apply Hok. }
  simpl in Hs. unfold get_sessions. rewrite Hs.
  set (S := omap (kept now fs) (glob fs)) in *.
  assert (HS : forall s, s ∈ S -> is_zombie now s = Done false).
  { intros s Hs'. apply list_elem_of_omap in Hs' as (k & _ & Hk).
    now apply kept_inv in Hk as (data & _ & _ & Hz). }
  destruct (sort_by_perm first_key_lt S) as (r1 & Hr1 & Hp1).
  { intros x y Hx Hy. unfold first_key_lt.
    destruct (fresh_has_string now x Hnow (HS x Hx)) as [sx ->].
    destruct (fresh_has_string now y Hnow (HS y Hy)) as [sy ->].
    destruct (Bool.eqb _ _); simpl; eauto. }
  destruct (sort_by_perm second_key_lt r1) as (r2 & Hr2 & Hp2).
  { intros x y _ _. unfold second_key_lt. destruct (Bool.eqb _ _); eauto. }
  exists r2, fs'. rewrite Hr1. simpl. rewrite Hr2. split; [reflexivity|].
  split; [now rewrite Hp2, Hp1|].
  intros k. rewrite Hl. destruct (decide (k ∈ glob fs)) as [Hk|Hk].
  - now rewrite bool_decide_eq_true_2.
  - rewrite bool_decide_eq_false_2 by assumption. simpl.
    rewrite Hin in Hk. unfold reaped.
    destruct (fs !! k); [exfalso; eauto|reflexivity].
Qed.

Lemma glob_has (fs : disk) (k : string) (f : file) :
  glob fs ≡ₚ (map_to_list fs).*1 -> fs !! k = Some f -> k ∈ glob fs.
Proof.
  intros Hglob Hf. rewrite Hglob, list_elem_of_fmap. exists (k, f).
  split; [reflexivity|]. now apply elem_of_map_to_list.
Qed.


(** C10.  A record whose [last_updated] is missing, is not a string, or is
    a string [fromisoformat] rejects, is taken to be as old as
    [datetime.min]: on a directory the scan does not raise on, at a clock
    reading past the first day of year 1, it is not in the sequence
    [get_sessions] returns and its file is gone afterwards. *)
Theorem unparsable_stamp_is_zombie (now : Z) (fs : disk) (k : string) (d : dict) :
  glob fs ≡ₚ (map_to_list fs).*1 ->
  (forall k f, fs !! k = Some f -> listable k f) ->
  ZOMBIE_THRESHOLD_HOURS * 3600 * 1000000 < now ->
  fs !! k = Some (Json (VDict d)) ->
  (dict_get d "last_updated" = None /\ fromisoformat "" = None) \/
  (exists v, dict_get d "last_updated" = Some v /\
             forall s, v = VStr s -> fromisoformat s = None) ->
  exists sessions fs' state,
    get_sessions now fs = (Done sessions, fs') /\
    load_session k (VDict d) = Done state /\
    last_updated_dt state = datetime_min_utc /\
    (state ∉ sessions) /\
    fs' !! k = None.
Proof.
  intros Hglob Hok Hnow Hf Hbad.
  destruct (get_sessions_ok now fs Hglob Hok Hnow) as (sessions & fs' & Hg & Hp & Hl).
  destruct (Hok k _ Hf) as (state & us & Hload & _).
  assert (Hdt : last_updated_dt state = datetime_min_utc).
  { revert Hload. simpl.
    destruct (py_iter (get_or d "subagents" (VList []))); simpl; [|discriminate].
    intros [= <-]. unfold last_updated_dt, get_or. simpl.
    destruct Hbad as [[-> Hempty]|(v & -> & Hv)]; simpl.
    - now rewrite Hempty.
    - destruct v; try reflexivity. now rewrite (Hv s eq_refl). }
  assert (Hz : is_zombie now state = Done true).
  { unfold is_zombie. rewrite Hdt. simpl. f_equal. apply Z.ltb_lt. lia. }
  exists sessions, fs', state. repeat split; try assumption.
  - rewrite Hp. intros Hin. apply list_elem_of_omap in Hin as (k' & _ & Hk').
    apply kept_inv in Hk' as (data' & _ & _ & Hz'). congruence.
  - rewrite Hl. unfold reaped. now rewrite Hf, Hload, Hz.
Qed.

(** ** Further properties of the hook pipeline *)

Lemma write_session_cases (state : SessionState.t) (fs : disk) :
  (exists r, write_session state fs = (r, fs)) \/
  write_session state fs =
    (Done (), <[_session_path (SessionState.session_id state)
                := Json (session_json state)]> fs).
Proof.
  unfold write_session.
  destruct (fs !! _session_path (SessionState.session_id state)) as [[|ex]|];
    auto.
  destruct (_ ← py_get ex "last_updated" (VStr ""); _) as [[|]|]; eauto.
Qed.

Lemma write_session_raise (state : SessionState.t) (fs fs' : disk) (x : exn) :
  write_session state fs = (Raised x, fs') -> fs' = fs.
Proof.
  destruct (write_session_cases state fs) as [[r ->]| ->]; congruence.
Qed.

(** A run of [handle_hook] that raises has changed nothing: every exception
    comes before the write.  So [main], which swallows the exception, changes
    the directory only through a run that completes. *)
Theorem raising_changes_nothing :
  (forall (data : gmap string string) (now : string) (fs fs' : disk) (x : exn),
      handle_hook data now fs = (Raised x, fs') -> fs' = fs) /\
  (forall (raw : stdin) (now : string) (fs : disk),
      main raw now fs <> fs ->
      exists data fs',
        raw = Payload data /\ handle_hook data now fs = (Done (), fs') /\
        main raw now fs = fs').
Proof.
  assert (H : forall data now fs fs' x,
             handle_hook data now fs = (Raised x, fs') -> fs' = fs).
  { intros data now fs fs' x. unfold handle_hook.
    destruct (String.eqb _ ""); [congruence|].
    destruct (String.eqb _ "SessionEnd"); [congruence|].
    destruct (_ || _).
    - unfold _handle_subagent.
      destruct (fs !! _) as [[|ex]|]; try congruence.
      destruct (subagent_state _ _ _ _ _); [|congruence].
      apply write_session_raise.
    - destruct (_ && _); [congruence|].
      destruct (_ ← read_existing _ _ _; _) as [[state|]|]; try congruence.
      apply write_session_raise. }
  split; [exact H|].
  intros raw now fs Hne. destruct raw as [| |data]; try contradiction.
  simpl in *. destruct (handle_hook data now fs) as [[[]|x] fs'] eqn:Hh.
  - eauto.
  - simpl in Hne. now rewrite (H _ _ _ _ _ Hh) in Hne.
Qed.

(** Notifications that are dropped: one without a session identifier (or
    with an empty one), and a subagent notification for a session that has no
    file or a file that does not parse.  The run completes and the directory
    is as it was. *)
Theorem dropped_notifications (data : gmap string string) (now : string)
  (fs : disk) :
  default "" (data !! "session_id") = "" \/
  ((data !! "hook_event_name" = Some "SubagentStart" \/
    data !! "hook_event_name" = Some "SubagentStop") /\
   (fs !! default "" (data !! "session_id") = None \/
    fs !! default "" (data !! "session_id") = Some Unreadable)) ->
  handle_hook data now fs = (Done (), fs).
Proof.
  unfold handle_hook. intros [->|[Hev Hf]]; [reflexivity|].
  destruct (String.eqb _ ""); [reflexivity|].
  assert (Hb : String.eqb (default "" (data !! "hook_event_name")) "SessionEnd" = false /\
               String.eqb (default "" (data !! "hook_event_name")) "SubagentStart"
               || String.eqb (default "" (data !! "hook_event_name")) "SubagentStop"
               = true)
    by (destruct Hev as [-> | ->]; split; reflexivity).
  destruct Hb as [-> ->]. unfold _handle_subagent. simpl.
  now destruct Hf as [-> | ->].
Qed.

(** A notification for one session leaves the file of every other session
    untouched, given that the record of the notified session, if it has one,
    names that session (a subagent notification writes to the file its
    record names). *)
Theorem other_sessions_untouched (data : gmap string string) (now : string)
  (fs : disk) (k : string) :
  k <> default "" (data !! "session_id") ->
  (forall e, fs !! default "" (data !! "session_id") = Some (Json (VDict e)) ->
             get_or e "session_id" (VStr (default "" (data !! "session_id")))
             = VStr (default "" (data !! "session_id"))) ->
  snd (handle_hook data now fs) !! k = fs !! k.
Proof.
  intros Hk Hid. unfold handle_hook.
  destruct (String.eqb _ ""); [reflexivity|].
  destruct (String.eqb _ "SessionEnd").
  { simpl. unfold remove_session. simpl. now apply lookup_delete_ne. }
  destruct (_ || _).
  - unfold _handle_subagent. simpl.
    destruct (fs !! default "" (data !! "session_id")) as [[|ex]|] eqn:Hf;
      try reflexivity.
    destruct (subagent_state _ _ _ _ ex) as [state|] eqn:Hs; [|reflexivity].
    destruct ex; try discriminate.
    apply subagent_state_fields in Hs as [Hs _].
    rewrite (Hid _ eq_refl) in Hs.
    apply write_session_other. now rewrite Hs.
  - destruct (_ && _); [reflexivity|].
    destruct (read_existing _ _ _) as [p|]; simpl; [|reflexivity].
    destruct (hook_state _ _ _ _ _ _) as [[state|]|] eqn:Hs; try reflexivity.
    apply hook_state_fields in Hs as [Hs _].
    apply write_session_other. now rewrite Hs.
Qed.

Lemma read_existing_started (sid now : string) (fs : disk) (e : dict) (p : prior) :
  fs !! sid = Some (Json (VDict e)) ->
  read_existing sid now fs = Done p ->
  existing_started p = get_or e "started_at" (VStr now) /\
  existing_status p = get_or e "status" (VStr "STARTING") /\
  existing_tool_count p = get_or e "tool_count" (VInt 0) /\
  existing_topic p = get_or e "topic" (VStr "").
Proof.
  intros Hf. unfold read_existing. simpl. rewrite Hf.
  destruct (py_iter _); simpl; [|discriminate]. intros [= <-]. auto.
Qed.

Lemma hook_state_started (sid ev : string) (data : gmap string string)
  (now : string) (ns : option string) (p : prior) (state : SessionState.t) :
  hook_state sid ev data now ns p = Done (Some state) ->
  SessionState.started_at state = existing_started p.
Proof.
  unfold hook_state.
  destruct (regression_guard _ _ _); [discriminate|].
  destruct (next_topic _ _ _); simpl; [|discriminate].
  destruct (if String.eqb ev "PostToolUse" then _ else _); simpl; [|discriminate].
  now intros [= <-].
Qed.

(** [started_at] is immutable: once the record of a session carries one, no
    notification for that session changes it; the file either keeps a record
    with the same [started_at] or, on the end of the session, is removed. *)
Theorem started_at_immutable (data : gmap string string) (now : string)
  (fs : disk) (sid : string) (e : dict) (v : value) :
  data !! "session_id" = Some sid ->
  fs !! sid = Some (Json (VDict e)) ->
  get_or e "session_id" (VStr sid) = VStr sid ->
  dict_get e "started_at" = Some v ->
  (exists e', snd (handle_hook data now fs) !! sid = Some (Json (VDict e')) /\
              dict_get e' "started_at" = Some v) \/
  (data !! "hook_event_name" = Some "SessionEnd" /\
   snd (handle_hook data now fs) !! sid = None).
Proof.
  intros Hsid Hf Hid Hv.
  assert (Hkeep : exists e', fs !! sid = Some (Json (VDict e')) /\
                             dict_get e' "started_at" = Some v) by eauto.
  assert (Hget : forall d, get_or e "started_at" d = v)
    by (intros d; unfold get_or; now rewrite Hv).
  unfold handle_hook. rewrite Hsid. simpl.
  destruct (String.eqb sid ""); [now left|].
  destruct (String.eqb_spec (default "" (data !! "hook_event_name")) "SessionEnd")
    as [Hev|_].
  { right. split.
    - destruct (data !! "hook_event_name"); simpl in Hev; congruence.
    - simpl. unfold remove_session. simpl. apply lookup_delete_eq. }
  left. destruct (_ || _).
  - unfold _handle_subagent. simpl. rewrite Hf.
    destruct (subagent_state _ _ _ _ _) as [state|] eqn:Hs; [|exact Hkeep].
    apply subagent_state_inv in Hs as [ss ->].
    match goal with
    | |- context [write_session ?st fs] =>
        destruct (write_session_cases st fs) as [[r Hw]|Hw]
    end; rewrite Hw; [exact Hkeep|].
    simpl. rewrite Hid. simpl. rewrite lookup_insert_eq. eexists.
    split; [reflexivity|]. simpl. now rewrite Hget.
  - destruct (_ && _); [exact Hkeep|].
    destruct (read_existing sid now fs) as [p|] eqn:Hp; simpl; [|exact Hkeep].
    destruct (hook_state _ _ _ _ _ _) as [[state|]|] eqn:Hs; try exact Hkeep.
    destruct (write_session_cases state fs) as [[r Hw]|Hw];
      rewrite Hw; [exact Hkeep|].
    pose proof (hook_state_started _ _ _ _ _ _ _ Hs) as Hst.
    apply hook_state_fields in Hs as [Hs _].
    rewrite Hs. simpl. rewrite lookup_insert_eq. eexists. split; [reflexivity|].
    simpl. rewrite Hst.
    destruct (read_existing_started sid now fs e p Hf Hp) as [-> _].
    now rewrite Hget.
Qed.

Lemma proposed_ended (ev : string) (data : gmap string string) :
  proposed_status ev data = Some "ENDED" -> ev = "SessionEnd".
Proof.
  unfold proposed_status, EVENT_STATE_MAP.
  destruct (String.eqb ev "Notification").
  { destruct (bool_decide _); discriminate. }
  destruct (String.eqb ev "PreToolUse" && _); [discriminate|].
  destruct (String.eqb_spec ev "SessionEnd"); [auto|].
  repeat (destruct (String.eqb ev _); try discriminate).
Qed.

Lemma write_session_no_ended (state : SessionState.t) (fs : disk) :
  no_ended fs ->
  SessionState.status state <> VStr "ENDED" ->
  no_ended (snd (write_session state fs)).
Proof.
  intros Hfs Hst. destruct (write_session_cases state fs) as [[r ->]| ->];
    [exact Hfs|].
  intros k e. simpl.
  destruct (decide (k = _session_path (SessionState.session_id state))) as [->|Hk].
  - rewrite lookup_insert_eq. intros [= <-]. exact Hst.
  - rewrite lookup_insert_ne by congruence. apply Hfs.
Qed.

Lemma read_existing_no_ended (sid now : string) (fs : disk) (p : prior) :
  no_ended fs ->
  read_existing sid now fs = Done p ->
  existing_status p <> VStr "ENDED".
Proof.
  intros Hfs. unfold read_existing. simpl.
  destruct (fs !! sid) as [[|[| | | | |e]]|] eqn:Hf; try discriminate;
    try (intros [= <-]; discriminate).
  destruct (py_iter _); simpl; [|discriminate]. intros [= <-]. simpl.
  eapply Hfs; eauto.
Qed.

(** No ENDED record persists: the end of a session removes the file, and
    no other notification writes that status.  Starting from a directory
    without such a record (the empty one, say), none is ever there. *)
Theorem no_ended_record_persists :
  (forall (events : list (gmap string string * string)) (fs : disk),
      no_ended fs -> no_ended (run_hooks events fs)) /\
  no_ended ∅.
Proof.
  split.
  - intros events. induction events as [|[data now] events IH]; intros fs Hfs;
      [exact Hfs|].
    simpl. apply IH. clear IH. unfold handle_hook.
    destruct (String.eqb _ ""); [exact Hfs|].
    destruct (String.eqb_spec (default "" (data !! "hook_event_name")) "SessionEnd")
      as [Hev|Hev].
    { simpl. intros k e Hk. unfold remove_session in Hk.
      apply lookup_delete_Some in Hk as [_ Hk]. eapply Hfs; eauto. }
    destruct (_ || _).
    + unfold _handle_subagent. simpl.
      destruct (fs !! default "" (data !! "session_id")) as [[|ex]|] eqn:Hf;
        try exact Hfs.
      destruct (subagent_state _ _ _ _ ex) as [state|] eqn:Hs; [|exact Hfs].
      destruct ex; try discriminate.
      apply subagent_state_inv in Hs as [ss ->].
      apply write_session_no_ended; [exact Hfs|]. simpl.
      destruct (_ && _); [discriminate|]. eapply Hfs; eauto.
    + destruct (_ && _); [exact Hfs|].
      destruct (read_existing _ _ _) as [p|] eqn:Hp; simpl; [|exact Hfs].
      destruct (hook_state _ _ _ _ _ _) as [[state|]|] eqn:Hs; try exact Hfs.
      apply write_session_no_ended; [exact Hfs|].
      pose proof (read_existing_no_ended _ _ _ _ Hfs Hp) as Hex.
      revert Hs. unfold hook_state.
      destruct (regression_guard _ _ _); [discriminate|].
      destruct (next_topic _ _ _); simpl; [|discriminate].
      destruct (if String.eqb _ "PostToolUse" then _ else _); simpl; [|discriminate].
      intros [= <-]. simpl.
      destruct (proposed_status _ data) as [s|] eqn:Hps; [|exact Hex].
      destruct (String.eqb s ""); [exact Hex|].
      intros [= ->]. now apply proposed_ended in Hps.
  - intros k e Hk. rewrite lookup_empty in Hk. discriminate.
Qed.

(** What [write_session] serialises, [get_sessions] reads back as the record
    it was: all thirteen members and every subagent. *)
Theorem load_of_saved (stem : string) (state : SessionState.t) :
  load_session stem (session_json state) = Done state.
Proof.
  unfold load_session, session_json, get_or. simpl.
  assert (H : subagents_of_dicts (map subagent_json (SessionState.subagents state))
              = SessionState.subagents state).
  { induction (SessionState.subagents state) as [|[] ss IH]; simpl;
      [reflexivity|]. now rewrite IH. }
  rewrite H. now destruct state.
Qed.

(** *** The tool counter *)

Lemma has_agent_dicts (a : string) (l : list value) :
  Forall (fun sa => is_dict sa = true) l -> exists b, has_agent a l = Done b.
Proof.
  induction 1 as [|sa l Hsa _ [b IH]]; simpl; [eauto|].
  destruct sa; try discriminate. simpl. destruct (eq_str _ a); eauto.
Qed.

Lemma without_agent_dicts (a : string) (l : list value) :
  Forall (fun sa => is_dict sa = true) l ->
  exists r, without_agent a l = Done r /\ Forall (fun sa => is_dict sa = true) r.
Proof.
  induction 1 as [|sa l Hsa _ (r & IH & Hr)]; simpl; [eauto|].
  destruct sa; try discriminate. simpl. rewrite IH. simpl.
  destruct (eq_str _ a); eauto.
Qed.

Lemma subagents_of_values_dicts (l : list value) :
  Forall (fun sa => is_dict sa = true) l ->
  exists ss, subagents_of_values l = Done ss.
Proof.
  induction 1 as [|sa l Hsa _ [ss IH]]; simpl; [eauto|].
  destruct sa; try discriminate. simpl. rewrite IH. simpl. eauto.
Qed.

Lemma subagent_json_dicts (ss : list SubagentState.t) :
  Forall (fun sa => is_dict sa = true) (map subagent_json ss).
Proof. induction ss; simpl; constructor; auto. Qed.

Lemma next_topic_total (ev : string) (data : gmap string string) (topic : value) :
  (forall path, exists t, _read_topic_from_transcript path = Done t) ->
  exists t, next_topic ev data topic = Done t.
Proof.
  intros Hread. unfold next_topic. destruct (_ && _); [eauto|].
  destruct (negb _); [|eauto].
  destruct (Hread (default "" (data !! "transcript_path"))) as [t ->].
  simpl. eauto.
Qed.

Lemma post_tools_one (data : gmap string string) (now : string) :
  Z.of_nat (post_tools [(data, now)]) =
  if bool_decide (data !! "hook_event_name" = Some "PostToolUse") then 1 else 0.
Proof. unfold post_tools. simpl. now destruct (bool_decide _). Qed.

(** One notification that is not the end of the session, with a clock
    reading not below the stamp of the record, adds one to the counter when
    it is a post-tool notification and leaves the counter alone otherwise. *)
Lemma counting_step (data : gmap string string) (now : string) (fs : disk)
  (sid : string) (n : Z) (ts : string) (f : file) :
  sid <> "" ->
  fs !! sid = Some f ->
  counting_record sid n ts f ->
  data !! "session_id" = Some sid ->
  data !! "hook_event_name" <> Some "SessionEnd" ->
  String.ltb now ts = false ->
  (forall path, exists t, _read_topic_from_transcript path = Done t) ->
  exists f' ts',
    snd (handle_hook data now fs) !! sid = Some f' /\
    counting_record sid (n + Z.of_nat (post_tools [(data, now)])) ts' f' /\
    (ts' = ts \/ ts' = now).
Proof.
  intros Hne Hf (e & l & -> & Hid & Hn & Hts & Hl & Hd) Hsid Hev Hlt Hread.
  rewrite post_tools_one.
  assert (Hsame : forall m, m = n ->
            exists f' ts', fs !! sid = Some f' /\ counting_record sid m ts' f' /\
                           (ts' = ts \/ ts' = now)).
  { intros m ->. exists (Json (VDict e)), ts. split; [exact Hf|].
    split; [exists e, l; auto 10|auto]. }
  assert (Hwrite : forall state m,
            SessionState.session_id state = VStr sid ->
            SessionState.last_updated state = VStr now ->
            SessionState.tool_count state = VInt m ->
            exists f' ts',
              snd (write_session state fs) !! sid = Some f' /\
              counting_record sid m ts' f' /\ (ts' = ts \/ ts' = now)).
  { intros state m H1 H2 H3. unfold write_session. rewrite H1. simpl.
    rewrite Hf. simpl. rewrite Hts, H2. simpl. rewrite Hlt. simpl.
    rewrite lookup_insert_eq. eexists _, now. split; [reflexivity|].
    split; [|auto]. eexists _, _. split; [reflexivity|].
    unfold get_or. simpl. rewrite H1, H2, H3.
    repeat split; auto. apply subagent_json_dicts. }
  unfold handle_hook. rewrite Hsid. simpl.
  destruct (String.eqb_spec sid ""); [contradiction|].
  destruct (data !! "hook_event_name") as [ev|] eqn:Hevn; simpl.
  2:{ apply Hsame. lia. }
  destruct (String.eqb_spec ev "SessionEnd"); [congruence|].
  destruct (String.eqb_spec ev "PostToolUse") as [->|Hnp].
  - rewrite (bool_decide_eq_true_2 (Some "PostToolUse" = Some "PostToolUse"))
      by reflexivity.
    assert (Hps : proposed_status "PostToolUse" data = Some "THINKING")
      by reflexivity.
    rewrite Hps. simpl.
    unfold read_existing. simpl. rewrite Hf, Hl. simpl.
    unfold hook_state. simpl.
    destruct (next_topic_total "PostToolUse" data (get_or e "topic" (VStr "")) Hread)
      as [t ->]. simpl. rewrite Hn. simpl.
    apply Hwrite; reflexivity.
  - rewrite (bool_decide_eq_false_2 (Some ev = Some "PostToolUse")) by congruence.
    rewrite Z.add_0_r.
    destruct (String.eqb ev "SubagentStart" || String.eqb ev "SubagentStop").
    + unfold _handle_subagent. simpl. rewrite Hf.
      unfold subagent_state. rewrite Hl. unfold merge_subagent.
      destruct (String.eqb ev "SubagentStart").
      * destruct (has_agent_dicts (default "" (data !! "agent_id")) l Hd) as [b ->].
        simpl.
        match goal with
        | |- context [subagents_of_values ?m] =>
            destruct (subagents_of_values_dicts m) as [ss ->]
        end.
        { destruct b; [exact Hd|]. apply Forall_app. split; [exact Hd|].
          now repeat constructor. }
        simpl. apply Hwrite; simpl; auto.
      * destruct (String.eqb ev "SubagentStop"); simpl.
        -- destruct (without_agent_dicts (default "" (data !! "agent_id")) l Hd)
             as (r & -> & Hr). simpl.
           destruct (subagents_of_values_dicts r Hr) as [ss ->]. simpl.
           apply Hwrite; simpl; auto.
        -- destruct (subagents_of_values_dicts l Hd) as [ss ->]. simpl.
           apply Hwrite; simpl; auto.
    + destruct (_ && _); [now apply Hsame|].
      unfold read_existing. simpl. rewrite Hf, Hl. simpl.
      unfold hook_state.
      destruct (regression_guard _ _ _); [now apply Hsame|].
      destruct (next_topic_total ev data (get_or e "topic" (VStr "")) Hread)
        as [t Ht]. simpl in *. rewrite Ht. simpl.
      destruct (String.eqb_spec ev "PostToolUse"); [contradiction|]. simpl.
      apply Hwrite; simpl; auto.
Qed.

(** The tool counter counts: across any sequence of notifications of a
    session, none of them its end, with clock readings that never go back,
    on transcripts that read without raising, the [tool_count] of the
    record ends at its initial value plus the number of post-tool
    notifications in the sequence. *)
Theorem tool_counter (events : list (gmap string string * string)) :
  forall (fs : disk) (sid : string) (n : Z) (ts : string) (f : file),
    sid <> "" ->
    fs !! sid = Some f ->
    counting_record sid n ts f ->
    Forall (fun ev => ev.1 !! "session_id" = Some sid /\
                      ev.1 !! "hook_event_name" <> Some "SessionEnd") events ->
    nondecreasing ts (map snd events) ->
    (forall path, exists t, _read_topic_from_transcript path = Done t) ->
    exists f' ts',
      run_hooks events fs !! sid = Some f' /\
      counting_record sid (n + Z.of_nat (post_tools events)) ts' f'.
Proof.
  induction events as [|[data now] events IH];
    intros fs sid n ts f Hne Hf Hrec Hall Hmono Hread.
  - exists f, ts. simpl. rewrite Z.add_0_r. auto.
  - apply Forall_cons in Hall as [[Hsid Hev] Hall]. simpl in Hmono.
    destruct Hmono as [Hlt Hmono]. simpl in Hsid, Hev.
    destruct (counting_step data now fs sid n ts f Hne Hf Hrec Hsid Hev Hlt Hread)
      as (f1 & ts1 & Hf1 & Hrec1 & Hts1).
    assert (Hmono1 : nondecreasing ts1 (map snd events)).
    { destruct Hts1 as [-> | ->]; [|exact Hmono].
      destruct events as [|[d t] events]; [exact I|]. simpl in *.
      destruct Hmono as [Ht Hrest]. split; [|exact Hrest].
      eapply not_ltb_trans; eauto. }
    destruct (IH _ sid _ ts1 f1 Hne Hf1 Hrec1 Hall Hmono1 Hread)
      as (f' & ts' & Hf' & Hrec').
    exists f', ts'. split; [exact Hf'|].
    replace (n + Z.of_nat (post_tools ((data, now) :: events)))
      with (n + Z.of_nat (post_tools [(data, now)]) + Z.of_nat (post_tools events));
      [exact Hrec'|].
    unfold post_tools. simpl. destruct (bool_decide _); simpl; lia.
Qed.

(** *** Subagent start and stop *)

Lemma without_agent_absent (a : string) (l l' : list value) :
  has_agent a l = Done false ->
  without_agent a l' = Done [] ->
  without_agent a (l ++ l') = Done l.
Proof.
  intros Hl Hl'. induction l as [|sa l IH]; simpl in *; [exact Hl'|].
  destruct (py_get sa "agent_id" VNull) as [x|]; simpl in *; [|discriminate].
  destruct (eq_str x a); [discriminate|]. now rewrite IH.
Qed.

(** When no entry of the list has the agent's id, a start appends one entry
    and a stop of the same agent takes it away again; and a stop of an agent
    that is not in the list leaves the list as it is. *)
Theorem stop_undoes_start (l : list value) (agent_id agent_type now : string)
  (agent_type' now' : string) :
  has_agent agent_id l = Done false ->
  merge_subagent "SubagentStart" (VList l) agent_id agent_type now
    = Done (l ++ [new_subagent agent_id agent_type now]) /\
  merge_subagent "SubagentStop"
    (VList (l ++ [new_subagent agent_id agent_type now])) agent_id agent_type' now'
    = Done l /\
  merge_subagent "SubagentStop" (VList l) agent_id agent_type' now' = Done l.
Proof.
  intros Hl. unfold merge_subagent. simpl. rewrite Hl. simpl.
  split; [reflexivity|]. split.
  - apply without_agent_absent; [exact Hl|]. simpl. unfold get_or. simpl.
    now rewrite String.eqb_refl.
  - rewrite <- (app_nil_r l) at 1. rewrite without_agent_absent; auto.
Qed.

(** *** [_clean_prompt] *)






















(** *** The project name is a path component *)

Lemma split_on_cons (sep : ascii) (s : string) :
  exists h r, split_on sep s = h :: r.
Proof.
  induction s as [|c s (h & r & IH)]; simpl; [eauto|].
  rewrite IH. destruct (Ascii.eqb c sep); eauto.
Qed.

Lemma split_on_no_sep (sep : ascii) (s x : string) :
  In x (split_on sep s) -> ~ In sep (list_ascii_of_string x).
Proof. tidy.
  revert x. induction s as [|c s IH]; intros x; simpl.
  - intros [<-|[]]. simpl. tauto.
  - destruct (split_on_cons sep s) as (h & r & Hs). rewrite Hs in *.
    destruct (Ascii.eqb_spec c sep) as [->|Hc].
    + intros [<-|Hx]; [simpl; tauto|]. now apply IH.
    + intros [<-|Hx].
      * simpl. intros [E|E]; [congruence|]. apply (IH h); [now left|exact E].
      * apply IH. now right.
Qed.

Lemma last_in_or_default {A} (l : list A) (d : A) :
  List.last l d = d \/ In (List.last l d) l.
Proof.
  induction l as [|x l IH]; [now left|].
  destruct l as [|y l]; [right; now left|].
  destruct IH as [IH|IH]; [left; exact IH|right; right; exact IH].
Qed.

Lemma walk_up_result (ds : list Path) (fallback : string) :
  walk_up ds fallback = fallback \/
  exists d, In d ds /\ walk_up ds fallback = name d.
Proof.
  induction ds as [|d ds IH]; simpl; [now left|].
  destruct (path_exists (joinpath d ".git")); [right; eauto|].
  destruct (is_own_parent d); [now left|].
  destruct IH as [IH|(d' & Hd' & IH)]; [now left|right; eauto].
Qed.

(** The project name is empty or one of the components of [cwd]: a piece
    between two slashes, other than ["."], so it never contains a slash. *)
Theorem project_name_is_component (cwd : string) :
  _project_name cwd = "" \/
  (In (_project_name cwd) (split_on "/" cwd) /\
   _project_name cwd <> "." /\
   ~ In "/"%char (list_ascii_of_string (_project_name cwd))).
Proof.
  assert (Hpart : forall x, In x (parts (parse_path cwd)) ->
            In x (split_on "/" cwd) /\ x <> "." /\
            ~ In "/"%char (list_ascii_of_string x)).
  { intros x Hx. unfold parse_path in Hx. simpl in Hx.
    apply list_elem_of_In, list_elem_of_filter in Hx as [HP Hx].
    apply list_elem_of_In in Hx. split; [exact Hx|].
    split; [|now apply (split_on_no_sep "/" cwd)].
    intros ->. now rewrite andb_false_r in HP. }
  assert (Hname : forall d, In d (lineage (parse_path cwd)) ->
            name d = "" \/ In (name d) (parts (parse_path cwd))).
  { intros d Hd. apply in_lineage in Hd as [_ [k Hk]]. unfold name.
    destruct (last_in_or_default (parts d) "") as [H|H]; [now left|right].
    rewrite Hk. apply in_or_app. now left. }
  unfold _project_name. destruct (String.eqb cwd ""); [now left|].
  destruct (walk_up_result (lineage (parse_path cwd)) (name (parse_path cwd)))
    as [->|(d & Hd & ->)].
  - destruct (Hname (parse_path cwd)) as [H|H]; [|now left|right; now apply Hpart].
    apply in_lineage. split; reflexivity.
  - destruct (Hname d Hd) as [H|H]; [now left|right; now apply Hpart].
Qed.

(** *** The order of the listing *)

Lemma second_key_le (a b : SessionState.t) :
  second_key_lt b a = Done false <-> listed_before a b.
Proof.
  unfold second_key_lt, listed_before.
  destruct (SessionState.is_active a), (SessionState.is_active b); simpl;
    split; try discriminate; try (intros [= H]; apply Z.ltb_ge in H);
    try (intros [H1 H2]); try (split; intros; try discriminate; auto; lia);
    try reflexivity; try (f_equal; apply Z.ltb_ge; auto);
    try (specialize (H1 eq_refl); discriminate).
Qed.

Lemma second_key_total (a b : SessionState.t) :
  exists c, second_key_lt a b = Done c.
Proof. unfold second_key_lt. destruct (Bool.eqb _ _); eauto. Qed.

Lemma listed_before_trans (a b c : SessionState.t) :
  listed_before a b -> listed_before b c -> listed_before a c.
Proof.
  unfold listed_before.
  destruct (SessionState.is_active a), (SessionState.is_active b),
    (SessionState.is_active c); intros [H1 H2] [H3 H4]; split; intros;
    try discriminate; auto; try lia;
    try (specialize (H1 eq_refl); discriminate);
    try (specialize (H3 eq_refl); discriminate).
Qed.

Lemma listed_before_total (a b : SessionState.t) :
  second_key_lt a b = Done true -> listed_before a b.
Proof.
  unfold second_key_lt, listed_before.
  destruct (SessionState.is_active a), (SessionState.is_active b); simpl;
    intros H; split; intros; try discriminate; auto;
    assert (H' : (neg_timestamp a <? neg_timestamp b) = true) by congruence;
    apply Z.ltb_lt in H'; lia.
Qed.

Lemma insert_by_sorted (x : SessionState.t) (l r : list SessionState.t) :
  StronglySorted listed_before l ->
  insert_by second_key_lt x l = Done r ->
  StronglySorted listed_before r /\ (forall z, In z r -> z = x \/ In z l).
Proof.
  revert r. induction l as [|y l IH]; intros r Hl; simpl.
  - intros [= <-]. split; [repeat constructor|]. intros z [<-|[]]. now left.
  - apply StronglySorted_inv in Hl as [Hl Hy].
    destruct (second_key_lt y x) as [[|]|] eqn:Hyx; simpl; [| |discriminate].
    + destruct (insert_by second_key_lt x l) as [r'|] eqn:Hr'; simpl; [|discriminate].
      intros [= <-]. destruct (IH r' Hl eq_refl) as [IH1 IH2]. split.
      * constructor; [exact IH1|]. apply Forall_forall. intros z Hz.
        apply list_elem_of_In, IH2 in Hz as [->|Hz].
        -- now apply listed_before_total.
        -- rewrite Forall_forall in Hy. now apply Hy, list_elem_of_In.
      * intros z [<-|Hz]; [right; now left|].
        apply IH2 in Hz as [->|Hz]; [now left|right; now right].
    + intros [= <-]. apply second_key_le in Hyx. split.
      * constructor; [now constructor|]. constructor; [exact Hyx|].
        apply Forall_forall. intros z Hz.
        rewrite Forall_forall in Hy. eapply listed_before_trans; eauto.
      * intros z [<-|Hz]; auto.
Qed.

Lemma sort_by_sorted (l r : list SessionState.t) :
  sort_by second_key_lt l = Done r -> StronglySorted listed_before r.
Proof.
  revert r. induction l as [|x l IH]; intros r; simpl.
  - intros [= <-]. constructor.
  - destruct (sort_by second_key_lt l) as [r'|]; simpl; [|discriminate].
    intros Hi. eapply insert_by_sorted; eauto.
Qed.

(** Whenever [get_sessions] returns, the listing is in the order of the key
    of its second sort: no record that is not active is listed before an
    active one, and of two records of the same kind the one listed first
    has a [timestamp()], the float the code compares, that is not
    smaller. *)
Theorem listing_is_ordered (now : Z) (fs fs' : disk)
  (sessions : list SessionState.t) :
  get_sessions now fs = (Done sessions, fs') ->
  StronglySorted listed_before sessions.
Proof.
  unfold get_sessions. destruct (scan now (glob fs) fs []) as [[s|x] fs1];
    [|discriminate].
  destruct (sort_by first_key_lt s) as [r1|]; simpl; [|discriminate].
  destruct (sort_by second_key_lt r1) as [r2|] eqn:Hr2; [|discriminate].
  intros [= <- _]. eapply sort_by_sorted; eauto.
Qed.

(** *** [cleanup_old_sessions] *)

Lemma size_delete_some (fs : disk) (k : string) (f : file) :
  fs !! k = Some f -> size fs = S (size (delete k fs)).
Proof.
  intros Hf. rewrite <- (insert_id fs k f Hf) at 1.
  rewrite <- insert_delete_eq. apply map_size_insert_None, lookup_delete_eq.
Qed.

Lemma cleanup_scan_ok (max_age_hours now : Z) (paths : list string) :
  forall (fs : disk) (n : nat),
    NoDup paths ->
    (forall k f, k ∈ paths -> fs !! k = Some f ->
                 exists b, cleanup_file max_age_hours now f = Done b) ->
    exists n' fs',
      cleanup_scan max_age_hours now paths fs n = (Done n', fs') /\
      (n' + size fs' = n + size fs)%nat /\
      forall k, fs' !! k =
                if bool_decide (k ∈ paths) && swept max_age_hours now fs k
                then None else fs !! k.
Proof. tidy.
  induction paths as [|stem rest IH]; intros fs n Hnd Hok.
  - exists n, fs. repeat split; reflexivity.
  - apply NoDup_cons in Hnd as [Hstem Hnd].
    assert (Hk' : forall k, k ≠ stem ->
               bool_decide (k ∈ stem :: rest) = bool_decide (k ∈ rest)).
    { intros k Hk. apply bool_decide_ext. rewrite elem_of_cons. tauto. }
    assert (Hrest : forall k f, k ∈ rest -> fs !! k = Some f ->
               exists b, cleanup_file max_age_hours now f = Done b).
    { intros k f Hk. apply Hok. now right. }
    simpl. destruct (fs !! stem) as [f|] eqn:Hf.
    + destruct (Hok stem f ltac:(now left) Hf) as [b Hb]. rewrite Hb.
      destruct b.
      * destruct (IH (delete stem fs) (S n) Hnd) as (n' & fs' & Hs & Hsize & Hl).
        { intros k f' Hk Hkf. apply lookup_delete_Some in Hkf as [_ Hkf]. eauto. }
        exists n', fs'. split; [exact Hs|]. split.
        { rewrite Hsize, (size_delete_some fs stem f Hf). lia. }
        intros k. rewrite Hl. destruct (decide (k = stem)) as [->|Hk].
        { rewrite bool_decide_eq_false_2 by assumption. simpl.
          rewrite lookup_delete_eq, bool_decide_eq_true_2 by now left.
          unfold swept. now rewrite Hf, Hb. }
        { rewrite (Hk' k Hk). unfold swept.
          rewrite !lookup_delete_ne by congruence. reflexivity. }
      * destruct (IH fs n Hnd Hrest) as (n' & fs' & Hs & Hsize & Hl).
        exists n', fs'. split; [exact Hs|]. split; [exact Hsize|].
        intros k. rewrite Hl. destruct (decide (k = stem)) as [->|Hk].
        { unfold swept. rewrite Hf, Hb. now rewrite !andb_false_r. }
        { now rewrite (Hk' k Hk). }
    + destruct (IH fs n Hnd Hrest) as (n' & fs' & Hs & Hsize & Hl).
      exists n', fs'. split; [exact Hs|]. split; [exact Hsize|].
      intros k. rewrite Hl. destruct (decide (k = stem)) as [->|Hk].
      { unfold swept. rewrite Hf. now rewrite !andb_false_r. }
      { now rewrite (Hk' k Hk). }
Qed.

Lemma cleanup_file_kept (max_age_hours now : Z) (f : file) :
  cleanup_file max_age_hours now f = Done false <->
  exists d s us,
    f = Json (VDict d) /\
    get_or d "last_updated" (VStr "") = VStr s /\
    fromisoformat s = Some (Aware us) /\
    now - us <= max_age_hours * 3600 * 1000000.
Proof.
  split.
  - destruct f as [|[| | | | |d]]; simpl; try discriminate.
    destruct (get_or d "last_updated" (VStr "")) as [| | |s| |] eqn:Hs;
      try discriminate.
    destruct (fromisoformat s) as [[us|us]|] eqn:Hp; try discriminate.
    intros [= Hz]. apply Z.ltb_ge in Hz. eauto 10.
  - intros (d & s & us & -> & Hs & Hp & Hage). simpl. rewrite Hs, Hp.
    f_equal. now apply Z.ltb_ge.
Qed.

(** For a threshold of a whole number of hours from 0 to 1000000, on a
    directory none of whose files makes the loop raise,
    [cleanup_old_sessions] returns the number of files it removed; the files
    it leaves are exactly the records whose [last_updated] is a string that
    parses, with an offset, to a time not more than [max_age_hours] ago, and
    it leaves them as they were.  A file that does not parse is removed. *)
Theorem cleanup_removes_and_counts (max_age_hours now : Z) (fs : disk) :
  0 <= max_age_hours <= 1000000 ->
  glob fs ≡ₚ (map_to_list fs).*1 ->
  (forall k f, fs !! k = Some f ->
               exists b, cleanup_file max_age_hours now f = Done b) ->
  exists n fs',
    cleanup_old_sessions max_age_hours now fs = (Done n, fs') /\
    (n + size fs' = size fs)%nat /\
    (forall k f, fs' !! k = Some f <->
       fs !! k = Some f /\
       exists d s us,
         f = Json (VDict d) /\
         get_or d "last_updated" (VStr "") = VStr s /\
         fromisoformat s = Some (Aware us) /\
         now - us <= max_age_hours * 3600 * 1000000) /\
    (forall k, fs !! k = Some Unreadable -> fs' !! k = None).
Proof.
  intros _ Hglob Hok.
  assert (Hnd : NoDup (glob fs)).
  { rewrite Hglob. apply NoDup_fst_map_to_list. }
  destruct (cleanup_scan_ok max_age_hours now (glob fs) fs O Hnd)
    as (n & fs' & Hs & Hsize & Hl).
  { intros k f _. apply Hok. }
  exists n, fs'. split; [exact Hs|]. split; [exact Hsize|].
  assert (Hl' : forall k, fs' !! k =
                          if swept max_age_hours now fs k then None else fs !! k).
  { intros k. rewrite Hl. destruct (fs !! k) as [f|] eqn:Hf.
    - rewrite bool_decide_eq_true_2; [reflexivity|]. eapply glob_has; eauto.
    - unfold swept. rewrite Hf. now rewrite andb_false_r. }
  split.
  - intros k f. rewrite Hl'. unfold swept.
    destruct (fs !! k) as [f0|] eqn:Hf.
    + destruct (Hok k f0 Hf) as [b Hb]. rewrite Hb. destruct b.
      * split; [discriminate|]. intros [[= <-] Hkept].
        apply cleanup_file_kept in Hkept. congruence.
      * split.
        -- intros [= <-]. split; [reflexivity|]. now apply cleanup_file_kept.
        -- now intros [-> _].
    + split; [discriminate|]. now intros [? _].
  - intros k Hk. rewrite Hl'. unfold swept. now rewrite Hk.
Qed.

Lemma cleanup_scan_raises (max_age_hours now : Z) (paths : list string) :
  forall (fs : disk) (n : nat) (k : string) (f : file) (x : exn),
    NoDup paths -> k ∈ paths -> fs !! k = Some f ->
    cleanup_file max_age_hours now f = Raised x ->
    exists x' fs', cleanup_scan max_age_hours now paths fs n = (Raised x', fs').
Proof.
  induction paths as [|stem rest IH]; intros fs n k f x Hnd Hk Hf Hx.
  - now apply elem_of_nil in Hk.
  - apply NoDup_cons in Hnd as [Hstem Hnd]. simpl.
    destruct (decide (k = stem)) as [->|Hne].
    + rewrite Hf, Hx. eauto.
    + apply elem_of_cons in Hk as [Hk|Hk]; [contradiction|].
      destruct (fs !! stem) as [f0|]; [|eauto].
      destruct (cleanup_file max_age_hours now f0) as [[|]|]; eauto.
      eapply IH; eauto. now rewrite lookup_delete_ne.
Qed.

(** [cleanup_old_sessions] raises whenever the directory holds a JSON file
    that is not an object, or a record whose [last_updated] is not a string
    or parses without an offset: none of the two handlers of the loop
    catches [AttributeError] or [TypeError]. *)
Theorem cleanup_raises (max_age_hours now : Z) (fs : disk) (k : string)
  (v : value) :
  glob fs ≡ₚ (map_to_list fs).*1 ->
  fs !! k = Some (Json v) ->
  match v with
  | VDict d =>
      match get_or d "last_updated" (VStr "") with
      | VStr s => exists us, fromisoformat s = Some (Naive us)
      | _ => True
      end
  | _ => True
  end ->
  exists x fs', cleanup_old_sessions max_age_hours now fs = (Raised x, fs').
Proof.
  intros Hglob Hf Hv.
  assert (Hx : exists x, cleanup_file max_age_hours now (Json v) = Raised x).
  { destruct v as [| | | | |d]; simpl; eauto.
    destruct (get_or d "last_updated" (VStr "")); eauto.
    destruct Hv as [us ->]. eauto. }
  destruct Hx as [x Hx]. unfold cleanup_old_sessions.
  eapply cleanup_scan_raises; eauto.
  - rewrite Hglob. apply NoDup_fst_map_to_list.
  - eapply glob_has; eauto.
Qed.

End Monitor.

(** ** Properties of [main.py] *)

(** *** Dicts *)

Lemma dict_get_set_eq (d : dict) (k : string) (v : value) :
  dict_get (dict_set d k v) k = Some v.
Proof.
  induction d as [|[k' v'] d IH]; simpl.
  - now rewrite String.eqb_refl.
  - destruct (String.eqb k' k) eqn:E; simpl; now rewrite E.
Qed.

Lemma dict_get_set_ne (d : dict) (k k' : string) (v : value) :
  k <> k' -> dict_get (dict_set d k v) k' = dict_get d k'.
Proof.
  intros Hne. induction d as [|[k0 v0] d IH]; simpl.
  - now apply String.eqb_neq in Hne as ->.
  - destruct (String.eqb k0 k) eqn:E; simpl.
    + apply String.eqb_eq in E as ->.
      now apply String.eqb_neq in Hne as ->.
    + now rewrite IH.
Qed.

Lemma dict_get_pop_eq (d : dict) (k : string) :
  dict_get (dict_pop d k) k = None.
Proof.
  induction d as [|[k' v'] d IH]; simpl; [reflexivity|].
  destruct (String.eqb k' k) eqn:E; simpl; [exact IH|]. now rewrite E.
Qed.

Lemma dict_get_pop_ne (d : dict) (k k' : string) :
  k <> k' -> dict_get (dict_pop d k) k' = dict_get d k'.
Proof.
  intros Hne. induction d as [|[k0 v0] d IH]; simpl; [reflexivity|].
  destruct (String.eqb k0 k) eqn:E; simpl.
  - apply String.eqb_eq in E as ->.
    now apply String.eqb_neq in Hne as ->.
  - now rewrite IH.
Qed.

Lemma dict_set_same (d : dict) (k : string) (v : value) :
  dict_get d k = Some v -> dict_set d k v = d.
Proof.
  induction d as [|[k' v'] d IH]; simpl; [discriminate|].
  destruct (String.eqb k' k) eqn:E.
  - now intros [= ->].
  - intros H. now rewrite IH.
Qed.

Lemma dict_set_set (d : dict) (k : string) (v w : value) :
  dict_set (dict_set d k v) k w = dict_set d k w.
Proof.
  induction d as [|[k' v'] d IH]; simpl.
  - now rewrite String.eqb_refl.
  - destruct (String.eqb k' k) eqn:E; simpl; rewrite E; [reflexivity|].
    now rewrite IH.
Qed.

Lemma dict_pop_absent (d : dict) (k : string) :
  dict_get d k = None -> dict_pop d k = d.
Proof.
  induction d as [|[k' v'] d IH]; simpl; [reflexivity|].
  destruct (String.eqb k' k) eqn:E; [discriminate|].
  intros H. simpl. f_equal. now apply IH.
Qed.

Lemma dict_pop_set (d : dict) (k : string) (v : value) :
  dict_get d k = None -> dict_pop (dict_set d k v) k = d.
Proof.
  induction d as [|[k' v'] d IH]; simpl.
  - now rewrite String.eqb_refl.
  - destruct (String.eqb k' k) eqn:E; [discriminate|].
    intros H. simpl. rewrite E. simpl. f_equal. now apply IH.
Qed.

Lemma dict_set_comm (d : dict) (k k' : string) (v v' : value) :
  k <> k' -> dict_get d k <> None ->
  dict_set (dict_set d k' v') k v = dict_set (dict_set d k v) k' v'.
Proof.
  intros Hne. induction d as [|[k0 v0] d IH]; simpl; [congruence|].
  intros Hk.
  destruct (String.eqb k0 k') eqn:E'; destruct (String.eqb k0 k) eqn:E;
    simpl; rewrite ?E, ?E'; try reflexivity.
  - apply String.eqb_eq in E, E'. congruence.
  - now rewrite IH.
Qed.

Lemma dict_pop_set_comm (d : dict) (k k' : string) (v' : value) :
  k <> k' -> dict_pop (dict_set d k' v') k = dict_set (dict_pop d k) k' v'.
Proof.
  intros Hne. induction d as [|[k0 v0] d IH]; simpl.
  - assert (String.eqb k' k = false) as -> by (apply String.eqb_neq; congruence).
    reflexivity.
  - destruct (String.eqb k0 k') eqn:E'; destruct (String.eqb k0 k) eqn:E;
      simpl; rewrite ?E, ?E'; simpl; try reflexivity.
    + apply String.eqb_eq in E, E'. congruence.
    + exact IH.
    + f_equal. exact IH.
Qed.

(** *** The marker *)

Lemma prefix_app (m s t : string) :
  String.prefix m s = true -> String.prefix m (s ++ t) = true.
Proof.
  revert s. induction m as [|c m IH]; intros s.
  - intros _. now destruct (s ++ t)%string.
  - destruct s as [|c' s]; simpl; [discriminate|].
    destruct (ascii_dec c c'); [apply IH|discriminate].
Qed.

Lemma contains_app (m s t : string) :
  contains m s = true -> contains m (s ++ t) = true.
Proof.
  induction s as [|c s IH].
  - simpl. rewrite orb_false_r. intros H.
    destruct m; [now destruct t|discriminate].
  - cbn [contains]. intros H. apply orb_true_iff in H as [H|H].
    + change (String c s ++ t)%string with (String c (s ++ t)).
      cbn [contains].
      apply orb_true_iff. left. now apply (prefix_app m (String c s) t).
    + change (String c s ++ t)%string with (String c (s ++ t)).
      cbn [contains]. apply orb_true_iff. right. now apply IH.
Qed.

Lemma commands_marked (which : option string) :
  (forall cmd, which = Some cmd -> contains HOOK_MARKER cmd = true) ->
  contains HOOK_MARKER (_get_hook_command which) = true /\
  contains HOOK_MARKER (_get_usage_hook_command which) = true.
Proof.
  intros Hw. unfold _get_hook_command, _get_usage_hook_command.
  destruct which as [cmd|]; [|split; reflexivity].
  destruct (String.eqb cmd ""); [split; reflexivity|].
  split; apply contains_app; now apply Hw.
Qed.

Lemma entry_is_ours (command : string) (more : list value) :
  contains HOOK_MARKER command = true ->
  _is_our_hook
    (VDict [ ("matcher", VStr ".*");
             ("hooks", VList (handler command :: more)) ]) = Done true.
Proof.
  intros H. unfold _is_our_hook, handler. cbn. now rewrite H.
Qed.

Lemma config_is_ours (which : option string) (event : string)
  (hook_list : list value) :
  (forall cmd, which = Some cmd -> contains HOOK_MARKER cmd = true) ->
  (event, hook_list) ∈ _build_hooks_config which ->
  not_ours hook_list = Done [].
Proof.
  intros Hw Hin. destruct (commands_marked which Hw) as [Hc _].
  unfold _build_hooks_config in Hin. apply list_elem_of_fmap in Hin.
  destruct Hin as (e & [= -> ->] & _).
  cbn [not_ours]. rewrite (entry_is_ours _ _ Hc). reflexivity.
Qed.

Lemma config_keys (which : option string) :
  (_build_hooks_config which).*1 = HOOK_EVENTS.
Proof. reflexivity. Qed.

Lemma HOOK_EVENTS_NoDup : NoDup HOOK_EVENTS.
Proof. apply (bool_decide_unpack _). vm_compute. reflexivity. Qed.

Lemma config_NoDup (which : option string) :
  NoDup (_build_hooks_config which).*1.
Proof. exact HOOK_EVENTS_NoDup. Qed.

(** *** The comprehension *)

Lemma not_ours_app (l m : list value) :
  not_ours (l ++ m) =
  (kept ← not_ours l; kept' ← not_ours m; Done (kept ++ kept')).
Proof.
  induction l as [|h l IH]; simpl.
  - destruct (not_ours m); reflexivity.
  - destruct (_is_our_hook h) as [b|]; simpl; [|reflexivity].
    rewrite IH. destruct (not_ours l) as [kept|]; simpl; [|reflexivity].
    destruct (not_ours m) as [kept'|]; simpl; [|reflexivity].
    now destruct b.
Qed.

Lemma not_ours_filter (items kept : list value) :
  not_ours items = Done kept ->
  kept = List.filter (fun h => negb (is_ours h)) items /\
  Forall (fun h => _is_our_hook h = Done false) kept.
Proof.
  revert kept. induction items as [|h items IH]; simpl; intros kept.
  - intros [= <-]. split; constructor.
  - unfold is_ours.
    destruct (_is_our_hook h) as [b|] eqn:Hh; simpl; [|discriminate].
    destruct (not_ours items) as [kept'|]; simpl; [|discriminate].
    destruct (IH kept' eq_refl) as [-> Hall].
    intros [= <-]. destruct b; simpl; split; auto.
Qed.

Lemma not_ours_fixed (kept : list value) :
  Forall (fun h => _is_our_hook h = Done false) kept ->
  not_ours kept = Done kept.
Proof.
  induction 1 as [|h kept Hh _ IH]; simpl; [reflexivity|].
  now rewrite Hh, IH.
Qed.

(** *** The loop of [install] *)

Lemma install_events_spec (hooks_config : list (string * list value)) :
  NoDup hooks_config.*1 ->
  forall (h : dict) (v' : value),
    install_events hooks_config (VDict h) = Done v' ->
    exists h',
      v' = VDict h' /\
      (forall e, e ∉ hooks_config.*1 -> dict_get h' e = dict_get h e) /\
      (forall e hl, (e, hl) ∈ hooks_config ->
         exists items kept,
           py_iter (get_or h e (VList [])) = Done items /\
           not_ours items = Done kept /\
           dict_get h' e = Some (VList (kept ++ hl))).
Proof.
  induction hooks_config as [|[e hl] rest IH]; intros Hnd h v'.
  - simpl. intros [= <-]. exists h. split; [reflexivity|]. split; [reflexivity|].
    intros e hl Hin. now apply elem_of_nil in Hin.
  - apply NoDup_cons in Hnd as [He Hnd]. simpl.
    destruct (py_iter (get_or h e (VList []))) as [items|] eqn:Hit; simpl;
      [|discriminate].
    destruct (not_ours items) as [kept|] eqn:Hk; simpl; [|discriminate].
    intros Hrest. apply (IH Hnd) in Hrest as (h' & -> & Hframe & Hkeys).
    exists h'. split; [reflexivity|]. split.
    + intros e' He'. apply not_elem_of_cons in He' as [Hne He'].
      rewrite (Hframe e' He'). apply dict_get_set_ne. congruence.
    + intros e' hl' Hin. apply elem_of_cons in Hin as [[= -> ->]|Hin].
      * exists items, kept. split; [exact Hit|]. split; [exact Hk|].
        rewrite (Hframe e He). apply dict_get_set_eq.
      * assert (Hne : e <> e').
        { intros ->. apply He. apply list_elem_of_fmap. now exists (e', hl'). }
        destruct (Hkeys e' hl' Hin) as (items' & kept' & Hit' & Hk' & Hget).
        exists items', kept'. split; [|split; assumption].
        rewrite <- Hit'. unfold get_or. now rewrite dict_get_set_ne.
Qed.

Lemma install_events_fixed (hooks_config : list (string * list value))
  (h : dict) :
  (forall e hl, (e, hl) ∈ hooks_config ->
     exists kept, dict_get h e = Some (VList (kept ++ hl)) /\
                  not_ours kept = Done kept /\ not_ours hl = Done []) ->
  install_events hooks_config (VDict h) = Done (VDict h).
Proof.
  induction hooks_config as [|[e hl] rest IH]; intros Hall; [reflexivity|].
  destruct (Hall e hl ltac:(now left)) as (kept & Hget & Hk & Hhl).
  simpl. unfold get_or. rewrite Hget. simpl.
  rewrite not_ours_app, Hk, Hhl. simpl. rewrite app_nil_r.
  rewrite (dict_set_same _ _ _ Hget). apply IH.
  intros e' hl' Hin. apply Hall. now right.
Qed.

Lemma install_events_dict (hooks_config : list (string * list value))
  (x v' : value) :
  hooks_config <> [] -> install_events hooks_config x = Done v' ->
  exists h, x = VDict h.
Proof.
  destruct hooks_config as [|[e hl] rest]; [congruence|]. intros _.
  destruct x; try discriminate. eauto.
Qed.

(** *** The loop of [uninstall] *)

Lemma uninstall_events_spec (events : list string) :
  NoDup events ->
  forall (h : dict) (v' : value),
    uninstall_events events (VDict h) = Done v' ->
    exists h',
      v' = VDict h' /\
      (forall e, e ∉ events -> dict_get h' e = dict_get h e) /\
      (forall e, e ∈ events ->
         exists items kept,
           py_iter (get_or h e (VList [])) = Done items /\
           not_ours items = Done kept /\
           dict_get h' e =
           match kept with [] => None | _ => Some (VList kept) end).
Proof.
  induction events as [|e rest IH]; intros Hnd h v'.
  - simpl. intros [= <-]. exists h. split; [reflexivity|]. split; [reflexivity|].
    intros e Hin. now apply elem_of_nil in Hin.
  - apply NoDup_cons in Hnd as [He Hnd]. simpl.
    destruct (py_iter (get_or h e (VList []))) as [items|] eqn:Hit; simpl;
      [|discriminate].
    destruct (not_ours items) as [kept|] eqn:Hk; simpl; [|discriminate].
    set (h1 := match kept with
               | [] => dict_pop h e
               | _ => dict_set h e (VList kept)
               end).
    assert (Hstep : (if match kept with [] => false | _ => true end
                     then Done (VDict (dict_set h e (VList kept)))
                     else Done (VDict (dict_pop h e))) = Done (VDict h1)).
    { subst h1. now destruct kept. }
    rewrite Hstep. simpl. clear Hstep.
    assert (Hother : forall e', e <> e' -> dict_get h1 e' = dict_get h e').
    { intros e' Hne. subst h1. destruct kept.
      - now apply dict_get_pop_ne.
      - now apply dict_get_set_ne. }
    assert (Hthis : dict_get h1 e =
                    match kept with [] => None | _ => Some (VList kept) end).
    { subst h1. destruct kept.
      - apply dict_get_pop_eq.
      - apply dict_get_set_eq. }
    intros Hrest. apply (IH Hnd) in Hrest as (h' & -> & Hframe & Hkeys).
    exists h'. split; [reflexivity|]. split.
    + intros e' He'. apply not_elem_of_cons in He' as [Hne He'].
      rewrite (Hframe e' He'). apply Hother. congruence.
    + intros e' Hin. apply elem_of_cons in Hin as [->|Hin].
      * exists items, kept. split; [exact Hit|]. split; [exact Hk|].
        now rewrite (Hframe e He).
      * assert (Hne : e <> e') by (intros ->; contradiction).
        destruct (Hkeys e' Hin) as (items' & kept' & Hit' & Hk' & Hget).
        exists items', kept'. split; [|split; assumption].
        rewrite <- Hit'. unfold get_or. now rewrite Hother.
Qed.

Lemma uninstall_events_fixed (events : list string) (h : dict) :
  pristine events h ->
  uninstall_events events (VDict h) = Done (VDict h).
Proof.
  induction events as [|e rest IH]; intros Hp; [reflexivity|].
  assert (Hrest : pristine rest h).
  { intros e' Hin. apply Hp. now right. }
  simpl. unfold get_or.
  destruct (Hp e ltac:(now left)) as [Hget|(l & Hget & Hl & Hk)];
    rewrite Hget; simpl.
  - rewrite (dict_pop_absent _ _ Hget). now apply IH.
  - rewrite Hk. simpl. destruct l as [|x l]; [congruence|].
    simpl. rewrite (dict_set_same _ _ _ Hget). now apply IH.
Qed.

Lemma uninstall_events_dict (events : list string) (x v' : value) :
  events <> [] -> uninstall_events events x = Done v' ->
  exists h, x = VDict h.
Proof.
  destruct events as [|e rest]; [congruence|]. intros _.
  destruct x; try discriminate. eauto.
Qed.

Lemma uninstalled_pristine (events : list string) (h h' : dict) :
  NoDup events ->
  uninstall_events events (VDict h) = Done (VDict h') ->
  pristine events h'.
Proof.
  intros Hnd Hu e Hin.
  destruct (uninstall_events_spec events Hnd h _ Hu) as (h2 & [= <-] & _ & Hkeys).
  destruct (Hkeys e Hin) as (items & kept & _ & Hk & Hget).
  destruct kept as [|x kept]; [now left|]. right.
  exists (x :: kept). split; [exact Hget|]. split; [discriminate|].
  apply not_ours_fixed. now apply (not_ours_filter items).
Qed.

(** *** The two loops as functions on the dict *)

Lemma installed_set_comm (hooks_config : list (string * list value))
  (was : dict) (k : string) (v : value) :
  k ∉ hooks_config.*1 ->
  forall d, dict_get d k <> None ->
    dict_set (installed was hooks_config d) k v =
    installed was hooks_config (dict_set d k v).
Proof.
  induction hooks_config as [|[e hl] rest IH]; intros Hk d Hd; [reflexivity|].
  apply not_elem_of_cons in Hk as [Hne Hk]. simpl in Hne.
  unfold installed in *. simpl.
  rewrite (IH Hk) by (rewrite dict_get_set_ne; congruence).
  f_equal. apply dict_set_comm; congruence.
Qed.

Lemma installed_pop_comm (hooks_config : list (string * list value))
  (was : dict) (k : string) :
  k ∉ hooks_config.*1 ->
  forall d, dict_pop (installed was hooks_config d) k =
            installed was hooks_config (dict_pop d k).
Proof.
  induction hooks_config as [|[e hl] rest IH]; intros Hk d; [reflexivity|].
  apply not_elem_of_cons in Hk as [Hne Hk]. simpl in Hne.
  unfold installed in *. simpl. rewrite (IH Hk).
  f_equal. apply dict_pop_set_comm; congruence.
Qed.

Lemma installed_frame (hooks_config : list (string * list value))
  (was : dict) (k : string) :
  k ∉ hooks_config.*1 ->
  forall d, dict_get (installed was hooks_config d) k = dict_get d k.
Proof.
  induction hooks_config as [|[e hl] rest IH]; intros Hk d; [reflexivity|].
  apply not_elem_of_cons in Hk as [Hne Hk]. simpl in Hne.
  unfold installed in *. simpl. rewrite (IH Hk).
  apply dict_get_set_ne. congruence.
Qed.

Lemma installed_get (hooks_config : list (string * list value))
  (was : dict) :
  NoDup hooks_config.*1 ->
  forall d e hl, (e, hl) ∈ hooks_config ->
    dict_get (installed was hooks_config d) e =
    Some (VList (foreign was e ++ hl)).
Proof.
  induction hooks_config as [|[e0 hl0] rest IH]; intros Hnd d e hl Hin.
  - now apply elem_of_nil in Hin.
  - apply NoDup_cons in Hnd as [He Hnd].
    apply elem_of_cons in Hin as [[= -> ->]|Hin].
    + change (installed was ((e0, hl0) :: rest) d)
        with (installed was rest
                (dict_set d e0 (VList (foreign was e0 ++ hl0)))).
      rewrite (installed_frame rest was e0 He). apply dict_get_set_eq.
    + change (installed was ((e0, hl0) :: rest) d)
        with (installed was rest
                (dict_set d e0 (VList (foreign was e0 ++ hl0)))).
      now apply IH.
Qed.

Lemma restored_installed (hooks_config : list (string * list value))
  (was : dict) :
  NoDup hooks_config.*1 ->
  forall d,
    (forall e, e ∈ hooks_config.*1 -> dict_get d e = dict_get was e) ->
    restored was hooks_config.*1 (installed was hooks_config d) = d.
Proof.
  induction hooks_config as [|[e hl] rest IH]; intros Hnd d Hd; [reflexivity|].
  apply NoDup_cons in Hnd as [He Hnd].
  change (installed was ((e, hl) :: rest) d)
    with (installed was rest (dict_set d e (VList (foreign was e ++ hl)))).
  change (restored was ((e, hl) :: rest).*1 ?x)
    with (restored was rest.*1
            match dict_get was e with
            | Some v => dict_set x e v
            | None => dict_pop x e
            end).
  assert (Hrest : forall e', e' ∈ rest.*1 -> dict_get d e' = dict_get was e').
  { intros e' Hin. apply Hd. now right. }
  specialize (Hd e ltac:(now left)). simpl in Hd.
  destruct (dict_get was e) as [v|] eqn:Hw.
  - rewrite (installed_set_comm rest was e v He)
      by (rewrite dict_get_set_eq; discriminate).
    rewrite dict_set_set, (dict_set_same _ _ _ Hd). now apply IH.
  - rewrite (installed_pop_comm rest was e He).
    rewrite (dict_pop_set _ _ _ Hd). now apply IH.
Qed.

Lemma pristine_foreign (events : list string) (was : dict) (e : string) :
  pristine events was -> e ∈ events ->
  get_or was e (VList []) = VList (foreign was e) /\
  not_ours (foreign was e) = Done (foreign was e) /\
  (dict_get was e = None /\ foreign was e = [] \/
   foreign was e <> [] /\ dict_get was e = Some (VList (foreign was e))).
Proof.
  intros Hp Hin. unfold get_or, foreign.
  destruct (Hp e Hin) as [Hget|(l & Hget & Hl & Hk)]; rewrite Hget; simpl.
  - repeat split. now left.
  - repeat split; [exact Hk|]. now right.
Qed.

Lemma install_events_pristine (hooks_config : list (string * list value))
  (was : dict) :
  pristine hooks_config.*1 was ->
  NoDup hooks_config.*1 ->
  forall d,
    (forall e, e ∈ hooks_config.*1 -> dict_get d e = dict_get was e) ->
    install_events hooks_config (VDict d) =
    Done (VDict (installed was hooks_config d)).
Proof.
  induction hooks_config as [|[e hl] rest IH]; intros Hp Hnd d Hd;
    [reflexivity|].
  apply NoDup_cons in Hnd as [He Hnd].
  destruct (pristine_foreign _ was e Hp ltac:(now left)) as (Hget & Hk & _).
  simpl. unfold get_or in *. rewrite (Hd e ltac:(now left)), Hget. simpl.
  rewrite Hk. simpl. apply IH; [|exact Hnd|].
  - intros e' Hin. apply Hp. now right.
  - intros e' Hin. rewrite dict_get_set_ne; [apply Hd; now right|].
    intros ->. contradiction.
Qed.

Lemma uninstall_events_installed (hooks_config : list (string * list value))
  (was : dict) :
  pristine hooks_config.*1 was ->
  NoDup hooks_config.*1 ->
  (forall e hl, (e, hl) ∈ hooks_config -> not_ours hl = Done []) ->
  forall d,
    (forall e hl, (e, hl) ∈ hooks_config ->
       dict_get d e = Some (VList (foreign was e ++ hl))) ->
    uninstall_events hooks_config.*1 (VDict d) =
    Done (VDict (restored was hooks_config.*1 d)).
Proof.
  induction hooks_config as [|[e hl] rest IH]; intros Hp Hnd Hours d Hd;
    [reflexivity|].
  apply NoDup_cons in Hnd as [He Hnd].
  destruct (pristine_foreign _ was e Hp ltac:(now left)) as (_ & Hk & Hcase).
  assert (Hrest : forall d1,
            (forall e', e <> e' -> dict_get d1 e' = dict_get d e') ->
            uninstall_events rest.*1 (VDict d1) =
            Done (VDict (restored was rest.*1 d1))).
  { intros d1 Hd1. apply IH; [|exact Hnd| |].
    - intros e' Hin. apply Hp. now right.
    - intros e' hl' Hin. apply (Hours e'). now right.
    - intros e' hl' Hin. rewrite Hd1; [apply Hd; now right|].
      intros ->. apply He. apply list_elem_of_fmap. now exists (e', hl'). }
  simpl. unfold get_or. rewrite (Hd e hl ltac:(now left)). simpl.
  rewrite not_ours_app, Hk, (Hours e hl ltac:(now left)). simpl.
  rewrite app_nil_r.
  change (restored was (e :: rest.*1) d)
    with (restored was rest.*1
            match dict_get was e with
            | Some v => dict_set d e v
            | None => dict_pop d e
            end).
  destruct Hcase as [[Hw Hf]|[Hf Hw]]; rewrite Hw.
  - rewrite Hf. simpl. apply Hrest.
    intros e' Hne. now apply dict_get_pop_ne.
  - destruct (foreign was e) as [|x l]; [congruence|]. simpl. apply Hrest.
    intros e' Hne. now apply dict_get_set_ne.
Qed.

(** *** [install] and [uninstall] *)

Lemma install_cases (which : option string) (settings : option file)
  (v : value) :
  install which settings = Done v ->
  exists d h h',
    _load_settings settings = VDict d /\
    get_or d "hooks" (VDict []) = VDict h /\
    install_events (_build_hooks_config which) (VDict h) = Done (VDict h') /\
    v = VDict (dict_set d "hooks" (VDict h')).
Proof.
  unfold install.
  destruct (_load_settings settings) as [| | | | |d]; try discriminate.
  cbn [py_get mbind outcome_bind].
  destruct (install_events (_build_hooks_config which)
              (get_or d "hooks" (VDict []))) as [v'|] eqn:Hi; [|discriminate].
  assert (Hne : _build_hooks_config which <> []).
  { intros H. apply (f_equal length) in H. discriminate. }
  destruct (install_events_dict _ _ _ Hne Hi) as [h Hh].
  rewrite Hh in Hi.
  destruct (install_events_spec _ (config_NoDup which) h v' Hi)
    as (h' & -> & _).
  simpl. intros [= <-]. exists d, h, h'. auto.
Qed.

Lemma uninstall_cases (settings : option file) (v : value) :
  uninstall settings = Done v ->
  exists d h h',
    _load_settings settings = VDict d /\
    get_or d "hooks" (VDict []) = VDict h /\
    uninstall_events HOOK_EVENTS (VDict h) = Done (VDict h') /\
    v = VDict match h' with
              | [] => dict_pop d "hooks"
              | _ => dict_set d "hooks" (VDict h')
              end.
Proof.
  unfold uninstall.
  destruct (_load_settings settings) as [| | | | |d]; try discriminate.
  cbn [py_get mbind outcome_bind].
  destruct (uninstall_events HOOK_EVENTS (get_or d "hooks" (VDict [])))
    as [v'|] eqn:Hu; [|discriminate].
  assert (Hne : HOOK_EVENTS <> []) by discriminate.
  destruct (uninstall_events_dict _ _ _ Hne Hu) as [h Hh].
  rewrite Hh in Hu.
  destruct (uninstall_events_spec _ HOOK_EVENTS_NoDup h v' Hu)
    as (h' & -> & _).
  intros Hv. exists d, h, h'. repeat split; try assumption.
  destruct h'; simpl in Hv; congruence.
Qed.

(** Installing twice is installing once: when the command found for
    [claude-monitor] carries the marker, [install] run on the settings it has
    written writes the same settings again. *)
Theorem install_idempotent (which : option string) (settings : option file)
  (v : value) :
  (forall cmd, which = Some cmd -> contains HOOK_MARKER cmd = true) ->
  install which settings = Done v ->
  install which (Some (Json v)) = Done v.
Proof.
  intros Hw Hi.
  destruct (install_cases _ _ _ Hi) as (d & h & h' & _ & _ & He & ->).
  destruct (install_events_spec _ (config_NoDup which) h _ He)
    as (h2 & [= <-] & _ & Hkeys).
  unfold install. simpl _load_settings. cbn [py_get mbind outcome_bind].
  unfold get_or at 1. rewrite dict_get_set_eq. simpl default.
  rewrite install_events_fixed.
  - simpl. now rewrite dict_set_set.
  - intros e hl Hin.
    destruct (Hkeys e hl Hin) as (items & kept & _ & Hk & Hget).
    exists kept. split; [exact Hget|]. split.
    + apply not_ours_fixed. now apply (not_ours_filter items).
    + now apply (config_is_ours which e).
Qed.

(** [install] keeps what it does not own: when it writes, the settings were
    an object whose [hooks] is an object; every other setting and the entries
    of every other event are as before, and each monitored event holds the
    entries it held that are not ours, in their order, followed by the entry
    of the configuration. *)
Theorem install_keeps_foreign (which : option string)
  (settings : option file) (v : value) :
  install which settings = Done v ->
  exists d d' h,
    _load_settings settings = VDict d /\
    get_or d "hooks" (VDict []) = VDict h /\
    v = VDict d' /\
    (forall k, k <> "hooks" -> dict_get d' k = dict_get d k) /\
    (forall e, e ∉ HOOK_EVENTS -> hooks_at v e = dict_get h e) /\
    (forall e hl, (e, hl) ∈ _build_hooks_config which ->
       exists items,
         py_iter (get_or h e (VList [])) = Done items /\
         hooks_at v e =
         Some (VList (List.filter (fun x => negb (is_ours x)) items ++ hl))).
Proof.
  intros Hi.
  destruct (install_cases _ _ _ Hi) as (d & h & h' & Hd & Hh & He & ->).
  destruct (install_events_spec _ (config_NoDup which) h _ He)
    as (h2 & [= <-] & Hframe & Hkeys).
  exists d, (dict_set d "hooks" (VDict h')), h.
  split; [exact Hd|]. split; [exact Hh|]. split; [reflexivity|]. split.
  { intros k Hk. apply dict_get_set_ne. congruence. }
  assert (Hat : forall e, hooks_at (VDict (dict_set d "hooks" (VDict h'))) e
                          = dict_get h' e).
  { intros e. unfold hooks_at. now rewrite dict_get_set_eq. }
  split.
  - intros e He'. rewrite Hat. now apply Hframe.
  - intros e hl Hin.
    destruct (Hkeys e hl Hin) as (items & kept & Hit & Hk & Hget).
    exists items. split; [exact Hit|]. rewrite Hat, Hget.
    now destruct (not_ours_filter _ _ Hk) as [<- _].
Qed.

(** [uninstall] removes ours and only ours: when it writes, every other
    setting and the entries of every other event are as before, and each
    monitored event holds the entries it held that are not ours, in their
    order; an event left without entries is removed, and so is [hooks] when
    no event is left. *)
Theorem uninstall_removes_ours (settings : option file) (v : value) :
  uninstall settings = Done v ->
  exists d d' h,
    _load_settings settings = VDict d /\
    get_or d "hooks" (VDict []) = VDict h /\
    v = VDict d' /\
    (forall k, k <> "hooks" -> dict_get d' k = dict_get d k) /\
    dict_get d' "hooks" <> Some (VDict []) /\
    (forall e, e ∉ HOOK_EVENTS -> hooks_at v e = dict_get h e) /\
    (forall e, e ∈ HOOK_EVENTS ->
       exists items,
         py_iter (get_or h e (VList [])) = Done items /\
         hooks_at v e =
         match List.filter (fun x => negb (is_ours x)) items with
         | [] => None
         | kept => Some (VList kept)
         end /\
         forall l x, hooks_at v e = Some (VList l) -> x ∈ l ->
                     _is_our_hook x = Done false).
Proof.
  intros Hu.
  destruct (uninstall_cases _ _ Hu) as (d & h & h' & Hd & Hh & He & ->).
  destruct (uninstall_events_spec _ HOOK_EVENTS_NoDup h _ He)
    as (h2 & [= <-] & Hframe & Hkeys).
  set (d' := match h' with
             | [] => dict_pop d "hooks"
             | _ => dict_set d "hooks" (VDict h')
             end).
  exists d, d', h.
  split; [exact Hd|]. split; [exact Hh|]. split; [reflexivity|].
  assert (Hat : forall e, hooks_at (VDict d') e = dict_get h' e).
  { intros e. unfold hooks_at. subst d'. destruct h' as [|kv h'].
    - now rewrite dict_get_pop_eq.
    - now rewrite dict_get_set_eq. }
  split.
  { intros k Hk. subst d'. destruct h'.
    - apply dict_get_pop_ne. congruence.
    - apply dict_get_set_ne. congruence. }
  split.
  { subst d'. destruct h'.
    - now rewrite dict_get_pop_eq.
    - rewrite dict_get_set_eq. congruence. }
  split.
  - intros e He'. rewrite Hat. now apply Hframe.
  - intros e Hin.
    destruct (Hkeys e Hin) as (items & kept & Hit & Hk & Hget).
    destruct (not_ours_filter _ _ Hk) as [Hf Hall].
    exists items. split; [exact Hit|]. rewrite Hat, Hget, <- Hf.
    split; [now destruct kept|].
    intros l x Hl Hx. destruct kept; [discriminate|].
    injection Hl as <-. rewrite Forall_forall in Hall. now apply Hall.
Qed.

(** Uninstalling twice is uninstalling once. *)
Theorem uninstall_idempotent (settings : option file) (v : value) :
  uninstall settings = Done v ->
  uninstall (Some (Json v)) = Done v.
Proof.
  intros Hu.
  destruct (uninstall_cases _ _ Hu) as (d & h & h' & _ & _ & He & ->).
  pose proof (uninstalled_pristine _ _ _ HOOK_EVENTS_NoDup He) as Hp.
  unfold uninstall. simpl _load_settings. cbn [py_get mbind outcome_bind].
  unfold get_or at 1. destruct h' as [|kv h'].
  - rewrite dict_get_pop_eq. simpl.
    rewrite (dict_pop_absent (dict_pop d "hooks")); [reflexivity|].
    apply dict_get_pop_eq.
  - rewrite dict_get_set_eq. simpl default.
    rewrite (uninstall_events_fixed _ _ Hp). simpl.
    now rewrite dict_set_set.
Qed.

(** [uninstall] undoes [install]: on settings that are an object whose
    [hooks], when present, is a non-empty object that holds, for each
    monitored event, either nothing or a non-empty list without a hook of
    ours, [install] writes, and [uninstall] run on what it wrote writes the
    settings back as they were. *)
Theorem uninstall_undoes_install (which : option string) (d : dict) :
  (forall cmd, which = Some cmd -> contains HOOK_MARKER cmd = true) ->
  match dict_get d "hooks" with
  | None => True
  | Some hooks =>
      exists h, hooks = VDict h /\ h <> [] /\ pristine HOOK_EVENTS h
  end ->
  exists v,
    install which (Some (Json (VDict d))) = Done v /\
    uninstall (Some (Json v)) = Done (VDict d).
Proof.
  intros Hw Hd.
  set (config := _build_hooks_config which).
  assert (Hnd : NoDup config.*1) by apply config_NoDup.
  assert (Hwas : exists was,
            get_or d "hooks" (VDict []) = VDict was /\
            pristine config.*1 was /\
            match was with
            | [] => dict_get d "hooks" = None
            | _ => dict_get d "hooks" = Some (VDict was)
            end).
  { unfold get_or. destruct (dict_get d "hooks") as [hooks|].
    - destruct Hd as (h & -> & Hne & Hp). exists h. simpl.
      split; [reflexivity|]. split; [exact Hp|]. now destruct h.
    - exists []. simpl. split; [reflexivity|]. split; [|reflexivity].
      intros e _. now left. }
  destruct Hwas as (was & Hget & Hp & Hcase).
  pose proof (install_events_pristine config was Hp Hnd was
                ltac:(reflexivity)) as Hi.
  pose proof (uninstall_events_installed config was Hp Hnd
                ltac:(intros e hl; apply config_is_ours; exact Hw)
                (installed was config was)
                ltac:(intros e hl; apply installed_get; exact Hnd)) as Hu.
  rewrite (restored_installed config was Hnd was ltac:(reflexivity)) in Hu.
  set (h1 := installed was config was) in *.
  exists (VDict (dict_set d "hooks" (VDict h1))).
  split.
  - unfold install. simpl _load_settings. cbn [py_get mbind outcome_bind].
    rewrite Hget. fold config. rewrite Hi. reflexivity.
  - unfold uninstall. simpl _load_settings. cbn [py_get mbind outcome_bind].
    unfold get_or at 1. rewrite dict_get_set_eq. simpl default.
    change HOOK_EVENTS with config.*1. rewrite Hu.
    destruct was as [|kv was]; simpl.
    + now rewrite (dict_pop_set _ _ _ Hcase).
    + now rewrite dict_set_set, (dict_set_same _ _ _ Hcase).
Qed.

(** ** Examples, in the concrete environment *)

Local Abbreviation demo_hook :=
  (handle_hook demo_wide_word demo_format demo_exists demo_transcript).
Local Abbreviation demo_run :=
  (run_hooks demo_wide_word demo_format demo_exists demo_transcript).
Local Abbreviation demo_sessions :=
  (get_sessions demo_fromisoformat demo_timestamp demo_glob).

Example clean_scenario :
  _clean_prompt demo_wide_word "<system-reminder>x</system-reminder>fix the bug" = "fix the bug".
Proof. reflexivity. Qed.

Example clean_ide :
  _clean_prompt demo_wide_word " <ide_selection>a
b</ide_opened_file> hi <ide_x>unclosed  " = "hi <ide_x>unclosed".
Proof. reflexivity. Qed.

(** White space and word characters beyond ASCII: a no-break space is
    stripped, and a tag may be named with an accented letter. *)
Example clean_unicode :
  _clean_prompt demo_wide_word (nbsp ++ "fix" ++ nbsp) = "fix" /\
  _clean_prompt demo_wide_word
    ("<ide_caf" ++ e_acute ++ ">x</ide_caf" ++ e_acute ++ "> y") = "y".
Proof. split; vm_compute; reflexivity. Qed.

Example lineage_abs :
  lineage (parse_path "/repo//proj/./src/") =
  [mkPath "/" ["repo"; "proj"; "src"]; mkPath "/" ["repo"; "proj"];
   mkPath "/" ["repo"]; mkPath "/" []].
Proof. reflexivity. Qed.

Example project_of_subdirectory :
  _project_name demo_exists "/repo/proj/src" = "proj" /\
  _project_name demo_exists "/elsewhere/app" = "app".
Proof. split; reflexivity. Qed.

(** The scenario of a session: start, prompt, tool, stop, end. *)
Example scenario_start_prompt :
  demo_run [(n_start, t_0901); (n_prompt, t_1000)] ∅ !! "S1" =
  Some (Json (VDict
    [("session_id", VStr "S1"); ("cwd", VStr "/repo/proj/src");
     ("project", VStr "proj"); ("status", VStr "THINKING"); ("tool_name", VNull);
     ("permission_mode", VStr ""); ("model", VStr "opus");
     ("topic", VStr "fix the bug");
     ("last_prompt", VStr "<system-reminder>x</system-reminder>fix the bug");
     ("tool_count", VInt 0); ("started_at", VStr t_0901);
     ("last_updated", VStr t_1000); ("subagents", VList [])])).
Proof. vm_compute. reflexivity. Qed.

Example scenario_end :
  demo_run [(n_start, t_0901); (n_prompt, t_1000); (n_stop, t_1005);
            (n_end, t_1200)] ∅ !! "S1" = None.
Proof. vm_compute. reflexivity. Qed.

Example unknown_session_subagent :
  demo_hook n_agent_start t_1000 ∅ = (Done (), ∅).
Proof. vm_compute. reflexivity. Qed.

(** ** Where the claims as written fail *)

(** C1 as written fails twice over.  The end of a session, processed with an
    older clock reading than the start it follows, removes the record the
    start persisted; and when N1 is dropped by the guard (a permission request
    on a WAITING session), an older N2 is written all the same. *)
Lemma anti_regression_as_written_fails :
  (String.ltb t_1000 t_1005 = true /\
   demo_run [(n_start, t_1005); (n_end, t_1000)] ∅ !! "S1" = None /\
   demo_run [(n_start, t_1005)] ∅ !! "S1" <> None) /\
  (String.ltb t_1005 t_1200 = true /\
   demo_run [(n_permission, t_1200)] (fs_s1 "WAITING") = fs_s1 "WAITING" /\
   demo_run [(n_permission, t_1200); (n_prompt, t_1005)] (fs_s1 "WAITING") !! "S1"
   <> fs_s1 "WAITING" !! "S1").
Proof.
  split; (split; [reflexivity|]); split.
  - vm_compute. reflexivity.
  - vm_compute. discriminate.
  - vm_compute. reflexivity.
  - vm_compute. discriminate.
Qed.

(** C4 as written fails: a generic notification that signals no permission
    prompt and carries nothing new (the [cwd] of the record, no other member)
    is written: the record on disk gets the clock reading of the run. *)
Lemma generic_notification_writes :
  proposed_status "Notification" n_generic = None /\
  fs_s1 "THINKING" !! "S1" =
    Some (Json (VDict (record "S1" "THINKING" "proj" "fix the bug" t_1000 []))) /\
  snd (demo_hook n_generic t_1005 (fs_s1 "THINKING")) !! "S1" =
    Some (Json (VDict (record "S1" "THINKING" "proj" "fix the bug" t_1005 []))).
Proof. repeat split; vm_compute; reflexivity. Qed.


(** The other way in which the backfill is not silent: a transcript that
    does not decode makes the run raise, and the notification, here the
    first of its session, leaves no record. *)
Example undecodable_transcript_raises :
  _read_topic_from_transcript demo_wide_word torn_transcript "/t/torn.jsonl"
    = Raised UnicodeDecodeError /\
  handle_hook demo_wide_word demo_format demo_exists torn_transcript
              n_stop_torn t_1005 ∅
    = (Raised UnicodeDecodeError, ∅).
Proof. split; vm_compute; reflexivity. Qed.

(** C7 as written fails: a notification without [cwd], accepted after the
    record was created with project ["proj"], replaces the project (and the
    [cwd]) by the empty string. *)
Lemma project_is_replaced :
  exists e e',
    fs_s1 "EXECUTING" !! "S1" = Some (Json (VDict e)) /\
    dict_get e "project" = Some (VStr "proj") /\
    snd (demo_hook n_post_tool t_1005 (fs_s1 "EXECUTING")) !! "S1"
      = Some (Json (VDict e')) /\
    dict_get e' "project" = Some (VStr "") /\
    dict_get e' "cwd" = Some (VStr "").
Proof.
  eexists _, _. repeat split; vm_compute; reflexivity.
Qed.

(** ** The theorems at concrete inputs *)

Lemma anti_regression_witness :
  demo_run [(n_start, t_1005); (n_prompt, t_1000)] ∅
  = demo_run [(n_start, t_1005)] ∅.
Proof.
  eapply (anti_regression demo_wide_word demo_format demo_exists demo_transcript
            n_start n_prompt t_1005 t_1000 ∅ "S1").
  - reflexivity.
  - reflexivity.
  - vm_compute. discriminate.
  - reflexivity.
  - vm_compute. reflexivity.
  - reflexivity.
  - reflexivity.
Defined.

Lemma last_updated_never_decreases_witness :
  write_session demo_format (state_s1 "EXECUTING" t_0901) (fs_s1 "WAITING")
    = (Done (), fs_s1 "WAITING") /\
  exists e' t',
    saves demo_format [state_s1 "EXECUTING" t_0901; state_s1 "THINKING" t_1005]
          (fs_s1 "WAITING") !! "S1" = Some (Json (VDict e')) /\
    get_or e' "last_updated" (VStr "") = VStr t' /\
    String.ltb t' t_1000 = false.
Proof.
  destruct (last_updated_never_decreases demo_format (fs_s1 "WAITING") "S1"
              (record "S1" "WAITING" "proj" "fix the bug" t_1000 []) t_1000
              eq_refl eq_refl) as [Hskip Hmono].
  split.
  - apply (Hskip (state_s1 "EXECUTING" t_0901) t_0901); reflexivity.
  - apply Hmono.
Defined.

Lemma regression_guard_spec_witness :
  demo_hook n_permission t_1200 (fs_s1 "WAITING") = (Done (), fs_s1 "WAITING").
Proof.
  destruct (regression_guard_spec demo_wide_word demo_format demo_exists demo_transcript)
    as (_ & Hdrop & _).
  eapply (Hdrop n_permission t_1200 (fs_s1 "WAITING")).
  - vm_compute. reflexivity.
  - vm_compute. reflexivity.
Defined.

Lemma unmapped_event_is_noop_witness :
  demo_hook n_unknown t_1005 (fs_s1 "THINKING") = (Done (), fs_s1 "THINKING").
Proof.
  destruct (unmapped_event_is_noop demo_wide_word demo_format demo_exists demo_transcript)
    as [Hnoop _].
  apply (Hnoop n_unknown t_1005 (fs_s1 "THINKING"));
    vm_compute; (reflexivity || discriminate).
Defined.

Lemma subagent_start_idempotent_witness :
  disk_ok (demo_run [(n_start, t_0901); (n_agent_start, t_1000);
                     (n_agent_start, t_1005)] ∅).
Proof.
  destruct (subagent_start_idempotent demo_wide_word demo_format demo_exists demo_transcript)
    as (_ & _ & Hrun & Hempty).
  apply Hrun, Hempty.
Defined.


Lemma project_rules_witness :
  let p := parse_path "/repo/proj/src" in
  (exists d,
      In d (lineage p) /\
      demo_exists (joinpath d ".git") = true /\
      _project_name demo_exists "/repo/proj/src" = name d /\
      (forall d', In d' (lineage p) ->
                  demo_exists (joinpath d' ".git") = true ->
                  parts d' `prefix_of` parts d)) \/
  ((forall d, In d (lineage p) -> demo_exists (joinpath d ".git") = false) /\
   _project_name demo_exists "/repo/proj/src" = name p).
Proof.
  destruct (project_rules demo_wide_word demo_exists demo_transcript)
    as (_ & Hnearest & _).
  apply (Hnearest "/repo/proj/src"). discriminate.
Defined.

Lemma fs_mixed_listable (k : string) (f : file) :
  fs_mixed !! k = Some f -> listable demo_fromisoformat k f.
Proof.
  unfold fs_mixed. rewrite !lookup_insert_Some, lookup_empty.
  intros [[<- <-]|[_ [[<- <-]|[_ [[<- <-]|[_ [[<- <-]|[_ H]]]]]]]];
    try discriminate; unfold listable; try exact I.
  - eexists _, _. split; [reflexivity|]. vm_compute. reflexivity.
  - eexists _, _. split; [reflexivity|]. vm_compute. reflexivity.
  - eexists _, _. split; [reflexivity|]. vm_compute. reflexivity.
Qed.


Lemma subagent_frame_witness :
  snd (demo_hook n_agent_start t_1005 (fs_s1 "PERMISSION")) = fs_s1 "PERMISSION" \/
  exists e',
    snd (demo_hook n_agent_start t_1005 (fs_s1 "PERMISSION"))
      = <["S1" := Json (VDict e')]> (fs_s1 "PERMISSION") /\
    (forall k v, In k frame_keys ->
                 dict_get (record "S1" "PERMISSION" "proj" "fix the bug" t_1000 []) k
                   = Some v ->
                 dict_get e' k = Some v) /\
    dict_get e' "last_updated" = Some (VStr t_1005) /\
    dict_get e' "status" = Some (VStr "THINKING") /\
    exists l, dict_get e' "subagents" = Some (VList l).
Proof.
  apply (subagent_frame demo_wide_word demo_format demo_exists demo_transcript
           n_agent_start t_1005 (fs_s1 "PERMISSION") "S1" "SubagentStart"
           (record "S1" "PERMISSION" "proj" "fix the bug" t_1000 []));
    try reflexivity.
  now left.
Defined.

Lemma unparsable_stamp_is_zombie_witness :
  exists sessions fs' state,
    demo_sessions (demo_clock t_1200) fs_mixed = (Done sessions, fs') /\
    load_session "bare" (VDict [("session_id", VStr "bare"); ("status", VStr "THINKING")])
      = Done state /\
    last_updated_dt demo_fromisoformat state = datetime_min_utc /\
    (state ∉ sessions) /\
    fs' !! "bare" = None.
Proof.
  apply (unparsable_stamp_is_zombie demo_fromisoformat demo_timestamp demo_glob
           (demo_clock t_1200) fs_mixed "bare").
  - reflexivity.
  - exact fs_mixed_listable.
  - vm_compute. reflexivity.
  - vm_compute. reflexivity.
  - left. split; reflexivity.
Defined.

(** What the listing of the mixed directory comes to. *)
Example mixed_directory_listing :
  exists state,
    demo_sessions (demo_clock t_1200) fs_mixed
    = (Done [state],
       <[ "fresh" := Json (VDict (record "fresh" "THINKING" "proj" "" t_1000 [])) ]>
       (<[ "torn" := Unreadable ]> ∅)) /\
    SessionState.session_id state = VStr "fresh".
Proof.
  eexists. split.
  - unfold get_sessions. vm_compute. reflexivity.
  - reflexivity.
Qed.

(** The listing of the directory of 2300: the two records a microsecond
    apart have the same [timestamp()] and stay in the order of the first
    sort, the earlier stamp first; the third, a second older, is last. *)
Example far_future_listing :
  exists sessions fs',
    demo_sessions (demo_clock t_2300) fs_far = (Done sessions, fs') /\
    map SessionState.session_id sessions = [VStr "a"; VStr "b"; VStr "c"] /\
    demo_timestamp (Aware (demo_clock "2300-01-01T00:00:00.000001+00:00"))
    = demo_timestamp (Aware (demo_clock "2300-01-01T00:00:00.000002+00:00")).
Proof.
  eexists _, _. split; [vm_compute; reflexivity|].
  split; vm_compute; reflexivity.
Qed.

(** ** The further properties at concrete inputs *)

Lemma raising_changes_nothing_witness :
  fst (demo_hook n_prompt t_1005 fs_bad) = Raised AttributeError /\
  snd (demo_hook n_prompt t_1005 fs_bad) = fs_bad.
Proof.
  destruct (raising_changes_nothing demo_wide_word demo_format demo_exists demo_transcript)
    as [Hraise _].
  split; [vm_compute; reflexivity|].
  apply (Hraise n_prompt t_1005 fs_bad _ AttributeError).
  vm_compute. reflexivity.
Defined.

Lemma dropped_notifications_witness :
  demo_hook n_agent_start t_1005 ∅ = (Done (), ∅).
Proof.
  apply (dropped_notifications demo_wide_word demo_format demo_exists demo_transcript
           n_agent_start t_1005 ∅).
  right. split.
  - left. reflexivity.
  - left. reflexivity.
Defined.

Lemma other_sessions_untouched_witness :
  snd (demo_hook n_prompt t_1005 fs_with_s1) !! "fresh" = fs_with_s1 !! "fresh".
Proof.
  apply (other_sessions_untouched demo_wide_word demo_format demo_exists demo_transcript
           n_prompt t_1005 fs_with_s1 "fresh").
  - vm_compute. discriminate.
  - intros e He. vm_compute in He. injection He as <-. reflexivity.
Defined.

Lemma started_at_immutable_witness :
  (exists e',
      snd (demo_hook n_prompt t_1005 (fs_s1 "WAITING")) !! "S1"
      = Some (Json (VDict e')) /\
      dict_get e' "started_at" = Some (VStr t_0901)) \/
  (n_prompt !! "hook_event_name" = Some "SessionEnd" /\
   snd (demo_hook n_prompt t_1005 (fs_s1 "WAITING")) !! "S1" = None).
Proof.
  apply (started_at_immutable demo_wide_word demo_format demo_exists demo_transcript
           n_prompt t_1005 (fs_s1 "WAITING") "S1"
           (record "S1" "WAITING" "proj" "fix the bug" t_1000 []));
    reflexivity.
Defined.

Lemma no_ended_record_persists_witness :
  no_ended (demo_run [(n_start, t_0901); (n_end, t_1000); (n_stop, t_1005)] ∅).
Proof.
  destruct (no_ended_record_persists demo_wide_word demo_format demo_exists demo_transcript)
    as [Hrun Hempty].
  apply Hrun, Hempty.
Defined.

Lemma demo_transcripts_read (path : string) :
  exists t, _read_topic_from_transcript demo_wide_word demo_transcript path = Done t.
Proof.
  unfold _read_topic_from_transcript, demo_transcript.
  destruct (String.eqb path ""); [eexists; reflexivity|].
  destruct (String.eqb path "/t/s1.jsonl"); eexists; [vm_compute|]; reflexivity.
Qed.

Lemma tool_counter_witness :
  exists f' ts',
    demo_run [(n_post_tool, t_1000); (n_stop, t_1005); (n_post_tool, t_1200)]
             (fs_s1 "EXECUTING") !! "S1" = Some f' /\
    counting_record "S1" 5 ts' f'.
Proof.
  apply (tool_counter demo_wide_word demo_format demo_exists demo_transcript
           [(n_post_tool, t_1000); (n_stop, t_1005); (n_post_tool, t_1200)]
           (fs_s1 "EXECUTING") "S1" 3 t_1000
           (Json (VDict (record "S1" "EXECUTING" "proj" "fix the bug" t_1000 [])))).
  - discriminate.
  - reflexivity.
  - eexists _, []. repeat split; try reflexivity. constructor.
  - repeat constructor; vm_compute; discriminate.
  - repeat split; vm_compute; reflexivity.
  - exact demo_transcripts_read.
Defined.

Lemma stop_undoes_start_witness :
  merge_subagent "SubagentStart" (VList []) "a1" "Explore" t_1000
    = Done ([] ++ [new_subagent "a1" "Explore" t_1000]) /\
  merge_subagent "SubagentStop"
    (VList ([] ++ [new_subagent "a1" "Explore" t_1000])) "a1" "" t_1005
    = Done [] /\
  merge_subagent "SubagentStop" (VList []) "a1" "" t_1005 = Done [].
Proof.
  apply (stop_undoes_start [] "a1" "Explore" t_1000 "" t_1005). reflexivity.
Defined.


Lemma listing_is_ordered_witness :
  exists sessions fs',
    demo_sessions (demo_clock t_2300) fs_far = (Done sessions, fs') /\
    StronglySorted (listed_before demo_fromisoformat demo_timestamp) sessions.
Proof.
  eexists _, _. split.
  - vm_compute. reflexivity.
  - eapply (listing_is_ordered demo_fromisoformat demo_timestamp demo_glob
              (demo_clock t_2300) fs_far).
    vm_compute. reflexivity.
Defined.

Lemma fs_mixed_cleans (k : string) (f : file) :
  fs_mixed !! k = Some f ->
  exists b, cleanup_file demo_fromisoformat 1 (demo_clock t_1005) f = Done b.
Proof.
  unfold fs_mixed. rewrite !lookup_insert_Some, lookup_empty.
  intros [[<- <-]|[_ [[<- <-]|[_ [[<- <-]|[_ [[<- <-]|[_ H]]]]]]]];
    try discriminate; eexists; vm_compute; reflexivity.
Qed.

Lemma cleanup_removes_and_counts_witness :
  exists n fs',
    cleanup_old_sessions demo_fromisoformat demo_glob 1 (demo_clock t_1005)
                         fs_mixed = (Done n, fs') /\
    (n + size fs' = size fs_mixed)%nat /\
    (forall k f, fs' !! k = Some f <->
       fs_mixed !! k = Some f /\
       exists d s us,
         f = Json (VDict d) /\
         get_or d "last_updated" (VStr "") = VStr s /\
         demo_fromisoformat s = Some (Aware us) /\
         demo_clock t_1005 - us <= 1 * 3600 * 1000000) /\
    (forall k, fs_mixed !! k = Some Unreadable -> fs' !! k = None).
Proof.
  apply (cleanup_removes_and_counts demo_fromisoformat demo_glob 1
           (demo_clock t_1005) fs_mixed).
  - lia.
  - reflexivity.
  - exact fs_mixed_cleans.
Defined.

Lemma cleanup_raises_witness :
  exists x fs',
    cleanup_old_sessions demo_fromisoformat demo_glob 1 (demo_clock t_1005)
                         fs_stray = (Raised x, fs').
Proof.
  apply (cleanup_raises demo_fromisoformat demo_glob 1 (demo_clock t_1005)
           fs_stray "stray" (VList [])).
  - reflexivity.
  - reflexivity.
  - exact I.
Defined.

Lemma demo_which_marked (cmd : string) :
  demo_which = Some cmd -> contains HOOK_MARKER cmd = true.
Proof. intros [= <-]. reflexivity. Qed.

Lemma install_idempotent_witness :
  exists v,
    install demo_which (Some (Json (VDict demo_settings_flat))) = Done v /\
    install demo_which (Some (Json v)) = Done v.
Proof.
  eexists. split.
  - vm_compute. reflexivity.
  - apply (install_idempotent demo_which
             (Some (Json (VDict demo_settings_flat)))).
    + exact demo_which_marked.
    + vm_compute. reflexivity.
Defined.

Lemma install_keeps_foreign_witness :
  exists v d d' h,
    install demo_which (Some (Json (VDict demo_settings_flat))) = Done v /\
    _load_settings (Some (Json (VDict demo_settings_flat))) = VDict d /\
    get_or d "hooks" (VDict []) = VDict h /\
    v = VDict d' /\
    (forall k, k <> "hooks" -> dict_get d' k = dict_get d k) /\
    (forall e, e ∉ HOOK_EVENTS -> hooks_at v e = dict_get h e) /\
    (forall e hl, (e, hl) ∈ _build_hooks_config demo_which ->
       exists items,
         py_iter (get_or h e (VList [])) = Done items /\
         hooks_at v e =
         Some (VList (List.filter (fun x => negb (is_ours x)) items ++ hl))).
Proof.
  eexists.
  assert (H : install demo_which (Some (Json (VDict demo_settings_flat)))
              = Done _) by (vm_compute; reflexivity).
  destruct (install_keeps_foreign demo_which _ _ H) as (d & d' & h & Hrest).
  exists d, d', h. split; [exact H|exact Hrest].
Defined.

Lemma uninstall_removes_ours_witness :
  hooks_at (VDict demo_settings_flat) "Stop"
    = Some (VList [flat_hook; other_hook]) /\
  exists v,
    uninstall (Some (Json (VDict demo_settings_flat))) = Done v /\
    hooks_at v "Stop" = Some (VList [other_hook]) /\
    _is_our_hook other_hook = Done false.
Proof.
  split; [reflexivity|]. eexists.
  assert (H : uninstall (Some (Json (VDict demo_settings_flat))) = Done _)
    by (vm_compute; reflexivity).
  split; [exact H|].
  destruct (uninstall_removes_ours _ _ H)
    as (d & d' & h & _ & _ & _ & _ & _ & _ & Hkeys).
  destruct (Hkeys "Stop") as (items & _ & Hat & Hclean).
  { apply (bool_decide_unpack _). vm_compute. reflexivity. }
  split; [reflexivity|].
  apply (Hclean [other_hook]); [reflexivity|now left].
Defined.

Lemma uninstall_idempotent_witness :
  exists v,
    uninstall (Some (Json (VDict demo_settings_flat))) = Done v /\
    uninstall (Some (Json v)) = Done v.
Proof.
  eexists. split.
  - vm_compute. reflexivity.
  - apply (uninstall_idempotent (Some (Json (VDict demo_settings_flat)))).
    vm_compute. reflexivity.
Defined.

Lemma demo_settings_pristine :
  pristine HOOK_EVENTS [("Stop", VList [other_hook])].
Proof.
  intros e He. destruct (String.eqb_spec e "Stop") as [->|Hne].
  - right. exists [other_hook]. split; [reflexivity|].
    split; [discriminate|reflexivity].
  - left. assert (E : String.eqb "Stop" e = false)
      by (apply String.eqb_neq; congruence).
    unfold dict_get. now rewrite E.
Qed.

Lemma uninstall_undoes_install_witness :
  exists v,
    install demo_which (Some (Json (VDict demo_settings))) = Done v /\
    uninstall (Some (Json v)) = Done (VDict demo_settings).
Proof.
  apply (uninstall_undoes_install demo_which demo_settings).
  - exact demo_which_marked.
  - simpl. eexists. split; [reflexivity|]. split; [discriminate|].
    exact demo_settings_pristine.
Defined.
